(** * rblineprof: a shallow embedding of [ext/rblineprof.c]

    The profiler keeps one global structure, [rblineprof], which the line
    hook [profiler_hook] updates on every executed line and which
    [lineprof] resets, fills (by running the block) and summarises.

    The embedding passes that structure explicitly.  What the extension
    obtains from the Ruby 1.8 runtime is kept symbolic:
    - the clock: every line event carries the value [timeofday_usec()]
      returns if the hook reads it at that event (a [uint64_t]);
    - a Regexp object is the function [rb_reg_search] computes on it;
    - [rb_source_filename] interns a path: the address of the interned copy
      of each text is given by a function [intern_addr] of the host;
    - the block handed to [lineprof] is the list of line events it fires
      followed by the way it leaves ([rb_yield] under [rb_ensure]). *)

From Stdlib Require Import ZArith Lia SpecFloat.
From stdpp Require Import gmap strings list fin_maps.

Local Open Scope Z_scope.

(** ** Machine integers *)

(** [uint64_t] arithmetic wraps modulo [2^64]. *)
Definition uint64_max : Z := 2 ^ 64.

Definition uint64 (z : Z) : Z := z mod uint64_max.

Definition is_uint64 (z : Z) : Prop := 0 <= z < uint64_max.

(** ** Strings in C memory *)

(** A non-NULL [char *]: the address it holds and the text stored there.
    [==] on two [char *] compares [c_addr]; [st_init_strtable] keys,
    [strdup] and [rb_str_new2] read [c_text]. *)
Record cstr : Type := CStr { c_addr : Z; c_text : string }.

(** ** [sourcefile_t] *)

(** [filename] keeps the text the [char *] points to ([None] is NULL);
    [lines] is [None] while the array pointer is NULL. *)
Record sourcefile_t : Type := mk_sourcefile {
  filename : option string;
  lines : option (list Z);
  nlines : Z;
  last_time : Z;
  last_line : Z
}.

(** A record after [MEMZERO], and the static initial value of
    [rblineprof.file]. *)
Definition sourcefile_zero : sourcefile_t := mk_sourcefile None None 0 0 0.

Definition set_filename (f : option string) (sf : sourcefile_t) : sourcefile_t :=
  mk_sourcefile f (lines sf) (nlines sf) (last_time sf) (last_line sf).

Definition set_lines (a : option (list Z)) (n : Z) (sf : sourcefile_t) : sourcefile_t :=
  mk_sourcefile (filename sf) a n (last_time sf) (last_line sf).

Definition set_last_time (t : Z) (sf : sourcefile_t) : sourcefile_t :=
  mk_sourcefile (filename sf) (lines sf) (nlines sf) t (last_line sf).

Definition set_last (t l : Z) (sf : sourcefile_t) : sourcefile_t :=
  mk_sourcefile (filename sf) (lines sf) (nlines sf) t l.

(** ** The global [rblineprof] *)

(** A Regexp object, as far as the extension uses it: the result of
    [rb_reg_search(re, str, 0, 0)], the match position or a negative number. *)
Record Regexp : Type := mk_Regexp { rb_reg_search : string -> Z }.

(** The argument of [lineprof], by [rb_obj_class]. *)
Inductive VALUE : Type :=
| VString (s : string)
| VRegexp (re : Regexp)
| VOther.

(** The values stored in the [st_table]: [Qnil] marks a known negative
    match, anything else is the [sourcefile_t *] the table owns. *)
Inductive st_entry : Type :=
| entry_Qnil
| entry_record (sf : sourcefile_t).

(** A [sourcefile_t *]: either [&rblineprof.file] or the record owned by the
    table entry of a path.  A heap record is created at one place only
    (line 79), inserted at once under its own file name and freed only
    together with its entry, so its address and its key determine each
    other. *)
Inductive fileref : Type :=
| ref_file
| ref_entry (key : string).

#[global] Instance fileref_eq_dec : EqDecision fileref.
Proof. solve_decision. Defined.

Record rblineprof_t : Type := mk_rblineprof {
  enabled : bool;
  source_filename : option cstr;
  file : sourcefile_t;
  source_regex : option Regexp;
  files : gmap string st_entry;
  last_file : option fileref
}.

(** The static initialiser (lines 35-41) followed by [Init_rblineprof]
    (line 226), which creates the empty string table. *)
Definition Init_rblineprof : rblineprof_t :=
  mk_rblineprof false None sourcefile_zero None ∅ None.

Definition set_file (sf : sourcefile_t) (g : rblineprof_t) : rblineprof_t :=
  mk_rblineprof (enabled g) (source_filename g) sf (source_regex g) (files g) (last_file g).

Definition set_files (m : gmap string st_entry) (g : rblineprof_t) : rblineprof_t :=
  mk_rblineprof (enabled g) (source_filename g) (file g) (source_regex g) m (last_file g).

Definition set_last_file (p : option fileref) (g : rblineprof_t) : rblineprof_t :=
  mk_rblineprof (enabled g) (source_filename g) (file g) (source_regex g) (files g) p.

Definition set_enabled (b : bool) (g : rblineprof_t) : rblineprof_t :=
  mk_rblineprof b (source_filename g) (file g) (source_regex g) (files g) (last_file g).

(** Dereferencing a [sourcefile_t *]. *)
Definition get_record (g : rblineprof_t) (p : fileref) : option sourcefile_t :=
  match p with
  | ref_file => Some (file g)
  | ref_entry k =>
      match files g !! k with
      | Some (entry_record sf) => Some sf
      | _ => None
      end
  end.

(** Writing through a [sourcefile_t *].  A pointer into the table that no
    entry owns any more is never written in a run of the program (the table
    is only emptied where [last_file] is reset); the model leaves the state
    as it is there. *)
Definition put_record (p : fileref) (sf : sourcefile_t) (g : rblineprof_t) : rblineprof_t :=
  match p with
  | ref_file => set_file sf g
  | ref_entry k =>
      match files g !! k with
      | Some (entry_record _) => set_files (<[k := entry_record sf]> (files g)) g
      | _ => g
      end
  end.

(** ** The line hook *)

(** The node of a line event: [node->nd_file] ([None] is NULL) and
    [nd_line(node)]. *)
Record NODE : Type := mk_NODE { nd_file : option cstr; nd_line : Z }.

(** Lines 95-99: the array is allocated at the first sample, sized by the
    line about to be credited. *)
Definition alloc_lines (sf : sourcefile_t) : sourcefile_t :=
  match lines sf with
  | None =>
      let n := last_line sf + 100 in
      set_lines (Some (replicate (Z.to_nat n) 0)) n sf
  | Some _ => sf
  end.

(** Lines 102-108: [REALLOC_N] keeps the first [prev_nlines] cells, and
    [MEMZERO] clears the cells from [prev_nlines] on. *)
Definition grow_lines (sf : sourcefile_t) : sourcefile_t :=
  if nlines sf <=? last_line sf then
    let prev_nlines := nlines sf in
    let n := last_line sf + 100 in
    set_lines
      (option_map
         (fun a => take (Z.to_nat prev_nlines) a ++ replicate (Z.to_nat (n - prev_nlines)) 0)
         (lines sf))
      n sf
  else sf.

(** Line 111: [lines[last_line] += now - last_time], in [uint64_t].  The
    index is in range after [grow_lines] when [last_line] is not negative;
    a negative index (undefined in C, and never reached: [last_line] is only
    set from a positive line) writes nothing here. *)
Definition record_sample (now : Z) (sf : sourcefile_t) : sourcefile_t :=
  if last_line sf <? 0 then sf
  else
    set_lines
      (option_map
         (alter (fun x => uint64 (x + uint64 (now - last_time sf))) (Z.to_nat (last_line sf)))
         (lines sf))
      (nlines sf) sf.

(** Lines 93-115: the open interval, if there is one, is credited to the
    line that was left; then the record remembers this event. *)
Definition hook_sample (line now : Z) (sf : sourcefile_t) : sourcefile_t :=
  let sf' :=
    if last_time sf =? 0 then sf
    else record_sample now (grow_lines (alloc_lines sf)) in
  set_last now line sf'.

(** Lines 117-120: the record that was active before, if it is another one,
    has its interval closed; this record becomes the active one. *)
Definition hook_switch (p : fileref) (g : rblineprof_t) : rblineprof_t :=
  let g' :=
    match last_file g with
    | Some q =>
        if decide (q = p) then g
        else
          match get_record g q with
          | Some sf => put_record q (set_last_time 0 sf) g
          | None => g
          end
    | None => g
    end in
  set_last_file (Some p) g'.

(** What the hook asks of the runtime, in order: searches of the pattern,
    and (in [lineprof]) the event hook and the block. *)
Inductive host_call : Type :=
| call_reg_search (path : string)
| call_add_event_hook
| call_yield
| call_remove_event_hook.

#[global] Instance host_call_eq_dec : EqDecision host_call.
Proof. solve_decision. Defined.

(** The match of line 78.  [source_regex] is a Regexp whenever the hook runs
    in regex mode ([lineprof] stores it before it adds the hook); on
    [Qfalse] the model reports no match. *)
Definition regex_matches (g : rblineprof_t) (path : string) : bool :=
  match source_regex g with
  | Some re => 0 <=? rb_reg_search re path
  | None => false
  end.

(** Lines 63-88: the record an event belongs to, if any, with the table as
    the lookup leaves it and the pattern searches made. *)
Definition hook_select (g : rblineprof_t) (f : cstr)
  : option fileref * rblineprof_t * list host_call :=
  match source_filename g with
  | Some target =>
      if c_addr target =? c_addr f then
        (Some ref_file, set_file (set_filename (Some (c_text f)) (file g)) g, [])
      else (None, g, [])
  | None =>
      match files g !! c_text f with
      | Some entry_Qnil => (None, g, [])
      | Some (entry_record _) => (Some (ref_entry (c_text f)), g, [])
      | None =>
          if regex_matches g (c_text f) then
            (Some (ref_entry (c_text f)),
             set_files
               (<[c_text f := entry_record (set_filename (Some (c_text f)) sourcefile_zero)]>
                  (files g)) g,
             [call_reg_search (c_text f)])
          else
            (None, set_files (<[c_text f := entry_Qnil]> (files g)) g,
             [call_reg_search (c_text f)])
      end
  end.

(** [profiler_hook] (lines 52-122), with [now] the reading of
    [timeofday_usec()] at line 91. *)
Definition profiler_hook (g : rblineprof_t) (node : NODE) (now : Z)
  : rblineprof_t * list host_call :=
  match nd_file node with
  | None => (g, [])
  | Some f =>
      if nd_line node <=? 0 then (g, [])
      else
        match hook_select g f with
        | (None, g1, log) => (g1, log)
        | (Some p, g1, log) =>
            match get_record g1 p with
            | Some sf => (hook_switch p (put_record p (hook_sample (nd_line node) now sf) g1), log)
            | None => (g1, log)
            end
        end
  end.

(** ** The table walks *)

Inductive st_retval : Type := ST_CONTINUE | ST_DELETE.

#[global] Instance st_retval_eq_dec : EqDecision st_retval.
Proof. solve_decision. Defined.

(** [cleanup_files] (lines 124-137) frees the key and the record, and asks
    for the entry to be deleted, whatever it holds. *)
Definition cleanup_files (key : string) (record : st_entry) : st_retval :=
  match record with
  | entry_Qnil => ST_DELETE
  | entry_record _ => ST_DELETE
  end.

(** [st_foreach] with a callback that changes nothing but may delete: the
    entries it answers [ST_DELETE] for are removed. *)
Definition st_foreach_delete (f : string -> st_entry -> st_retval)
    (m : gmap string st_entry) : gmap string st_entry :=
  filter (fun kv => f kv.1 kv.2 ≠ ST_DELETE) m.

(** The cell [lines[i]] as the report loops read it.  They stop at
    [nlines], which is the length of the array whenever there is one. *)
Definition line_cell (sf : sourcefile_t) (i : nat) : Z :=
  default 0 (default [] (lines sf) !! i).

(** The Ruby array the loops of lines 149-150 and 203-204 build. *)
Definition lines_ary (sf : sourcefile_t) : list Z :=
  line_cell sf <$> seq 0 (Z.to_nat (nlines sf)).

(** [summarize_files] (lines 139-155), with the hash [ret] passed along.
    A record in the table always has a file name (line 81). *)
Definition summarize_files (key : string) (record : st_entry)
    (ret : gmap string (list Z)) : gmap string (list Z) :=
  match record with
  | entry_Qnil => ret
  | entry_record sf =>
      match filename sf with
      | Some name => <[name := lines_ary sf]> ret
      | None => ret
      end
  end.

(** ** The session *)

(** The extension's global together with what the runtime holds for it:
    whether [profiler_hook] is in the list of event hooks. *)
Record world : Type := mk_world { prof : rblineprof_t; event_hook : bool }.

Record exception : Type := mk_exception { exc_class : string; exc_message : string }.

Definition ArgError (msg : string) : exception := mk_exception "ArgumentError" msg.

(** The block given to [lineprof]: the line events its code fires, each
    with the clock reading at that moment, and the exception it leaves
    with, if any. *)
Record block : Type := mk_block {
  blk_events : list (NODE * Z);
  blk_raises : option exception
}.

Inductive outcome : Type :=
| Raise (e : exception)
| Return (ret : gmap string (list Z)).

Fixpoint run_events (g : rblineprof_t) (evs : list (NODE * Z))
  : rblineprof_t * list host_call :=
  match evs with
  | [] => (g, [])
  | (node, now) :: rest =>
      let '(g1, log1) := profiler_hook g node now in
      let '(g2, log2) := run_events g1 rest in
      (g2, log1 ++ log2)
  end.

(** [rb_yield]: the runtime hands each line event of the block to the hook
    while the hook is subscribed. *)
Definition rb_yield (w : world) (b : block) : world * option exception * list host_call :=
  if event_hook w then
    let '(g, log) := run_events (prof w) (blk_events b) in
    (mk_world g true, blk_raises b, log)
  else (w, blk_raises b, []).

(** [rb_add_event_hook(profiler_hook, RUBY_EVENT_LINE)] and
    [rb_remove_event_hook(profiler_hook)]. *)
Definition rb_add_event_hook (w : world) : world := mk_world (prof w) true.

Definition rb_remove_event_hook (w : world) : world := mk_world (prof w) false.

(** [lineprof_ensure] (lines 157-162). *)
Definition lineprof_ensure (w : world) : world :=
  let w1 := rb_remove_event_hook w in
  mk_world (set_enabled false (prof w1)) (event_hook w1).

(** Lines 185-191 of [lineprof]. *)
Definition cleanup (g : rblineprof_t) : rblineprof_t :=
  let g1 := set_last_file None g in
  let g2 := set_files (st_foreach_delete cleanup_files (files g1)) g1 in
  match lines (file g2) with
  | Some _ => set_file (set_lines None 0 (file g2)) g2
  | None => g2
  end.

(** Lines 197-210 of [lineprof]. *)
Definition lineprof_report (g : rblineprof_t) : gmap string (list Z) :=
  match source_filename g with
  | Some target => <[c_text target := lines_ary (file g)]> ∅
  | None => map_fold summarize_files ∅ (files g)
  end.

Section Host.

(** The address at which the runtime keeps the interned copy of a path. *)
Variable intern_addr : string -> Z.

(** [rb_source_filename]: the interned copy of the text. *)
Definition rb_source_filename (s : string) : cstr := CStr (intern_addr s) s.

(** Lines 173-182 of [lineprof]: [None] stands for the [rb_raise] of
    line 181. *)
Definition select_source (filename : VALUE) (g : rblineprof_t) : option rblineprof_t :=
  match filename with
  | VString s =>
      Some (mk_rblineprof (enabled g) (Some (rb_source_filename s)) (file g)
              (source_regex g) (files g) (last_file g))
  | VRegexp re =>
      Some (mk_rblineprof (enabled g) None (file g) (Some re) (files g) (last_file g))
  | VOther => None
  end.

(** Lines 173-193: the state in which the hook is added. *)
Definition lineprof_begin (filename : VALUE) (g : rblineprof_t) : option rblineprof_t :=
  match select_source filename g with
  | Some g1 => Some (set_enabled true (cleanup g1))
  | None => None
  end.

(** [lineprof] (lines 164-211).  [blk] is [None] when no block is given.
    [rb_ensure] runs [lineprof_ensure] however the block leaves, and passes
    an exception of the block on. *)
Definition lineprof (w : world) (blk : option block) (filename : VALUE)
  : world * outcome * list host_call :=
  match blk with
  | None => (w, Raise (ArgError "block required"), [])
  | Some b =>
      if enabled (prof w) then (w, Raise (ArgError "profiler is already enabled"), [])
      else
        match lineprof_begin filename (prof w) with
        | None => (w, Raise (ArgError "argument must be String or Regexp"), [])
        | Some g1 =>
            let w1 := rb_add_event_hook (mk_world g1 (event_hook w)) in
            let '(w2, exc, log) := rb_yield w1 b in
            let w3 := lineprof_ensure w2 in
            let log' := call_add_event_hook :: call_yield :: log ++ [call_remove_event_hook] in
            match exc with
            | Some e => (w3, Raise e, log')
            | None => (w3, Return (lineprof_report (prof w3)), log')
            end
        end
  end.

End Host.

(** ** The mark function of the garbage collector *)

(** [rblineprof_gc_mark] (lines 213-218): the values it hands to
    [rb_gc_mark_maybe]; [None] stands for [Qfalse], the initial
    [source_regex]. *)
Definition rblineprof_gc_mark (g : rblineprof_t) : list (option Regexp) :=
  if enabled g then [source_regex g] else [].

(** ** The clock *)

(** C's [double] on the usual platforms: IEEE 754 binary64 (53 bits of
    precision), operations rounded to the nearest value, ties to even. *)
Definition double_mul : spec_float -> spec_float -> spec_float := SFmul 53 1024.

Definition double_add : spec_float -> spec_float -> spec_float := SFadd 53 1024.

(** The conversion of a [uint64_t] to [double]: the nearest value. *)
Definition double_of_uint64 (z : Z) : spec_float := binary_normalize 53 1024 z 0 false.

(** The constant [1e6]: [10^6 = 8589934592000000 * 2^-33]. *)
Definition double_1e6 : spec_float := S754_finite false 8589934592000000 (-33).

(** The conversion of a [double] to [uint64_t]: the fractional part is
    discarded; the behaviour is undefined ([None]) when the integral part
    is not a [uint64_t] value, and for infinities and NaN. *)
Definition uint64_of_double (x : spec_float) : option Z :=
  match x with
  | S754_zero _ => Some 0
  | S754_finite s m e =>
      let n := if 0 <=? e then Z.pos m * 2 ^ e else Z.pos m / 2 ^ (- e) in
      if s then (if n =? 0 then Some 0 else None)
      else if n <? uint64_max then Some n else None
  | S754_infinity _ => None
  | S754_nan => None
  end.

(** [timeofday_usec] (lines 43-50), for the [struct timeval] that
    [gettimeofday] fills.  In [(uint64_t)tv.tv_sec*1e6 + (uint64_t)tv.tv_usec]
    the constant [1e6] is a [double], so both casts are converted to
    [double], the product and the sum are computed in [double], and the
    [return] converts the sum to [uint64_t]. *)
Definition timeofday_usec (tv_sec tv_usec : Z) : option Z :=
  uint64_of_double
    (double_add (double_mul (double_of_uint64 (uint64 tv_sec)) double_1e6)
                (double_of_uint64 (uint64 tv_usec))).

(** * Vocabulary of the statements *)

(** A record is well formed when [nlines] is the length of its array, and
    zero while there is none. *)
Definition rec_wf (sf : sourcefile_t) : Prop :=
  match lines sf with
  | Some a => Z.of_nat (length a) = nlines sf
  | None => nlines sf = 0
  end.

(** The credit the specification gives line [l] over a run of samples
    [(t0,l0), (t1,l1), ...] of one file: every interval [t(i+1) - ti] goes
    to the line [li] that is left, and nothing follows the last sample. *)
Fixpoint credit_of (tl : list (Z * Z)) (l : Z) : Z :=
  match tl with
  | [] => 0
  | (t0, l0) :: rest =>
      match rest with
      | [] => 0
      | (t1, _) :: _ => (if l0 =? l then t1 - t0 else 0) + credit_of rest l
      end
  end.

(** [t < t0 < t1 < ...] for the times [t0; t1; ...]. *)
Fixpoint increasing_from (t : Z) (ts : list Z) : Prop :=
  match ts with
  | [] => True
  | t' :: rest => t < t' /\ increasing_from t' rest
  end.

(** Single-file mode: the event passes the guards of lines 60-64. *)
Definition hits (target : cstr) (node : NODE) : bool :=
  match nd_file node with
  | Some f => (c_addr target =? c_addr f) && (0 <? nd_line node)
  | None => false
  end.

(** The samples a block gives the target file: clock reading and line of
    each event that passes the guards. *)
Definition samples_of (target : cstr) (evs : list (NODE * Z)) : list (Z * Z) :=
  (fun e => (e.2, nd_line e.1)) <$> filter (fun e => hits target e.1) evs.

(** A state no session has left an interval open in. *)
Definition clean (g : rblineprof_t) : Prop :=
  enabled g = false /\ rec_wf (file g) /\ last_time (file g) = 0.

(** The times [t0 < t1 < ... < tn] of the specification. *)
Definition strictly_increasing (ts : list Z) : Prop :=
  match ts with
  | [] => True
  | t :: rest => increasing_from t rest
  end.

(** A reported array gives every line the credit of the specification;
    a line the array does not reach counts as zero. *)
Definition credits_every_interval (tl : list (Z * Z)) (ary : list Z) : Prop :=
  forall i : nat, default 0 (ary !! i) = credit_of tl (Z.of_nat i).

(** ** Concrete inputs for the examples *)

(** A host whose interned copy of a text lives at the address the encoding
    of the text gives: equal texts share one address, others do not. *)
Definition host_intern (s : string) : Z := Z.pos (encode s).

Definition a_rb : cstr := rb_source_filename host_intern "a.rb".
Definition b_rb : cstr := rb_source_filename host_intern "b.rb".

(** A line event of file [f] on line [l] at clock reading [t]. *)
Definition line_event (f : cstr) (t l : Z) : NODE * Z := (mk_NODE (Some f) l, t).

(** The process right after [Init_rblineprof]. *)
Definition world0 : world := mk_world Init_rblineprof false.

(** The scenario of the specification. *)
Definition scenario : list (NODE * Z) :=
  [line_event a_rb 1000 1; line_event a_rb 1005 2; line_event a_rb 1009 2;
   line_event a_rb 1020 3].

(** A session whose first sample is taken at clock reading zero. *)
Definition epoch_scenario : list (NODE * Z) :=
  [line_event a_rb 0 1; line_event a_rb 5 2].

(** The record an event is attributed to (lines 60-88), if any. *)
Definition resolve (g : rblineprof_t) (node : NODE) : option fileref :=
  match nd_file node with
  | None => None
  | Some f => if nd_line node <=? 0 then None else (hook_select g f).1.1
  end.

(** How the table classifies a path: [Some true] accepted, [Some false]
    rejected, [None] not seen. *)
Definition classify (g : rblineprof_t) (k : string) : option bool :=
  (fun e => match e with entry_Qnil => false | entry_record _ => true end) <$> files g !! k.

(** Every record of the table carries the path it is stored under
    (lines 81-82). *)
Definition names_ok (g : rblineprof_t) : Prop :=
  forall k sf, get_record g (ref_entry k) = Some sf -> filename sf = Some k.

(** Pattern mode, as a block finds it: the table classifies exactly the
    paths searched so far, each by the result of its search, and no path
    was searched twice. *)
Definition table_ok (re : Regexp) (g : rblineprof_t) (log : list host_call) : Prop :=
  source_filename g = None /\ source_regex g = Some re /\ names_ok g /\ NoDup log /\
  forall path, classify g path =
    if decide (call_reg_search path ∈ log) then Some (0 <=? rb_reg_search re path) else None.

(** A pattern that matches the path [b.rb] and nothing else. *)
Definition only_b_rb : Regexp :=
  mk_Regexp (fun s => if decide (s = "b.rb"%string) then 0 else -1).

(** A block that runs lines of [a.rb] and [b.rb] in turn. *)
Definition two_files : list (NODE * Z) :=
  [line_event b_rb 2000 1; line_event a_rb 2001 1; line_event a_rb 2003 2;
   line_event b_rb 2005 7; line_event a_rb 2006 3].

(** The state in which the hook runs during [lineprof("a.rb") { ... }],
    the first session of a process. *)
Definition profiling_a_rb : rblineprof_t :=
  default Init_rblineprof (lineprof_begin host_intern (VString "a.rb") Init_rblineprof).

(** A second copy of the text [a.rb], at another address than the interned
    one. *)
Definition copy_of_a_rb : cstr := CStr (c_addr a_rb + 64) "a.rb".

(** A session in progress: the state of [profiling_a_rb] after one line of
    [a.rb], with the hook subscribed. *)
Definition world_running : world :=
  mk_world (profiler_hook profiling_a_rb (mk_NODE (Some a_rb) 1) 1000).1 true.

(** A block that runs two lines of [a.rb] and then raises. *)
Definition failing_block : block :=
  mk_block [line_event a_rb 1000 1; line_event a_rb 1005 2]
    (Some (mk_exception "RuntimeError" "boom")).

(** Pattern mode: the event is one of the path, past the guards of lines
    60-61. *)
Definition on_path (path : string) (node : NODE) : bool :=
  match nd_file node with
  | Some f => bool_decide (c_text f = path) && (0 <? nd_line node)
  | None => false
  end.

(** A block with one line of [a.rb] among lines of [b.rb]. *)
Definition one_line_of_a : list (NODE * Z) :=
  [line_event b_rb 1000 4; line_event a_rb 1002 9; line_event b_rb 1007 5].

(** A pattern that matches every path. *)
Definition any_path : Regexp := mk_Regexp (fun _ => 0).

(** ** Reachable states *)

(** The states a process can be in, with the latest clock reading so far:
    [Init_rblineprof], then calls of [lineprof] that pass the guards, line
    events while a session is enabled, and the end of a session.  The clock
    never runs backwards and stays within [uint64_t]. *)
Inductive reachable (intern_addr : string -> Z) : Z -> rblineprof_t -> Prop :=
| reach_init :
    reachable intern_addr 0 Init_rblineprof
| reach_begin c g filename g0 :
    reachable intern_addr c g -> enabled g = false ->
    lineprof_begin intern_addr filename g = Some g0 ->
    reachable intern_addr c g0
| reach_line c g node now :
    reachable intern_addr c g -> enabled g = true -> c <= now < uint64_max ->
    reachable intern_addr now (profiler_hook g node now).1
| reach_ensure c g :
    reachable intern_addr c g ->
    reachable intern_addr c (set_enabled false g).

(** What holds of every record at clock reading [c]: the array has
    [nlines] cells, an open interval began on a positive line, and no cell
    holds more than the time that has passed. *)
Definition rec_inv (c : Z) (sf : sourcefile_t) : Prop :=
  rec_wf sf /\ 0 <= last_time sf <= c /\ (last_time sf ≠ 0 -> 0 < last_line sf) /\
  forall i, 0 <= line_cell sf i <= c /\ (last_time sf ≠ 0 -> line_cell sf i <= last_time sf).

(** Every record of the table with an open interval is the active one. *)
Definition open_records_ok (g : rblineprof_t) : Prop :=
  forall k sf, get_record g (ref_entry k) = Some sf -> last_time sf ≠ 0 ->
               last_file g = Some (ref_entry k).

(** The first session on [a.rb], after a first event on line 500 at clock
    reading 1000. *)
Definition entered_line_500 : rblineprof_t :=
  (profiler_hook profiling_a_rb (mk_NODE (Some a_rb) 500) 1000).1.

(** The same session, after a second event on line 700 at clock reading
    1005. *)
Definition entered_line_700 : rblineprof_t :=
  (profiler_hook entered_line_500 (mk_NODE (Some a_rb) 700) 1005).1.

(** ** Two sessions in a row *)

(** A first session on [a.rb] whose block runs one line of it. *)
Definition one_line_block : block := mk_block [line_event a_rb 1000 1] None.

Definition after_first_session : world :=
  (lineprof host_intern world0 (Some one_line_block) (VString "a.rb")).1.1.

(** The block of the second session: again one line of [a.rb]. *)
Definition second_block : block := mk_block [line_event a_rb 5000 2] None.

(** A second session with a pattern instead, after its first event, a line
    of [b.rb]. *)
Definition pattern_after_single : rblineprof_t :=
  (profiler_hook
     (default Init_rblineprof
        (lineprof_begin host_intern (VRegexp any_path) (prof after_first_session)))
     (mk_NODE (Some b_rb) 1) 2000).1.

(** ** Files entered on line 500 *)






(** ** One file in scope, under a pattern *)

(** The samples a block gives a path in pattern mode. *)
Definition path_samples (path : string) (evs : list (NODE * Z)) : list (Z * Z) :=
  (fun e => (e.2, nd_line e.1)) <$> filter (fun e => on_path path e.1) evs.

(** The pattern matches [path] and no other file of the block. *)
Definition only_path_in_scope (re : Regexp) (path : string) (evs : list (NODE * Z)) : Prop :=
  0 <= rb_reg_search re path /\
  forall e f, e ∈ evs -> nd_file e.1 = Some f -> c_text f ≠ path ->
              rb_reg_search re (c_text f) < 0.

(** A record sampled at each of a list of samples in turn. *)
Definition sample_all (sf : sourcefile_t) (tl : list (Z * Z)) : sourcefile_t :=
  fold_left (fun sf s => hook_sample s.2 s.1 sf) tl sf.

(** The scenario of the specification with lines of [b.rb] in between,
    under a pattern that matches [a.rb] alone. *)
Definition only_a_rb : Regexp :=
  mk_Regexp (fun s => if decide (s = "a.rb"%string) then 0 else -1).

Definition scenario_among_others : list (NODE * Z) :=
  [line_event a_rb 1000 1; line_event b_rb 1002 40; line_event a_rb 1005 2;
   line_event a_rb 1009 2; line_event b_rb 1010 41; line_event a_rb 1020 3].

(** ** Several files in scope, under a pattern *)

(** The path of an event that passes the guards of lines 60-61 and whose
    file the pattern matches. *)
Definition in_scope (re : Regexp) (node : NODE) : option string :=
  match nd_file node with
  | Some f =>
      if (0 <? nd_line node) && (0 <=? rb_reg_search re (c_text f)) then Some (c_text f)
      else None
  | None => None
  end.

(** The events of a block that belong to some record under the pattern, in
    order: path, clock reading and line. *)
Definition scoped (re : Regexp) (evs : list (NODE * Z)) : list (string * (Z * Z)) :=
  omap (fun e => (fun k => (k, (e.2, nd_line e.1))) <$> in_scope re e.1) evs.

(** What an event in scope does to the record of [path]: an event of the
    path samples it (lines 93-115), an event of another file closes its
    interval (line 118). *)
Definition path_step (path : string) (sf : sourcefile_t) (s : string * (Z * Z))
  : sourcefile_t :=
  if decide (s.1 = path) then hook_sample s.2.2 s.2.1 sf else set_last_time 0 sf.

(** The record of [path] after the events in scope [tl], from a zeroed
    record. *)
Definition path_record (path : string) (tl : list (string * (Z * Z))) : sourcefile_t :=
  fold_left (path_step path) tl sourcefile_zero.

(** The credit line [l] of [path] is due over the events in scope [tl]: an
    interval counts when both its ends are events of [path], and goes to
    the line of its first end. *)
Fixpoint credit_on (path : string) (tl : list (string * (Z * Z))) (l : Z) : Z :=
  match tl with
  | [] => 0
  | (k0, (t0, l0)) :: rest =>
      match rest with
      | [] => 0
      | (k1, (t1, _)) :: _ =>
          (if decide (k0 = path /\ k1 = path /\ l0 = l) then t1 - t0 else 0)
          + credit_on path rest l
      end
  end.

(** No two events in a row belong to the same file. *)
Fixpoint alternating (tl : list (string * (Z * Z))) : Prop :=
  match tl with
  | [] => True
  | (k0, _) :: rest =>
      match rest with
      | [] => True
      | (k1, _) :: _ => k0 ≠ k1 /\ alternating rest
      end
  end.

(** The process after a first session with a pattern that matches every
    path, over the block [two_files]. *)
Definition after_pattern_session : world :=
  (lineprof host_intern world0 (Some (mk_block two_files None)) (VRegexp any_path)).1.1.

(** ** Totals *)

(** The sum of the cells of a reported array. *)
Definition total (ary : list Z) : Z := foldr Z.add 0 ary.

(** The time between the first and the last of a run of samples. *)
Definition span (tl : list (Z * Z)) : Z :=
  match tl with
  | [] => 0
  | (t0, _) :: _ => (default (t0, 0) (last tl)).1 - t0
  end.

(** ** The shape of records and of reported arrays *)

(** The states of a process between sessions: [Init_rblineprof], then any
    calls of [lineprof], with any blocks and any clock. *)
Inductive after_sessions (intern_addr : string -> Z) : world -> Prop :=
| sessions_none : after_sessions intern_addr world0
| sessions_next w blk filename :
    after_sessions intern_addr w ->
    after_sessions intern_addr (lineprof intern_addr w blk filename).1.1.

(** A record has [nlines] cells, none or more than a hundred of them; cell 0
    is zero; every cell is a [uint64_t] value; an open interval began on a
    positive line. *)
Definition rec_shape (sf : sourcefile_t) : Prop :=
  rec_wf sf /\ (nlines sf = 0 \/ 101 <= nlines sf) /\ line_cell sf 0 = 0 /\
  (forall i, is_uint64 (line_cell sf i)) /\ (last_time sf ≠ 0 -> 0 < last_line sf).

(** The same of a reported array. *)
Definition ary_shape (ary : list Z) : Prop :=
  (ary = [] \/ (101 <= length ary)%nat) /\ default 0 (ary !! 0%nat) = 0 /\
  Forall is_uint64 ary.

(** ** Integers as [double] values *)

(** The number of binary digits of a positive integer. *)
Definition bits (v : Z) : Z := Z.log2 v + 1.

(** The binary64 value of an integer [0 < v < 2^53]: the mantissa is [v]
    shifted to 53 digits. *)
Definition double_of_small (v : Z) : spec_float :=
  S754_finite false (Z.to_pos (v * 2 ^ (53 - bits v))) (bits v - 53).

(** ** A session whose block raises *)

(** The process after [lineprof("a.rb")] on [failing_block], the first
    session of the process. *)
Definition after_failing : world :=
  (lineprof host_intern world0 (Some failing_block) (VString "a.rb")).1.1.

(** * Records *)

Lemma uint64_small z : is_uint64 z -> uint64 z = z.
Proof. unfold is_uint64, uint64. intros H. by apply Z.mod_small. Qed.

Lemma uint64_range z : is_uint64 (uint64 z).
Proof. unfold is_uint64, uint64, uint64_max. apply Z.mod_pos_bound. lia. Qed.

Lemma cells_of_list (a : list Z) :
  (fun i => default 0 (a !! i)) <$> seq 0 (length a) = a.
Proof.
  apply list_eq. intros i. rewrite list_lookup_fmap.
  destruct (decide (i < length a)%nat) as [Hi|Hi].
  - rewrite lookup_seq_lt by done. simpl.
    destruct (lookup_lt_is_Some_2 a i Hi) as [x Hx]. by rewrite Hx.
  - rewrite lookup_seq_ge by lia. simpl. symmetry. apply lookup_ge_None. lia.
Qed.

Lemma lines_ary_wf sf : rec_wf sf -> lines_ary sf = default [] (lines sf).
Proof.
  unfold rec_wf, lines_ary, line_cell. destruct (lines sf) as [a|]; simpl; intros H.
  - rewrite <- H, Nat2Z.id. apply cells_of_list.
  - by rewrite H.
Qed.

Lemma rec_wf_zero : rec_wf sourcefile_zero.
Proof. reflexivity. Qed.

Lemma rec_wf_set_last t l sf : rec_wf sf -> rec_wf (set_last t l sf).
Proof. by destruct sf. Qed.

Lemma rec_wf_set_last_time t sf : rec_wf sf -> rec_wf (set_last_time t sf).
Proof. by destruct sf. Qed.

Lemma rec_wf_set_filename f sf : rec_wf sf -> rec_wf (set_filename f sf).
Proof. by destruct sf. Qed.

Lemma set_filename_id sf : set_filename (filename sf) sf = sf.
Proof. by destruct sf. Qed.

Lemma set_filename_twice fn fn' sf :
  set_filename fn' (set_filename fn sf) = set_filename fn' sf.
Proof. done. Qed.

Lemma line_cell_set_filename f sf i : line_cell (set_filename f sf) i = line_cell sf i.
Proof. done. Qed.

(** [alloc_lines] then [grow_lines]: the array exists, covers the line to
    credit, keeps the cells it had and is zero elsewhere. *)
Lemma grow_alloc_spec sf :
  rec_wf sf -> 0 <= last_line sf ->
  exists a,
    lines (grow_lines (alloc_lines sf)) = Some a /\
    Z.of_nat (length a) = nlines (grow_lines (alloc_lines sf)) /\
    last_line sf < nlines (grow_lines (alloc_lines sf)) /\
    nlines (grow_lines (alloc_lines sf)) =
      (if bool_decide (lines sf = None) then last_line sf + 100
       else if nlines sf <=? last_line sf then last_line sf + 100 else nlines sf) /\
    last_time (grow_lines (alloc_lines sf)) = last_time sf /\
    last_line (grow_lines (alloc_lines sf)) = last_line sf /\
    filename (grow_lines (alloc_lines sf)) = filename sf /\
    (forall i, default 0 (a !! i) = line_cell sf i) /\
    (forall i x, default [] (lines sf) !! i = Some x -> a !! i = Some x).
Proof.
  intros Hwf Hll. unfold rec_wf in Hwf. destruct sf as [fn [a|] n lt ll]; simpl in *.
  - unfold alloc_lines, grow_lines; simpl. destruct (Z.leb_spec n ll) as [Hle|Hgt]; simpl.
    + eexists; split; [done|]. rewrite length_app, length_take, length_replicate.
      repeat split; try lia.
      * intros i. unfold line_cell; simpl. rewrite take_ge by lia.
        destruct (decide (i < length a)%nat).
        -- by rewrite lookup_app_l.
        -- rewrite lookup_app_r by lia. rewrite (proj2 (lookup_ge_None a i)) by lia.
           destruct (replicate _ _ !! _) eqn:E; [|done].
           apply lookup_replicate in E as [-> _]. done.
      * intros i x Hx. rewrite take_ge by lia. by apply lookup_app_l_Some.
    + exists a. repeat split; try done; lia.
  - unfold alloc_lines, grow_lines; simpl. subst n.
    destruct (Z.leb_spec (ll + 100) ll); [lia|]. simpl.
    eexists; split; [done|]. rewrite length_replicate. repeat split; try lia.
    + intros i. unfold line_cell; simpl.
      destruct (replicate _ _ !! _) eqn:E; [|done].
      apply lookup_replicate in E as [-> _]. done.
    + intros i x. by rewrite lookup_nil.
Qed.

Lemma hook_sample_closed line now sf :
  last_time sf = 0 -> hook_sample line now sf = set_last now line sf.
Proof. unfold hook_sample. by intros ->. Qed.

(** The credit of line 111, cell by cell. *)
Lemma hook_sample_open line now sf :
  rec_wf sf -> last_time sf ≠ 0 -> 0 <= last_line sf ->
  exists a,
    lines (hook_sample line now sf) = Some a /\
    Z.of_nat (length a) = nlines (hook_sample line now sf) /\
    last_line sf < nlines (hook_sample line now sf) /\
    nlines (hook_sample line now sf) =
      (if bool_decide (lines sf = None) then last_line sf + 100
       else if nlines sf <=? last_line sf then last_line sf + 100 else nlines sf) /\
    last_time (hook_sample line now sf) = now /\
    last_line (hook_sample line now sf) = line /\
    filename (hook_sample line now sf) = filename sf /\
    (forall i, default 0 (a !! i) =
               if decide (i = Z.to_nat (last_line sf))
               then uint64 (line_cell sf i + uint64 (now - last_time sf))
               else line_cell sf i).
Proof.
  intros Hwf Hopen Hll.
  destruct (grow_alloc_spec sf Hwf Hll) as (a & Ha & Hlen & Hcov & Hn & Hlt & Hl & Hf & Hcell & _).
  unfold hook_sample. destruct (Z.eqb_spec (last_time sf) 0) as [|_]; [done|].
  unfold record_sample. rewrite Hl, Hlt, Ha.
  destruct (Z.ltb_spec (last_line sf) 0); [lia|]. simpl.
  eexists; split; [done|]. rewrite length_alter.
  repeat split; try done.
  intros i. case_decide as Hi.
  - subst i. rewrite list_lookup_alter_eq.
    assert (Z.to_nat (last_line sf) < length a)%nat as Hin by lia.
    destruct (lookup_lt_is_Some_2 a _ Hin) as [x Hx].
    rewrite <- Hcell, Hx. done.
  - rewrite list_lookup_alter_ne by done. apply Hcell.
Qed.

Lemma hook_sample_wf line now sf :
  rec_wf sf -> (last_time sf ≠ 0 -> 0 <= last_line sf) -> rec_wf (hook_sample line now sf).
Proof.
  intros Hwf Hll. destruct (decide (last_time sf = 0)) as [H0|H0].
  - rewrite hook_sample_closed by done. by apply rec_wf_set_last.
  - destruct (hook_sample_open line now sf Hwf H0 (Hll H0)) as (a & Ha & Hlen & _).
    unfold rec_wf. by rewrite Ha.
Qed.

Lemma filename_hook_sample line now sf : filename (hook_sample line now sf) = filename sf.
Proof.
  unfold hook_sample, record_sample, grow_lines, alloc_lines.
  destruct sf as [fn [a|] n lt ll]; cbn;
    repeat (match goal with |- context [if ?b then _ else _] => destruct b end; cbn);
    done.
Qed.

Lemma alloc_lines_set_filename fn sf :
  alloc_lines (set_filename fn sf) = set_filename fn (alloc_lines sf).
Proof. unfold alloc_lines. by destruct sf as [fn0 [a|] n lt ll]. Qed.

Lemma grow_lines_set_filename fn sf :
  grow_lines (set_filename fn sf) = set_filename fn (grow_lines sf).
Proof.
  unfold grow_lines. destruct sf as [fn0 a n lt ll].
  cbn [set_filename nlines last_line lines]. by destruct (n <=? ll).
Qed.

Lemma record_sample_set_filename now fn sf :
  record_sample now (set_filename fn sf) = set_filename fn (record_sample now sf).
Proof.
  unfold record_sample. destruct sf as [fn0 a n lt ll].
  cbn [set_filename nlines last_line lines last_time]. by destruct (ll <? 0).
Qed.

Lemma hook_sample_set_filename line now fn sf :
  hook_sample line now (set_filename fn sf) = set_filename fn (hook_sample line now sf).
Proof.
  unfold hook_sample.
  rewrite alloc_lines_set_filename, grow_lines_set_filename, record_sample_set_filename.
  change (last_time (set_filename fn sf)) with (last_time sf).
  by destruct (last_time sf =? 0).
Qed.


Lemma hook_sample_alloc line now sf :
  lines sf = None -> last_time sf ≠ 0 -> 0 <= last_line sf ->
  nlines (hook_sample line now sf) = last_line sf + 100 /\
  lines (hook_sample line now sf) =
    Some (alter (fun x => uint64 (x + uint64 (now - last_time sf)))
            (Z.to_nat (last_line sf))
            (replicate (Z.to_nat (last_line sf + 100)) 0)).
Proof.
  intros Hl Ht Hll. unfold hook_sample.
  destruct (Z.eqb_spec (last_time sf) 0); [done|].
  unfold alloc_lines. rewrite Hl. unfold grow_lines. cbn [set_lines nlines last_line].
  destruct (Z.leb_spec (last_line sf + 100) (last_line sf)); [lia|].
  unfold record_sample. cbn [set_lines nlines last_line last_time lines].
  destruct (Z.ltb_spec (last_line sf) 0); [lia|]. done.
Qed.



(** * One record sampled many times *)

Lemma sample_all_set_filename fn tl : forall sf,
  sample_all (set_filename fn sf) tl = set_filename fn (sample_all sf tl).
Proof.
  induction tl as [|s tl IH]; intros sf; [done|].
  cbn [sample_all fold_left]. rewrite hook_sample_set_filename. apply IH.
Qed.

Lemma sample_all_cons sf s tl :
  sample_all sf (s :: tl) = sample_all (hook_sample s.2 s.1 sf) tl.
Proof. done. Qed.

(** The record-level form of [single_run_open]. *)
Lemma sample_all_open tl : forall sf,
  rec_wf sf -> last_time sf ≠ 0 -> 0 <= last_line sf ->
  (forall i, 0 <= line_cell sf i <= last_time sf) ->
  increasing_from (last_time sf) (tl.*1) ->
  Forall (fun s => s.1 < uint64_max /\ 0 < s.2) tl ->
  rec_wf (sample_all sf tl) /\
  forall i, line_cell (sample_all sf tl) i =
            line_cell sf i + credit_of ((last_time sf, last_line sf) :: tl) (Z.of_nat i).
Proof.
  induction tl as [|[t l] tl IH]; intros sf Hwf Hopen Hll Hb Hinc Hmax.
  - split; [done|]. intros i. cbn. lia.
  - rewrite sample_all_cons. cbn [fst snd].
    cbn in Hinc. destruct Hinc as [Hlt Hinc].
    apply Forall_cons in Hmax as [[Hnow Hline] Hmax]. cbn in Hnow, Hline.
    assert (0 <= last_time sf) as H0 by (specialize (Hb 0%nat); lia).
    destruct (hook_sample_open l t sf) as (a & Ha & Hlen & _ & _ & Hlt' & Hl' & _ & Hcell);
      [done|done|done|].
    assert (forall i, line_cell (hook_sample l t sf) i =
              line_cell sf i + (if last_line sf =? Z.of_nat i then t - last_time sf else 0))
      as Hcell'.
    { intros i. unfold line_cell at 1. rewrite Ha.
      change (default 0 (default [] (Some a) !! i)) with (default 0 (a !! i)).
      rewrite Hcell. specialize (Hb i). case_decide as Hi.
      - subst i. rewrite Z2Nat.id by done. rewrite Z.eqb_refl.
        rewrite (uint64_small (t - _)) by (unfold is_uint64; lia).
        apply uint64_small. unfold is_uint64; lia.
      - destruct (Z.eqb_spec (last_line sf) (Z.of_nat i)); [|lia].
        exfalso. apply Hi. lia. }
    destruct (IH (hook_sample l t sf)) as (Hw & Hc).
    + unfold rec_wf. by rewrite Ha.
    + rewrite Hlt'. lia.
    + rewrite Hl'. lia.
    + intros i. rewrite Hcell', Hlt'. specialize (Hb i).
      destruct (last_line sf =? Z.of_nat i); lia.
    + by rewrite Hlt'.
    + done.
    + split; [done|]. intros i. rewrite Hc, Hcell', Hlt', Hl'. cbn [credit_of]. lia.
Qed.

Lemma sample_all_clean tl sf :
  lines sf = None -> nlines sf = 0 -> last_time sf = 0 ->
  increasing_from 0 (tl.*1) ->
  Forall (fun s => s.1 < uint64_max /\ 0 < s.2) tl ->
  rec_wf (sample_all sf tl) /\
  forall i, line_cell (sample_all sf tl) i = credit_of tl (Z.of_nat i).
Proof.
  intros Hl Hn H0 Hinc Hmax. destruct tl as [|[t l] tl].
  - split; [unfold rec_wf; cbn; by rewrite Hl|]. intros i. unfold line_cell. cbn.
    by rewrite Hl.
  - rewrite sample_all_cons. cbn [fst snd]. rewrite hook_sample_closed by done.
    cbn in Hinc. destruct Hinc as [Hlt Hinc].
    apply Forall_cons in Hmax as [[Hnow Hline] Hmax]. cbn in Hnow, Hline.
    assert (forall i, line_cell (set_last t l sf) i = 0) as Hz
      by (intros i; unfold line_cell; cbn; by rewrite Hl).
    destruct (sample_all_open tl (set_last t l sf)) as (Hw & Hc); cbn; try done; try lia.
    + unfold rec_wf. cbn. by rewrite Hl.
    + intros i. rewrite Hz. lia.
    + split; [done|]. intros i. rewrite Hc, Hz. done.
Qed.

(** At most one sample of a record without an open interval allocates
    nothing. *)
Lemma sample_all_once sf tl :
  lines sf = None -> nlines sf = 0 -> last_time sf = 0 -> (length tl <= 1)%nat ->
  lines (sample_all sf tl) = None /\ nlines (sample_all sf tl) = 0.
Proof.
  intros Hl Hn H0 Hlen. destruct tl as [|s [|s' tl]]; [done| |simpl in Hlen; lia].
  rewrite sample_all_cons. cbn [sample_all fold_left]. by rewrite hook_sample_closed.
Qed.





(** * Records behind pointers *)

Lemma get_put_same p sf g :
  is_Some (get_record g p) -> get_record (put_record p sf g) p = Some sf.
Proof.
  destruct p as [|k]; [done|]. unfold get_record, put_record.
  destruct (files g !! k) as [[|sf0]|] eqn:E; intros [x Hx]; try done.
  cbn. by rewrite lookup_insert_eq.
Qed.

Lemma get_put_ne p q sf g :
  p ≠ q -> get_record (put_record p sf g) q = get_record g q.
Proof.
  intros Hne. destruct p as [|k], q as [|k']; try done.
  - unfold put_record. by destruct (files g !! k) as [[]|].
  - unfold get_record, put_record.
    destruct (files g !! k) as [[|sf0]|] eqn:E; try done.
    cbn. rewrite lookup_insert_ne by congruence. done.
Qed.

Lemma put_record_fields p sf g :
  enabled (put_record p sf g) = enabled g /\
  source_filename (put_record p sf g) = source_filename g /\
  source_regex (put_record p sf g) = source_regex g /\
  last_file (put_record p sf g) = last_file g.
Proof.
  destruct p as [|k]; [done|]. unfold put_record. by destruct (files g !! k) as [[]|].
Qed.

Lemma classify_put p sf g k : classify (put_record p sf g) k = classify g k.
Proof.
  destruct p as [|k']; [done|]. unfold put_record, classify.
  destruct (files g !! k') as [[|sf0]|] eqn:E; try done. cbn.
  destruct (decide (k' = k)) as [->|Hne].
  - by rewrite lookup_insert_eq, E.
  - by rewrite lookup_insert_ne.
Qed.

Lemma hook_switch_fields p g :
  enabled (hook_switch p g) = enabled g /\
  source_filename (hook_switch p g) = source_filename g /\
  source_regex (hook_switch p g) = source_regex g /\
  last_file (hook_switch p g) = Some p.
Proof.
  unfold hook_switch. destruct (last_file g) as [q|]; [|done].
  case_decide; [done|]. destruct (get_record g q); [|done].
  cbn. by destruct (put_record_fields q (set_last_time 0 s) g) as (-> & -> & -> & _).
Qed.

Lemma classify_switch p g k : classify (hook_switch p g) k = classify g k.
Proof.
  unfold hook_switch. destruct (last_file g) as [q|]; [|done].
  case_decide; [done|]. destruct (get_record g q); [|done].
  apply (classify_put q).
Qed.

(** Lines 117-118 touch one record at most: the one that was active, when
    it is not the record of this event. *)
Lemma hook_switch_get p g q :
  get_record (hook_switch p g) q =
    if decide (last_file g = Some q /\ q ≠ p)
    then set_last_time 0 <$> get_record g q
    else get_record g q.
Proof.
  unfold hook_switch. destruct (last_file g) as [r|] eqn:Hr.
  - destruct (decide (r = p)) as [->|Hne].
    + case_decide as H; [|done]. destruct H as [[= ->] H]. done.
    + destruct (get_record g r) as [sf|] eqn:Hsf.
      * change (get_record (set_last_file (Some p) (put_record r (set_last_time 0 sf) g)) q)
          with (get_record (put_record r (set_last_time 0 sf) g) q).
        destruct (decide (r = q)) as [->|Hrq].
        -- rewrite get_put_same by (rewrite Hsf; eauto).
           rewrite decide_True by done. by rewrite Hsf.
        -- rewrite get_put_ne by done. rewrite decide_False; [done|].
           intros [[= ->] _]. done.
      * change (get_record (set_last_file (Some p) g) q) with (get_record g q).
        case_decide as H; [|done]. destruct H as [[= ->] _]. by rewrite Hsf.
  - change (get_record (set_last_file (Some p) g) q) with (get_record g q).
    case_decide as H; [|done]. by destruct H.
Qed.

Lemma hook_switch_file p g : p = ref_file -> file (hook_switch p g) = file g.
Proof.
  intros ->. unfold hook_switch. destruct (last_file g) as [q|]; [|done].
  case_decide; [done|]. destruct (get_record g q); [|done].
  unfold put_record. destruct q; [done|]. by destruct (files g !! key) as [[]|].
Qed.

Lemma hook_switch_source p g : source_filename (hook_switch p g) = source_filename g.
Proof.
  unfold hook_switch. destruct (last_file g) as [q|]; [|done].
  case_decide; [done|]. destruct (get_record g q); [|done].
  unfold put_record. destruct q; [done|]. by destruct (files g !! key) as [[]|].
Qed.

(** * The hook, case by case *)

Lemma profiler_hook_no_file g node now :
  nd_file node = None -> profiler_hook g node now = (g, []).
Proof. unfold profiler_hook. by intros ->. Qed.

Lemma profiler_hook_no_line g node now :
  nd_line node <= 0 -> profiler_hook g node now = (g, []).
Proof.
  unfold profiler_hook. intros H. destruct (nd_file node); [|done].
  by destruct (Z.leb_spec (nd_line node) 0); [|lia].
Qed.

(** The six ways through lines 63-88. *)
Lemma hook_select_cases g f :
  (exists target, source_filename g = Some target /\ c_addr target = c_addr f /\
     hook_select g f =
       (Some ref_file, set_file (set_filename (Some (c_text f)) (file g)) g, [])) \/
  (exists target, source_filename g = Some target /\ c_addr target ≠ c_addr f /\
     hook_select g f = (None, g, [])) \/
  (source_filename g = None /\ files g !! c_text f = Some entry_Qnil /\
     hook_select g f = (None, g, [])) \/
  (source_filename g = None /\ (exists sf, files g !! c_text f = Some (entry_record sf)) /\
     hook_select g f = (Some (ref_entry (c_text f)), g, [])) \/
  (source_filename g = None /\ files g !! c_text f = None /\
     regex_matches g (c_text f) = true /\
     hook_select g f =
       (Some (ref_entry (c_text f)),
        set_files (<[c_text f := entry_record (set_filename (Some (c_text f)) sourcefile_zero)]>
                     (files g)) g,
        [call_reg_search (c_text f)])) \/
  (source_filename g = None /\ files g !! c_text f = None /\
     regex_matches g (c_text f) = false /\
     hook_select g f =
       (None, set_files (<[c_text f := entry_Qnil]> (files g)) g,
        [call_reg_search (c_text f)])).
Proof.
  unfold hook_select. destruct (source_filename g) as [target|].
  - destruct (Z.eqb_spec (c_addr target) (c_addr f)); [left|right; left]; eauto.
  - do 2 right. destruct (files g !! c_text f) as [[|sf]|].
    + left. done.
    + right; left. eauto.
    + do 2 right. destruct (regex_matches g (c_text f)); [left|right]; done.
Qed.

Lemma profiler_hook_eq g node now f :
  nd_file node = Some f -> 0 < nd_line node ->
  profiler_hook g node now =
    match hook_select g f with
    | (None, g1, log) => (g1, log)
    | (Some p, g1, log) =>
        match get_record g1 p with
        | Some sf => (hook_switch p (put_record p (hook_sample (nd_line node) now sf) g1), log)
        | None => (g1, log)
        end
    end.
Proof.
  intros Hf Hl. unfold profiler_hook. rewrite Hf.
  by destruct (Z.leb_spec (nd_line node) 0); [lia|].
Qed.

Lemma resolve_cases g node :
  (resolve g node = None /\ (nd_file node = None \/ nd_line node <= 0)) \/
  (exists f, nd_file node = Some f /\ 0 < nd_line node /\
             resolve g node = (hook_select g f).1.1).
Proof.
  unfold resolve. destruct (nd_file node) as [f|]; [|left; eauto].
  destruct (Z.leb_spec (nd_line node) 0); [left; eauto|right; eauto].
Qed.

(** An event that belongs to a record [p]: [p] is sampled and becomes the
    active record; the record that was active is closed; nothing else
    changes. *)
Lemma hook_resolved g node now p :
  resolve g node = Some p ->
  exists f fn,
    nd_file node = Some f /\ 0 < nd_line node /\
    ((p = ref_file /\ source_filename g ≠ None) \/
     (p = ref_entry (c_text f) /\ source_filename g = None)) /\
    (fn = Some (c_text f) \/ exists sf, get_record g p = Some sf /\ fn = filename sf) /\
    get_record (profiler_hook g node now).1 p =
      Some (hook_sample (nd_line node) now
              (set_filename fn (default sourcefile_zero (get_record g p)))) /\
    last_file (profiler_hook g node now).1 = Some p /\
    (forall q, q ≠ p ->
       get_record (profiler_hook g node now).1 q =
         if decide (last_file g = Some q)
         then set_last_time 0 <$> get_record g q
         else get_record g q).
Proof.
  intros Hres. destruct (resolve_cases g node) as [[Hn _]|(f & Hf & Hl & Hr)]; [congruence|].
  rewrite Hres in Hr. rewrite (profiler_hook_eq g node now f Hf Hl).
  exists f.
  destruct (hook_select_cases g f)
    as [(t & Ht & Ha & E)|[(t & Ht & Ha & E)|[(Ht & Hk & E)|[(Ht & [sf Hk] & E)|
        [(Ht & Hk & Hm & E)|(Ht & Hk & Hm & E)]]]]];
    rewrite E in Hr |- *; cbn in Hr; try done; injection Hr as ->.
  - exists (Some (c_text f)). cbn [get_record set_file file default fst].
    split_and!; [done|done|left; split; [done|congruence]|by left| | |].
    + cbn [get_record]. by rewrite hook_switch_file.
    + by destruct (hook_switch_fields ref_file
        (put_record ref_file (hook_sample (nd_line node) now
           (set_filename (Some (c_text f)) (file g)))
           (set_file (set_filename (Some (c_text f)) (file g)) g))) as (_ & _ & _ & ->).
    + intros q Hq. rewrite hook_switch_get. cbn [put_record set_file last_file].
      destruct q as [|k]; [done|]. cbn [get_record set_file files].
      destruct (decide (last_file g = Some (ref_entry k))) as [H1|H1];
        [by rewrite decide_True|by rewrite decide_False by tauto].
  - assert (get_record g (ref_entry (c_text f)) = Some sf) as Hget
      by (cbn; by rewrite Hk).
    exists (filename sf). rewrite Hget.
    change (default sourcefile_zero (Some sf)) with sf.
    rewrite set_filename_id. cbn [fst].
    split_and!; [done|done|by right|right; eauto| | |].
    + rewrite hook_switch_get. rewrite decide_False by tauto.
      apply get_put_same. rewrite Hget. eauto.
    + by destruct (hook_switch_fields (ref_entry (c_text f))
        (put_record (ref_entry (c_text f)) (hook_sample (nd_line node) now sf) g))
        as (_ & _ & _ & ->).
    + intros q Hq. rewrite hook_switch_get.
      destruct (put_record_fields (ref_entry (c_text f))
                  (hook_sample (nd_line node) now sf) g) as (_ & _ & _ & ->).
      rewrite get_put_ne by done.
      destruct (decide (last_file g = Some q)) as [H1|H1];
        [by rewrite decide_True|by rewrite decide_False by tauto].
  - set (sf0 := set_filename (Some (c_text f)) sourcefile_zero).
    set (g1 := set_files _ g).
    assert (get_record g (ref_entry (c_text f)) = None) as Hget
      by (cbn; by rewrite Hk).
    assert (get_record g1 (ref_entry (c_text f)) = Some sf0) as Hg1
      by (cbn; by rewrite lookup_insert_eq).
    assert (forall q, q ≠ ref_entry (c_text f) -> get_record g1 q = get_record g q) as Hoth.
    { intros [|k] Hq; [done|]. cbn. rewrite lookup_insert_ne by congruence. done. }
    exists (Some (c_text f)). rewrite Hget, Hg1.
    change (default sourcefile_zero None) with sourcefile_zero. fold sf0. cbn [fst].
    split_and!; [done|done|by right|by left| | |].
    + rewrite hook_switch_get. rewrite decide_False by tauto.
      apply get_put_same. rewrite Hg1. eauto.
    + by destruct (hook_switch_fields (ref_entry (c_text f))
        (put_record (ref_entry (c_text f)) (hook_sample (nd_line node) now sf0) g1))
        as (_ & _ & _ & ->).
    + intros q Hq. rewrite hook_switch_get.
      destruct (put_record_fields (ref_entry (c_text f))
                  (hook_sample (nd_line node) now sf0) g1) as (_ & _ & _ & ->).
      rewrite get_put_ne by done. rewrite Hoth by done.
      change (last_file g1) with (last_file g).
      destruct (decide (last_file g = Some q)) as [H1|H1];
        [by rewrite decide_True|by rewrite decide_False by tauto].
Qed.

(** An event that belongs to no record changes no record. *)
Lemma hook_unresolved g node now :
  resolve g node = None ->
  (forall q, get_record (profiler_hook g node now).1 q = get_record g q) /\
  last_file (profiler_hook g node now).1 = last_file g /\
  file (profiler_hook g node now).1 = file g.
Proof.
  intros Hres. destruct (resolve_cases g node) as [[_ [Hn|Hn]]|(f & Hf & Hl & Hr)].
  - by rewrite profiler_hook_no_file.
  - by rewrite profiler_hook_no_line.
  - rewrite Hres in Hr. rewrite (profiler_hook_eq g node now f Hf Hl).
    destruct (hook_select_cases g f)
      as [(t & Ht & Ha & E)|[(t & Ht & Ha & E)|[(Ht & Hk & E)|[(Ht & [sf Hk] & E)|
          [(Ht & Hk & Hm & E)|(Ht & Hk & Hm & E)]]]]];
      rewrite E in Hr |- *; cbn in Hr; try done.
    cbn [fst]. repeat split; try done.
    intros [|k]; [done|]. cbn. destruct (decide (k = c_text f)) as [->|Hne].
    + by rewrite lookup_insert_eq, Hk.
    + by rewrite lookup_insert_ne.
Qed.

Lemma hook_select_fields g f :
  enabled (hook_select g f).1.2 = enabled g /\
  source_filename (hook_select g f).1.2 = source_filename g /\
  source_regex (hook_select g f).1.2 = source_regex g /\
  last_file (hook_select g f).1.2 = last_file g.
Proof.
  destruct (hook_select_cases g f)
    as [(t & Ht & Ha & E)|[(t & Ht & Ha & E)|[(Ht & Hk & E)|[(Ht & [sf Hk] & E)|
        [(Ht & Hk & Hm & E)|(Ht & Hk & Hm & E)]]]]];
    by rewrite E.
Qed.

Lemma switch_put_fields p sf g :
  enabled (hook_switch p (put_record p sf g)) = enabled g /\
  source_filename (hook_switch p (put_record p sf g)) = source_filename g /\
  source_regex (hook_switch p (put_record p sf g)) = source_regex g.
Proof.
  destruct (hook_switch_fields p (put_record p sf g)) as (-> & -> & -> & _).
  by destruct (put_record_fields p sf g) as (-> & -> & -> & _).
Qed.

Lemma hook_fields g node now :
  enabled (profiler_hook g node now).1 = enabled g /\
  source_filename (profiler_hook g node now).1 = source_filename g /\
  source_regex (profiler_hook g node now).1 = source_regex g.
Proof.
  destruct (resolve_cases g node) as [[_ [Hn|Hn]]|(f & Hf & Hl & _)].
  - by rewrite profiler_hook_no_file.
  - by rewrite profiler_hook_no_line.
  - rewrite (profiler_hook_eq g node now f Hf Hl).
    destruct (hook_select_fields g f) as (He & Hs & Hr & _).
    destruct (hook_select g f) as [[[p|] g1] log]; cbn [fst snd] in *; [|done].
    destruct (get_record g1 p) as [sf|]; cbn [fst]; [|done].
    destruct (switch_put_fields p (hook_sample (nd_line node) now sf) g1) as (-> & -> & ->).
    done.
Qed.

Lemma hook_single_miss g target node now :
  source_filename g = Some target -> hits target node = false ->
  profiler_hook g node now = (g, []).
Proof.
  unfold profiler_hook, hits, hook_select. intros Ht Hh.
  destruct (nd_file node) as [f|]; [|done].
  destruct (Z.leb_spec (nd_line node) 0); [done|].
  rewrite Ht. destruct (c_addr target =? c_addr f); [|done].
  simpl in Hh. apply Z.ltb_ge in Hh. lia.
Qed.

Lemma hook_single_hit g target node now :
  source_filename g = Some target -> hits target node = true ->
  exists f, nd_file node = Some f /\
  profiler_hook g node now =
    (hook_switch ref_file
       (set_file (hook_sample (nd_line node) now (set_filename (Some (c_text f)) (file g))) g),
     []).
Proof.
  unfold profiler_hook, hits, hook_select. intros Ht Hh.
  destruct (nd_file node) as [f|]; [|done]. exists f; split; [done|].
  apply andb_true_iff in Hh as [Ha Hl]. apply Z.ltb_lt in Hl.
  destruct (Z.leb_spec (nd_line node) 0); [lia|].
  rewrite Ht, Ha. done.
Qed.

(** In single-file mode the fast-path record is all a block changes of what
    the report reads. *)
Lemma hook_single_file g target node now :
  source_filename g = Some target ->
  source_filename (profiler_hook g node now).1 = Some target /\
  (profiler_hook g node now).2 = [] /\
  (if hits target node
   then exists fn, file (profiler_hook g node now).1 =
                   hook_sample (nd_line node) now (set_filename fn (file g))
   else (profiler_hook g node now).1 = g).
Proof.
  intros Ht. destruct (hits target node) eqn:Hh.
  - destruct (hook_single_hit g target node now Ht Hh) as (f & _ & ->). cbn [fst snd].
    rewrite hook_switch_source, hook_switch_file by done. cbn. eauto.
  - rewrite (hook_single_miss g target node now Ht Hh). done.
Qed.

(** The step of lines 117-120: when an event belongs to a record other than
    the active one, the record that was active keeps its array and its file
    name, has its [last_time] reset to zero, and the record of the event
    becomes the active one. *)
Lemma switch_closes_previous g node now p q sf :
  resolve g node = Some p -> last_file g = Some q -> q ≠ p ->
  get_record g q = Some sf ->
  get_record (profiler_hook g node now).1 q = Some (set_last_time 0 sf) /\
  last_file (profiler_hook g node now).1 = Some p.
Proof.
  intros Hres Hlast Hne Hget.
  destruct (hook_resolved g node now p Hres) as (f & fn & _ & _ & _ & _ & _ & Hl & Hoth).
  split; [|done]. rewrite Hoth by done. rewrite decide_True by done. by rewrite Hget.
Qed.

(** * The table of pattern mode *)

Lemma hook_after_select g node now f :
  nd_file node = Some f -> 0 < nd_line node ->
  (profiler_hook g node now).2 = (hook_select g f).2 /\
  forall k, classify (profiler_hook g node now).1 k = classify (hook_select g f).1.2 k.
Proof.
  intros Hf Hl. rewrite (profiler_hook_eq g node now f Hf Hl).
  destruct (hook_select g f) as [[[p|] g1] log]; cbn [fst snd]; [|done].
  destruct (get_record g1 p) as [sf|]; cbn [fst snd]; [|done].
  split; [done|]. intros k. by rewrite classify_switch, classify_put.
Qed.

(** The pattern is searched for the path of an event exactly when the table
    does not classify that path yet. *)
Lemma hook_log g node now :
  (profiler_hook g node now).2 = [] \/
  exists f, nd_file node = Some f /\ 0 < nd_line node /\ source_filename g = None /\
            classify g (c_text f) = None /\
            (profiler_hook g node now).2 = [call_reg_search (c_text f)].
Proof.
  destruct (resolve_cases g node) as [[_ [Hn|Hn]]|(f & Hf & Hl & _)].
  - left. by rewrite profiler_hook_no_file.
  - left. by rewrite profiler_hook_no_line.
  - destruct (hook_after_select g node now f Hf Hl) as [-> _].
    destruct (hook_select_cases g f)
      as [(t & Ht & Ha & E)|[(t & Ht & Ha & E)|[(Ht & Hk & E)|[(Ht & [sf Hk] & E)|
          [(Ht & Hk & Hm & E)|(Ht & Hk & Hm & E)]]]]];
      rewrite E; cbn [snd]; try (by left);
      right; exists f; unfold classify; rewrite Hk; done.
Qed.

(** A path that is classified keeps its class; a path that is not gets one
    only from a search of the pattern, and the class is the result of that
    search. *)
Lemma hook_classify g node now k :
  classify (profiler_hook g node now).1 k =
    match classify g k with
    | Some b => Some b
    | None =>
        if decide ((profiler_hook g node now).2 = [call_reg_search k])
        then Some (regex_matches g k) else None
    end.
Proof.
  destruct (resolve_cases g node) as [[_ [Hn|Hn]]|(f & Hf & Hl & _)].
  - rewrite profiler_hook_no_file by done. cbn. by destruct (classify g k).
  - rewrite profiler_hook_no_line by done. cbn. by destruct (classify g k).
  - destruct (hook_after_select g node now f Hf Hl) as [-> ->].
    destruct (hook_select_cases g f)
      as [(t & Ht & Ha & E)|[(t & Ht & Ha & E)|[(Ht & Hk & E)|[(Ht & [sf Hk] & E)|
          [(Ht & Hk & Hm & E)|(Ht & Hk & Hm & E)]]]]];
      rewrite E; cbn [fst snd];
      try (unfold classify; cbn [set_file files]; by destruct (files g !! k)).
    + unfold classify. cbn [set_files files].
      destruct (decide (c_text f = k)) as [<-|Hne].
      * rewrite lookup_insert_eq, Hk. cbn. by rewrite decide_True, Hm.
      * rewrite lookup_insert_ne by done. destruct (files g !! k); [done|]. cbn.
        rewrite decide_False; [done|]. intros [= ?]. done.
    + unfold classify. cbn [set_files files].
      destruct (decide (c_text f = k)) as [<-|Hne].
      * rewrite lookup_insert_eq, Hk. cbn. by rewrite decide_True, Hm.
      * rewrite lookup_insert_ne by done. destruct (files g !! k); [done|]. cbn.
        rewrite decide_False; [done|]. intros [= ?]. done.
Qed.

Lemma names_ok_hook g node now : names_ok g -> names_ok (profiler_hook g node now).1.
Proof.
  intros Hok k sf' Hget. destruct (resolve g node) as [p|] eqn:Hres.
  - destruct (hook_resolved g node now p Hres)
      as (f & fn & Hf & Hl & Hp & Hfn & Hgp & _ & Hoth).
    destruct (decide (ref_entry k = p)) as [<-|Hne].
    + rewrite Hgp in Hget. injection Hget as <-. rewrite filename_hook_sample. cbn.
      destruct Hp as [[? _]|[[= ->] _]]; [done|].
      destruct Hfn as [->|(sf & Hsf & ->)]; [done|]. by apply Hok.
    + rewrite Hoth in Hget by done. case_decide.
      * destruct (get_record g (ref_entry k)) as [sf|] eqn:E; [|done].
        injection Hget as <-. cbn. by apply Hok.
      * by apply Hok.
  - destruct (hook_unresolved g node now Hres) as (Hsame & _). rewrite Hsame in Hget.
    by apply Hok.
Qed.

Lemma classify_get g k :
  classify g k ≠ Some true -> get_record g (ref_entry k) = None.
Proof. unfold classify, get_record. by destruct (files g !! k) as [[]|]. Qed.

Lemma table_ok_hook re g log node now :
  table_ok re g log ->
  table_ok re (profiler_hook g node now).1 (log ++ (profiler_hook g node now).2).
Proof.
  intros (Hs & Hr & Hn & Hd & Hc).
  destruct (hook_fields g node now) as (_ & Hs' & Hr').
  split_and!; [congruence|congruence|by apply names_ok_hook| |].
  - destruct (hook_log g node now) as [->|(f & _ & _ & _ & Hcl & ->)].
    + by rewrite app_nil_r.
    + apply NoDup_app. split_and!; [done| |apply NoDup_singleton].
      intros c Hin [= ->]%list_elem_of_singleton. rewrite Hc in Hcl. by case_decide.
  - intros path. rewrite hook_classify, Hc.
    destruct (hook_log g node now) as [E|(f & _ & _ & _ & Hcl & E)]; rewrite E.
    + rewrite app_nil_r. case_decide; [done|]. by rewrite decide_False.
    + destruct (decide (call_reg_search path ∈ log)) as [Hin|Hin].
      * rewrite decide_True; [done|]. apply elem_of_app. by left.
      * destruct (decide (c_text f = path)) as [->|Hne].
        -- rewrite decide_True by done. rewrite decide_True by (apply elem_of_app; right; by left).
           unfold regex_matches. by rewrite Hr.
        -- rewrite decide_False by congruence. rewrite decide_False; [done|].
           intros [?|[= ?]%list_elem_of_singleton]%elem_of_app; done.
Qed.

(** Under a table that classifies by the pattern, an event belongs to the
    record of its path when the pattern matches the path, and to none
    otherwise. *)
Lemma pattern_resolve re path g log node :
  table_ok re g log -> 0 <= rb_reg_search re path ->
  (forall f, nd_file node = Some f -> c_text f ≠ path -> rb_reg_search re (c_text f) < 0) ->
  resolve g node = if on_path path node then Some (ref_entry path) else None.
Proof.
  intros (Hs & Hr & _ & _ & Hc) Hm Hoth. unfold resolve, on_path.
  destruct (nd_file node) as [f|]; [|done].
  destruct (Z.leb_spec (nd_line node) 0) as [Hl|Hl].
  { destruct (Z.ltb_spec 0 (nd_line node)); [lia|]. by rewrite andb_false_r. }
  destruct (Z.ltb_spec 0 (nd_line node)); [|lia]. rewrite andb_true_r.
  assert (regex_matches g (c_text f) = (0 <=? rb_reg_search re (c_text f))) as Hrm
    by (unfold regex_matches; by rewrite Hr).
  assert (forall b, classify g (c_text f) = Some b -> b = (0 <=? rb_reg_search re (c_text f)))
    as Hcl.
  { intros b. rewrite Hc. case_decide; [|done]. by intros [= <-]. }
  assert ((0 <=? rb_reg_search re (c_text f)) = bool_decide (c_text f = path)) as Hdec.
  { case_bool_decide as Hp.
    - rewrite Hp. by apply Z.leb_le.
    - apply Z.leb_gt. by apply Hoth. }
  assert ((0 <=? rb_reg_search re (c_text f)) = true -> c_text f = path) as Hyes.
  { rewrite Hdec. apply bool_decide_eq_true_1. }
  assert ((0 <=? rb_reg_search re (c_text f)) = false -> bool_decide (c_text f = path) = false)
    as Hno by (by rewrite Hdec).
  destruct (hook_select_cases g f)
    as [(t & Ht & _)|[(t & Ht & _)|[(_ & Hk & E)|[(_ & [sf Hk] & E)|
        [(_ & Hk & Hmm & E)|(_ & Hk & Hmm & E)]]]]]; try congruence; rewrite E; cbn.
  - rewrite Hno; [done|]. symmetry. apply Hcl. unfold classify. by rewrite Hk.
  - assert (c_text f = path) as ->.
    { apply Hyes. symmetry. apply Hcl. unfold classify. by rewrite Hk. }
    by rewrite bool_decide_eq_true_2.
  - assert (c_text f = path) as -> by (apply Hyes; by rewrite <- Hrm).
    by rewrite bool_decide_eq_true_2.
  - rewrite Hno; [done|]. by rewrite <- Hrm.
Qed.

Lemma on_path_resolved k g node p :
  source_filename g = None -> on_path k node = false -> resolve g node = Some p ->
  p ≠ ref_entry k.
Proof.
  intros Hs Hon Hres.
  destruct (hook_resolved g node 0 p Hres) as (f & _ & Hf & Hl & Hp & _).
  destruct Hp as [[_ ?]|[-> _]]; [done|]. intros [= Hk].
  unfold on_path in Hon. rewrite Hf in Hon.
  rewrite bool_decide_eq_true_2 in Hon by done. cbn in Hon. apply Z.ltb_ge in Hon. lia.
Qed.

(** Events of other paths leave the array of a record alone. *)
Lemma hook_path_other k g node now :
  source_filename g = None -> on_path k node = false ->
  forall sf', get_record (profiler_hook g node now).1 (ref_entry k) = Some sf' ->
  exists sf, get_record g (ref_entry k) = Some sf /\
             lines sf' = lines sf /\ nlines sf' = nlines sf.
Proof.
  intros Hs Hon sf' Hget. destruct (resolve g node) as [p|] eqn:Hres.
  - pose proof (on_path_resolved k g node p Hs Hon Hres) as Hne.
    destruct (hook_resolved g node now p Hres) as (f & fn & _ & _ & _ & _ & _ & _ & Hoth).
    rewrite Hoth in Hget by done. case_decide; [|eauto].
    destruct (get_record g (ref_entry k)) as [sf|]; [|done].
    injection Hget as <-. eauto.
  - destruct (hook_unresolved g node now Hres) as (Hsame & _). rewrite Hsame in Hget. eauto.
Qed.

(** The first event of a path creates its record without an array. *)
Lemma hook_path_first k g node now :
  source_filename g = None -> get_record g (ref_entry k) = None ->
  forall sf', get_record (profiler_hook g node now).1 (ref_entry k) = Some sf' ->
  lines sf' = None /\ nlines sf' = 0.
Proof.
  intros Hs Hnone sf' Hget. destruct (resolve g node) as [p|] eqn:Hres.
  - destruct (hook_resolved g node now p Hres) as (f & fn & _ & _ & _ & _ & Hgp & _ & Hoth).
    destruct (decide (ref_entry k = p)) as [<-|Hne].
    + rewrite Hgp, Hnone in Hget. injection Hget as <-.
      by rewrite hook_sample_closed.
    + rewrite Hoth, Hnone in Hget by done. by case_decide.
  - destruct (hook_unresolved g node now Hres) as (Hsame & _). congruence.
Qed.

(** * Blocks *)

Lemma run_events_cons g node now evs :
  run_events g ((node, now) :: evs) =
    ((run_events (profiler_hook g node now).1 evs).1,
     (profiler_hook g node now).2 ++ (run_events (profiler_hook g node now).1 evs).2).
Proof.
  simpl. destruct (profiler_hook g node now) as [g1 l1]. simpl.
  by destruct (run_events g1 evs).
Qed.

Lemma run_fields evs : forall g,
  source_filename (run_events g evs).1 = source_filename g.
Proof.
  induction evs as [|[node now] evs IH]; intros g; [done|].
  rewrite run_events_cons. cbn [fst]. rewrite IH.
  by destruct (hook_fields g node now) as (_ & -> & _).
Qed.

Lemma run_events_calls evs : forall g c,
  c ∈ (run_events g evs).2 -> exists path, c = call_reg_search path.
Proof.
  induction evs as [|[node now] evs IH]; intros g c.
  - simpl. by intros ?%elem_of_nil.
  - rewrite run_events_cons. cbn [snd]. intros [Hc|Hc]%elem_of_app; [|by eapply IH].
    destruct (hook_log g node now) as [E|(f & _ & _ & _ & _ & E)]; rewrite E in Hc.
    + by apply elem_of_nil in Hc.
    + apply list_elem_of_singleton in Hc. eauto.
Qed.

Lemma run_events_paths evs : forall g path,
  call_reg_search path ∈ (run_events g evs).2 ->
  exists e f, e ∈ evs /\ nd_file e.1 = Some f /\ c_text f = path.
Proof.
  induction evs as [|[node now] evs IH]; intros g path.
  - simpl. by intros ?%elem_of_nil.
  - rewrite run_events_cons. cbn [snd]. intros [Hc|Hc]%elem_of_app.
    + destruct (hook_log g node now) as [E|(f & Hf & _ & _ & _ & E)]; rewrite E in Hc.
      * by apply elem_of_nil in Hc.
      * apply list_elem_of_singleton in Hc. injection Hc as ->.
        exists (node, now), f. split; [by left|done].
    + destruct (IH _ _ Hc) as (e & f & He & Hf). exists e, f. split; [by right|done].
Qed.

Lemma samples_of_cons target node now evs :
  samples_of target ((node, now) :: evs) =
    if hits target node then (now, nd_line node) :: samples_of target evs
    else samples_of target evs.
Proof.
  unfold samples_of. destruct (hits target node) eqn:Hh.
  - rewrite filter_cons_True by (by apply Is_true_true). done.
  - rewrite filter_cons_False by (by apply Is_true_false). done.
Qed.

Lemma hits_line target node : hits target node = true -> 0 < nd_line node.
Proof.
  unfold hits. destruct (nd_file node); [|done].
  intros [_ H]%andb_true_iff. by apply Z.ltb_lt.
Qed.

Lemma samples_of_lines target evs :
  Forall (fun s => 0 < s.2) (samples_of target evs).
Proof.
  induction evs as [|[node now] evs IH]; [constructor|].
  rewrite samples_of_cons. destruct (hits target node) eqn:Hh; [|done].
  constructor; [|done]. by apply hits_line in Hh.
Qed.

(** In single-file mode a block does to the fast-path record what its
    samples do, one after the other, and calls nothing. *)
Lemma single_run_fold target evs : forall g,
  source_filename g = Some target ->
  source_filename (run_events g evs).1 = Some target /\
  (run_events g evs).2 = [] /\
  exists fn, file (run_events g evs).1 =
             set_filename fn (sample_all (file g) (samples_of target evs)).
Proof.
  induction evs as [|[node now] evs IH]; intros g Ht.
  - split; [done|]. split; [done|]. exists (filename (file g)). by rewrite set_filename_id.
  - rewrite run_events_cons. cbn [fst snd]. rewrite samples_of_cons.
    destruct (hook_single_file g target node now Ht) as (Ht1 & -> & Hf).
    destruct (IH (profiler_hook g node now).1 Ht1) as (Hs & Hlog & fn' & Hfile).
    split; [done|]. split; [done|]. exists fn'. rewrite Hfile.
    destruct (hits target node).
    + destruct Hf as [fn ->]. rewrite hook_sample_set_filename, sample_all_set_filename.
      by rewrite set_filename_twice.
    + by rewrite Hf.
Qed.

Lemma path_samples_cons path node now evs :
  path_samples path ((node, now) :: evs) =
    if on_path path node then (now, nd_line node) :: path_samples path evs
    else path_samples path evs.
Proof.
  unfold path_samples. destruct (on_path path node) eqn:Hh.
  - rewrite filter_cons_True by (by apply Is_true_true). done.
  - rewrite filter_cons_False by (by apply Is_true_false). done.
Qed.

Lemma path_samples_lines path evs :
  Forall (fun s => 0 < s.2) (path_samples path evs).
Proof.
  induction evs as [|[node now] evs IH]; [constructor|].
  rewrite path_samples_cons. destruct (on_path path node) eqn:Hon; [|done].
  constructor; [|done]. cbn. unfold on_path in Hon. destruct (nd_file node); [|done].
  apply andb_true_iff in Hon as [_ H]. by apply Z.ltb_lt.
Qed.

Lemma table_ok_run re evs : forall g log,
  table_ok re g log -> table_ok re (run_events g evs).1 (log ++ (run_events g evs).2).
Proof.
  induction evs as [|[node now] evs IH]; intros g log Hok.
  - simpl. by rewrite app_nil_r.
  - rewrite run_events_cons. cbn [fst snd]. rewrite app_assoc.
    apply IH. by apply table_ok_hook.
Qed.

(** The record of the one path in scope after a block: the record before
    it (a zeroed one if there was none), sampled at the samples of the
    path. *)
Lemma pattern_run_fold re path evs : forall g log,
  table_ok re g log -> only_path_in_scope re path evs ->
  if decide (path_samples path evs = [])
  then get_record (run_events g evs).1 (ref_entry path) = get_record g (ref_entry path)
  else exists fn,
         get_record (run_events g evs).1 (ref_entry path) =
           Some (set_filename fn
                   (sample_all (default sourcefile_zero (get_record g (ref_entry path)))
                      (path_samples path evs))).
Proof.
  induction evs as [|[node now] evs IH]; intros g log Hok [Hm Hoth]; [done|].
  rewrite run_events_cons. cbn [fst]. rewrite path_samples_cons.
  assert (only_path_in_scope re path evs) as Hscope.
  { split; [done|]. intros e f He. apply Hoth. by right. }
  pose proof (table_ok_hook re g log node now Hok) as Hok1.
  specialize (IH (profiler_hook g node now).1 _ Hok1 Hscope).
  assert (resolve g node = if on_path path node then Some (ref_entry path) else None) as Hres.
  { apply (pattern_resolve re path g log); [done|done|].
    intros f Hf. apply (Hoth (node, now)); [by left|done]. }
  destruct (on_path path node) eqn:Hon.
  - rewrite decide_False by done.
    destruct (hook_resolved g node now _ Hres) as (f & fn & _ & _ & _ & _ & Hgp & _).
    rewrite hook_sample_set_filename in Hgp. rewrite Hgp in IH.
    change (default sourcefile_zero (Some ?x)) with x in IH.
    case_decide as Hnil.
    + rewrite IH, Hnil. by exists fn.
    + destruct IH as [fn' IH]. exists fn'. rewrite IH.
      by rewrite sample_all_set_filename, set_filename_twice.
  - destruct (hook_unresolved g node now Hres) as (Hsame & _). rewrite Hsame in IH. done.
Qed.

Lemma path_run_idle k evs : forall g,
  source_filename g = None -> filter (fun e => on_path k e.1) evs = [] ->
  forall sf', get_record (run_events g evs).1 (ref_entry k) = Some sf' ->
  exists sf, get_record g (ref_entry k) = Some sf /\
             lines sf' = lines sf /\ nlines sf' = nlines sf.
Proof.
  induction evs as [|[node now] evs IH]; intros g Hs Hnil sf' Hget; [cbn [run_events fst] in Hget; eauto|].
  rewrite run_events_cons in Hget. cbn [fst] in Hget.
  destruct (on_path k node) eqn:Hon.
  - rewrite filter_cons_True in Hnil by (by apply Is_true_true). done.
  - rewrite filter_cons_False in Hnil by (by apply Is_true_false).
    destruct (IH (profiler_hook g node now).1) with (sf' := sf') as (sf1 & Hg1 & Hl1 & Hn1);
      [by destruct (hook_fields g node now) as (_ & -> & _)|done|done|].
    destruct (hook_path_other k g node now Hs Hon sf1 Hg1) as (sf & Hg & Hl & Hn).
    exists sf. split; [done|]. split; [by rewrite Hl1|by rewrite Hn1].
Qed.

Lemma path_run_once k evs : forall g,
  source_filename g = None -> get_record g (ref_entry k) = None ->
  (length (filter (fun e => on_path k e.1) evs) <= 1)%nat ->
  forall sf', get_record (run_events g evs).1 (ref_entry k) = Some sf' ->
  lines sf' = None /\ nlines sf' = 0.
Proof.
  induction evs as [|[node now] evs IH]; intros g Hs Hnone Hlen sf' Hget;
    [cbn [run_events fst] in Hget; congruence|].
  rewrite run_events_cons in Hget. cbn [fst] in Hget.
  assert (source_filename (profiler_hook g node now).1 = None) as Hs1
    by (by destruct (hook_fields g node now) as (_ & -> & _)).
  destruct (get_record (profiler_hook g node now).1 (ref_entry k)) as [sf1|] eqn:Hg1.
  - destruct (hook_path_first k g node now Hs Hnone sf1 Hg1) as [Hl1 Hn1].
    destruct (on_path k node) eqn:Hon.
    + rewrite filter_cons_True in Hlen by (by apply Is_true_true). simpl in Hlen.
      destruct (path_run_idle k evs _ Hs1) with (sf' := sf') as (sf & Hg & Hl & Hn);
        [apply length_zero_iff_nil; lia|done|].
      rewrite Hg1 in Hg. injection Hg as <-. split; [by rewrite Hl|by rewrite Hn].
    + destruct (hook_path_other k g node now Hs Hon sf1 Hg1) as (sf & Hg & _). congruence.
  - apply (IH (profiler_hook g node now).1); try done.
    destruct (on_path k node) eqn:Hon.
    + rewrite filter_cons_True in Hlen by (by apply Is_true_true). simpl in Hlen. lia.
    + by rewrite filter_cons_False in Hlen by (by apply Is_true_false).
Qed.

(** * Sessions *)

Lemma st_foreach_cleanup m : st_foreach_delete cleanup_files m = ∅.
Proof.
  apply map_empty. intros k. unfold st_foreach_delete.
  apply map_lookup_filter_None. right. intros e _ H. apply H. by destruct e.
Qed.

Lemma cleanup_files_empty g : files (cleanup g) = ∅.
Proof.
  unfold cleanup. cbn [set_last_file set_files files file].
  destruct (lines (file g)); cbn; apply st_foreach_cleanup.
Qed.

Lemma cleanup_last_file g : last_file (cleanup g) = None.
Proof. unfold cleanup. cbn. by destruct (lines (file g)). Qed.

Lemma cleanup_source g :
  source_filename (cleanup g) = source_filename g /\
  source_regex (cleanup g) = source_regex g /\
  enabled (cleanup g) = enabled g.
Proof. unfold cleanup. cbn. by destruct (lines (file g)). Qed.

(** What lines 187-191 do to the fast-path record: the array goes, the
    open interval stays. *)
Lemma cleanup_file g :
  rec_wf (file g) ->
  lines (file (cleanup g)) = None /\ nlines (file (cleanup g)) = 0 /\
  last_time (file (cleanup g)) = last_time (file g) /\
  last_line (file (cleanup g)) = last_line (file g) /\
  filename (file (cleanup g)) = filename (file g).
Proof.
  unfold cleanup, rec_wf. cbn. destruct (lines (file g)) eqn:E; cbn; [done|].
  by rewrite E.
Qed.

(** The report of pattern mode has one entry for each record of the table,
    under the path of the record. *)
Lemma report_regex g :
  source_filename g = None -> names_ok g ->
  forall k, lineprof_report g !! k = lines_ary <$> get_record g (ref_entry k).
Proof.
  intros Hs. unfold lineprof_report, names_ok, get_record. rewrite Hs.
  generalize (files g). clear g Hs.
  apply (map_fold_weak_ind
    (fun ret m =>
       (forall k sf, match m !! k with Some (entry_record sf0) => Some sf0 | _ => None end
                     = Some sf -> filename sf = Some k) ->
       forall k, ret !! k =
         lines_ary <$> match m !! k with Some (entry_record sf0) => Some sf0 | _ => None end)).
  - intros _ k. by rewrite !lookup_empty.
  - intros i x m r Hi IH Hok k.
    assert (forall k' sf, match m !! k' with Some (entry_record sf0) => Some sf0 | _ => None end
                          = Some sf -> filename sf = Some k') as Hok'.
    { intros k' sf Hk'. apply Hok. destruct (decide (i = k')) as [->|Hne].
      - by rewrite Hi in Hk'.
      - by rewrite lookup_insert_ne. }
    specialize (IH Hok'). destruct (decide (i = k)) as [->|Hne].
    + rewrite lookup_insert_eq. destruct x as [|sf]; cbn.
      * by rewrite IH, Hi.
      * rewrite (Hok k sf) by (by rewrite lookup_insert_eq).
        by rewrite lookup_insert_eq.
    + rewrite lookup_insert_ne by done. rewrite <- IH.
      destruct x as [|sf]; cbn; [done|].
      rewrite (Hok i sf) by (by rewrite lookup_insert_eq).
      by rewrite lookup_insert_ne.
Qed.

Section Begin.
Variable intern_addr : string -> Z.

(** [lineprof] past its three guards. *)
Lemma lineprof_runs w b sel g0 :
  enabled (prof w) = false ->
  lineprof_begin intern_addr sel (prof w) = Some g0 ->
  lineprof intern_addr w (Some b) sel =
    (mk_world (set_enabled false (run_events g0 (blk_events b)).1) false,
     match blk_raises b with
     | Some e => Raise e
     | None => Return (lineprof_report (set_enabled false (run_events g0 (blk_events b)).1))
     end,
     call_add_event_hook :: call_yield ::
       (run_events g0 (blk_events b)).2 ++ [call_remove_event_hook]).
Proof.
  intros He Hb. unfold lineprof. rewrite He, Hb.
  unfold rb_yield, rb_add_event_hook. cbn [event_hook prof].
  destruct (run_events g0 (blk_events b)) as [g1 log]. cbn.
  by destruct (blk_raises b).
Qed.

Lemma lineprof_begin_string p g :
  lineprof_begin intern_addr (VString p) g =
    Some (set_enabled true (cleanup
      (mk_rblineprof (enabled g) (Some (rb_source_filename intern_addr p)) (file g)
         (source_regex g) (files g) (last_file g)))).
Proof. done. Qed.

Lemma lineprof_begin_regexp re g :
  lineprof_begin intern_addr (VRegexp re) g =
    Some (set_enabled true (cleanup
      (mk_rblineprof (enabled g) None (file g) (Some re) (files g) (last_file g)))).
Proof. done. Qed.

End Begin.

Lemma lineprof_begin_valid intern_addr filename g :
  filename ≠ VOther -> exists g0, lineprof_begin intern_addr filename g = Some g0.
Proof. destruct filename; intros H; [by eexists|by eexists|done]. Qed.

Lemma begin_records intern_addr filename g g0 :
  lineprof_begin intern_addr filename g = Some g0 ->
  (forall k, get_record g0 (ref_entry k) = None) /\
  last_file g0 = None /\ enabled g0 = true /\
  (file g0 = file g \/ file g0 = set_lines None 0 (file g)).
Proof.
  unfold lineprof_begin. destruct (select_source intern_addr filename g) as [g1|] eqn:E; [|done].
  intros [= <-].
  assert (file g1 = file g) as Hf by (destruct filename; cbn in E; by simplify_eq).
  split_and!.
  - intros k. unfold get_record. cbn [set_enabled files].
    by rewrite cleanup_files_empty, lookup_empty.
  - cbn. apply cleanup_last_file.
  - done.
  - cbn [set_enabled file]. unfold cleanup. cbn. rewrite Hf.
    destruct (lines (file g)); [by right|by left].
Qed.

(** Lines 185-191 empty the table, reset [last_file] and free the array of
    the fast-path record; [last_time] and [last_line] of that record are
    left as the session before set them. *)
Lemma begin_keeps_interval intern_addr filename g g0 :
  lineprof_begin intern_addr filename g = Some g0 ->
  files g0 = ∅ /\ last_file g0 = None /\ lines (file g0) = None /\
  last_time (file g0) = last_time (file g) /\ last_line (file g0) = last_line (file g).
Proof.
  unfold lineprof_begin. destruct (select_source intern_addr filename g) as [g1|] eqn:E; [|done].
  intros [= <-].
  assert (file g1 = file g) as Hf by (destruct filename; cbn in E; by simplify_eq).
  cbn [set_enabled files last_file file].
  split; [apply cleanup_files_empty|]. split; [apply cleanup_last_file|].
  unfold cleanup. cbn. rewrite Hf. destruct (lines (file g)) eqn:El; cbn; rewrite ?Hf, ?El; done.
Qed.

Lemma table_ok_begin intern_addr re g g0 :
  lineprof_begin intern_addr (VRegexp re) g = Some g0 -> table_ok re g0 [].
Proof.
  rewrite lineprof_begin_regexp. intros [= <-].
  set (g1 := mk_rblineprof _ _ _ _ _ _).
  destruct (cleanup_source g1) as (Hs & Hr & _).
  assert (forall k, files (set_enabled true (cleanup g1)) !! k = None) as Hempty.
  { intros k. cbn [set_enabled files]. by rewrite cleanup_files_empty, lookup_empty. }
  split_and!; [done|done| |constructor|].
  - intros k sf. unfold get_record. by rewrite Hempty.
  - intros path. unfold classify. rewrite Hempty. cbn. rewrite decide_False; [done|].
    by intros ?%elem_of_nil.
Qed.

Section Sessions.
Variable intern_addr : string -> Z.

(** A single-file session, as a whole: the fast-path record it leaves is
    the record it found, without its array, sampled at the samples of the
    block; the mapping it returns has the one entry of the target path. *)
Lemma single_session w p b :
  enabled (prof w) = false -> rec_wf (file (prof w)) ->
  exists fn,
    file (prof (lineprof intern_addr w (Some b) (VString p)).1.1) =
      set_filename fn
        (sample_all (set_lines None 0 (file (prof w)))
           (samples_of (rb_source_filename intern_addr p) (blk_events b))) /\
    (lineprof intern_addr w (Some b) (VString p)).1.2 =
      match blk_raises b with
      | Some e => Raise e
      | None =>
          Return (<[p := lines_ary
                           (sample_all (set_lines None 0 (file (prof w)))
                              (samples_of (rb_source_filename intern_addr p) (blk_events b)))]>
                    ∅)
      end.
Proof.
  intros Hen Hwf.
  rewrite (lineprof_runs intern_addr w b _ _ Hen (lineprof_begin_string intern_addr p _)). cbn [fst snd prof].
  set (g0 := set_enabled true (cleanup _)).
  assert (source_filename g0 = Some (rb_source_filename intern_addr p)) as Hsrc.
  { subst g0. cbn [set_enabled source_filename]. by rewrite (proj1 (cleanup_source _)). }
  assert (file g0 = set_lines None 0 (file (prof w))) as Hfile0.
  { subst g0. cbn [set_enabled file]. unfold cleanup. cbn.
    unfold rec_wf in Hwf. destruct (file (prof w)) as [fn0 [a|] n lt ll]; cbn in *; [done|].
    by subst n. }
  destruct (single_run_fold _ (blk_events b) g0 Hsrc) as (Hs & _ & fn & Hf).
  exists fn. rewrite Hfile0 in Hf. split; [exact Hf|].
  destruct (blk_raises b); [done|]. unfold lineprof_report.
  cbn [set_enabled source_filename file]. by rewrite Hs, Hf.
Qed.

(** A session with a pattern that matches one path and no other file of the
    block, as a whole: the mapping it returns has an entry for that path
    once the path has a sample, the array of a zeroed record sampled at the
    samples of the path, and no other entry. *)
Lemma pattern_session w re path b :
  enabled (prof w) = false -> only_path_in_scope re path (blk_events b) ->
  exists ret,
    (lineprof intern_addr w (Some b) (VRegexp re)).1.2 =
      match blk_raises b with Some e => Raise e | None => Return ret end /\
    (forall k, k ≠ path -> ret !! k = None) /\
    ret !! path =
      if decide (path_samples path (blk_events b) = []) then None
      else Some (lines_ary (sample_all sourcefile_zero (path_samples path (blk_events b)))).
Proof.
  intros Hen Hscope.
  rewrite (lineprof_runs intern_addr w b _ _ Hen (lineprof_begin_regexp intern_addr re _)). cbn [fst snd prof].
  set (g0 := set_enabled true (cleanup _)).
  pose proof (table_ok_begin intern_addr re (prof w) g0 eq_refl) as Hok0.
  pose proof (table_ok_run re (blk_events b) g0 [] Hok0) as (Hs & _ & Hnames & _ & Hc).
  rewrite app_nil_l in Hc.
  pose proof (pattern_run_fold re path (blk_events b) g0 [] Hok0 Hscope) as Hfold.
  assert (get_record g0 (ref_entry path) = None) as Hnone.
  { apply classify_get. destruct Hok0 as (_ & _ & _ & _ & Hc0).
    rewrite Hc0. rewrite decide_False; [done|]. by intros ?%elem_of_nil. }
  rewrite Hnone in Hfold. change (default sourcefile_zero None) with sourcefile_zero in Hfold.
  exists (lineprof_report (set_enabled false (run_events g0 (blk_events b)).1)).
  split; [by destruct (blk_raises b)|].
  assert (forall k, lineprof_report (set_enabled false (run_events g0 (blk_events b)).1) !! k =
                    lines_ary <$> get_record (run_events g0 (blk_events b)).1 (ref_entry k))
    as Hrep.
  { intros k. rewrite report_regex; [done|done|]. intros k' sf. apply Hnames. }
  split.
  - intros k Hk. rewrite Hrep. rewrite classify_get; [done|].
    rewrite Hc.
    destruct (decide (call_reg_search k ∈ (run_events g0 (blk_events b)).2)) as [Hin|Hin];
      [|done].
    destruct (run_events_paths (blk_events b) g0 k Hin) as (e & f & He & Hf & Htext).
    destruct Hscope as [_ Hoth]. specialize (Hoth e f He Hf).
    rewrite Htext in Hoth. specialize (Hoth Hk).
    destruct (Z.leb_spec 0 (rb_reg_search re k)); [lia|done].
  - rewrite Hrep. case_decide as Hnil; [by rewrite Hfold|].
    destruct Hfold as [fn ->]. done.
Qed.

End Sessions.

(** * Invariants of the reachable states *)

Lemma rec_inv_intro c sf :
  rec_wf sf -> 0 <= last_time sf <= c -> (last_time sf ≠ 0 -> 0 < last_line sf) ->
  (forall i, 0 <= line_cell sf i <= c /\ (last_time sf ≠ 0 -> line_cell sf i <= last_time sf)) ->
  rec_inv c sf.
Proof. intros H1 H2 H3 H4. exact (conj H1 (conj H2 (conj H3 H4))). Qed.

Lemma rec_inv_mono c c' sf : rec_inv c sf -> c <= c' -> rec_inv c' sf.
Proof.
  intros (Hwf & Ht & Hl & Hc) Hle. apply rec_inv_intro; [done|lia|done|].
  intros i. destruct (Hc i) as [? ?]. split; [lia|done].
Qed.

Lemma rec_inv_zero c : 0 <= c -> rec_inv c sourcefile_zero.
Proof.
  intros Hc. apply rec_inv_intro; [done|cbn; lia|done|]. intros i. unfold line_cell. cbn.
  rewrite lookup_nil. cbn. split; [lia|done].
Qed.

Lemma rec_inv_set_filename c fn sf : rec_inv c sf -> rec_inv c (set_filename fn sf).
Proof. by destruct sf. Qed.

Lemma rec_inv_close c sf : rec_inv c sf -> rec_inv c (set_last_time 0 sf).
Proof.
  intros (Hwf & Ht & Hl & Hc). apply rec_inv_intro; [by destruct sf|cbn; lia|done|].
  intros i. destruct (Hc i) as [? ?]. split; [done|]. by cbn.
Qed.

Lemma rec_inv_clear c sf : rec_inv c sf -> rec_inv c (set_lines None 0 sf).
Proof.
  intros (Hwf & Ht & Hl & Hc). apply rec_inv_intro; [reflexivity|exact Ht|exact Hl|].
  intros i. unfold line_cell. cbn. rewrite lookup_nil. cbn. split; [lia|].
  cbn in Ht. intros; lia.
Qed.

(** One sample of a record: its invariant moves on to the new clock
    reading, no cell and no capacity decreases, and the line that is
    credited is within the capacity. *)
Lemma hook_sample_inv c sf line now :
  rec_inv c sf -> c <= now < uint64_max -> 0 < line ->
  rec_inv now (hook_sample line now sf) /\
  nlines sf <= nlines (hook_sample line now sf) /\
  (forall i, line_cell sf i <= line_cell (hook_sample line now sf) i) /\
  (last_time sf ≠ 0 -> last_line sf < nlines (hook_sample line now sf)).
Proof.
  intros (Hwf & Ht & Hl & Hc) Hnow Hline.
  destruct (decide (last_time sf = 0)) as [H0|H0].
  - rewrite hook_sample_closed by done. split_and!; [| |done|done].
    + apply rec_inv_intro; [by apply rec_wf_set_last|cbn; lia|done|].
      intros i. change (line_cell (set_last now line sf) i) with (line_cell sf i).
      destruct (Hc i) as [? ?]. cbn. split; [lia|]. intros; lia.
    + cbn. lia.
  - specialize (Hl H0).
    destruct (hook_sample_open line now sf) as (a & Ha & Hlen & Hcov & Hn & Hlt & Hll & _ & Hcell);
      [done|done|lia|].
    assert (forall i, line_cell (hook_sample line now sf) i =
              line_cell sf i + (if decide (i = Z.to_nat (last_line sf))
                                then now - last_time sf else 0)) as Hcell'.
    { intros i. unfold line_cell at 1. rewrite Ha. cbn [default]. 
      change (from_option id 0 (from_option id [] (Some a) !! i)) with (default 0 (a !! i)).
      rewrite Hcell. destruct (Hc i) as [? Hi]. specialize (Hi H0).
      case_decide; [|lia].
      rewrite (uint64_small (now - _)) by (unfold is_uint64; lia).
      apply uint64_small. unfold is_uint64; lia. }
    assert (nlines sf <= nlines (hook_sample line now sf)) as Hgrow.
    { rewrite Hn. case_bool_decide as Hnone.
      - unfold rec_wf in Hwf. rewrite Hnone in Hwf. lia.
      - destruct (Z.leb_spec (nlines sf) (last_line sf)); lia. }
    split_and!; [|done| |done].
    + apply rec_inv_intro.
      * unfold rec_wf. by rewrite Ha.
      * rewrite Hlt. lia.
      * rewrite Hll. done.
      * intros i. rewrite Hcell', Hlt. destruct (Hc i) as [? Hi]. specialize (Hi H0).
        case_decide; split; intros; lia.
    + intros i. rewrite Hcell'. case_decide; lia.
Qed.

Lemma hook_records_inv c g node now :
  (forall p sf, get_record g p = Some sf -> rec_inv c sf) ->
  c <= now < uint64_max ->
  forall p sf, get_record (profiler_hook g node now).1 p = Some sf -> rec_inv now sf.
Proof.
  intros Hinv Hnow p sf' Hget.
  assert (0 <= c) as Hc by (destruct (Hinv ref_file (file g) eq_refl) as (_ & ? & _); lia).
  destruct (resolve g node) as [p0|] eqn:Hres.
  - destruct (hook_resolved g node now p0 Hres)
      as (f & fn & _ & Hl & _ & _ & Hgp & _ & Hoth).
    destruct (decide (p = p0)) as [->|Hne].
    + rewrite Hgp in Hget. injection Hget as <-.
      apply (hook_sample_inv c); [|done|done].
      apply rec_inv_set_filename.
      destruct (get_record g p0) as [sf|] eqn:E; [by apply (Hinv p0)|by apply rec_inv_zero].
    + rewrite Hoth in Hget by done. apply (rec_inv_mono c); [|lia]. case_decide.
      * destruct (get_record g p) as [sf|] eqn:E; [|done]. injection Hget as <-.
        apply rec_inv_close. by apply (Hinv p).
      * by apply (Hinv p).
  - destruct (hook_unresolved g node now Hres) as (Hsame & _). rewrite Hsame in Hget.
    apply (rec_inv_mono c); [by apply (Hinv p)|lia].
Qed.

Lemma open_records_hook g node now :
  open_records_ok g -> open_records_ok (profiler_hook g node now).1.
Proof.
  intros Hok k sf' Hget Hopen. destruct (resolve g node) as [p0|] eqn:Hres.
  - destruct (hook_resolved g node now p0 Hres)
      as (f & fn & _ & _ & _ & _ & _ & Hlast & Hoth).
    rewrite Hlast. destruct (decide (ref_entry k = p0)) as [<-|Hne]; [done|].
    rewrite Hoth in Hget by done. exfalso. case_decide as Hl.
    + destruct (get_record g (ref_entry k)) as [sf|]; [|done]. injection Hget as <-. done.
    + apply Hl. by apply (Hok k sf').
  - destruct (hook_unresolved g node now Hres) as (Hsame & -> & _). rewrite Hsame in Hget.
    by apply (Hok k sf').
Qed.

Section Reachable.
Variable intern_addr : string -> Z.

(** Every record of a reachable state satisfies [rec_inv] at the latest
    clock reading, carries its path, and is closed unless it is the active
    record or the fast-path record. *)
Lemma reachable_inv c g :
  reachable intern_addr c g ->
  0 <= c < uint64_max /\
  (forall p sf, get_record g p = Some sf -> rec_inv c sf) /\
  names_ok g /\ open_records_ok g.
Proof.
  induction 1 as [|c g filename g0 Hr (Hc & Hinv & Hn & Ho) Hen Hb
                  |c g node now Hr (Hc & Hinv & Hn & Ho) Hen Hnow
                  |c g Hr (Hc & Hinv & Hn & Ho)].
  - split_and!; [lia|done| | |].
    + intros [|k] sf; [|done]. intros [= <-]. by apply rec_inv_zero.
    + by intros k sf.
    + by intros k sf.
  - destruct (begin_records intern_addr filename g g0 Hb) as (Hnone & Hl & _ & Hf).
    split_and!; [lia|lia| | |].
    + intros [|k] sf; [|by rewrite Hnone]. intros [= <-].
      destruct Hf as [->| ->]; [|apply rec_inv_clear]; by apply (Hinv ref_file).
    + intros k sf. by rewrite Hnone.
    + intros k sf. by rewrite Hnone.
  - split_and!; [lia|lia| | |].
    + by apply (hook_records_inv c).
    + by apply names_ok_hook.
    + by apply open_records_hook.
  - done.
Qed.

(** Outside pattern mode the table holds no record. *)
Lemma reachable_single_table c g :
  reachable intern_addr c g -> source_filename g ≠ None ->
  forall k, get_record g (ref_entry k) = None.
Proof.
  induction 1 as [|c g filename g0 Hr IH Hen Hb|c g node now Hr IH Hen Hnow|c g Hr IH];
    intros Hs k.
  - done.
  - by destruct (begin_records intern_addr filename g g0 Hb) as (-> & _).
  - destruct (hook_fields g node now) as (_ & Hs' & _). rewrite Hs' in Hs.
    destruct (resolve g node) as [p|] eqn:Hres.
    + destruct (hook_resolved g node now p Hres) as (f & fn & _ & _ & Hp & _ & _ & _ & Hoth).
      destruct Hp as [[-> _]|[_ ?]]; [|done].
      rewrite Hoth by done. rewrite (IH Hs k). by case_decide.
    + destruct (hook_unresolved g node now Hres) as (-> & _). by apply IH.
  - by apply IH.
Qed.

(** Among the records of the table, at most one has an open interval: the
    active one. *)
Lemma reachable_one_open_in_table c g k1 k2 sf1 sf2 :
  reachable intern_addr c g ->
  get_record g (ref_entry k1) = Some sf1 -> last_time sf1 ≠ 0 ->
  get_record g (ref_entry k2) = Some sf2 -> last_time sf2 ≠ 0 ->
  k1 = k2.
Proof.
  intros Hr H1 Ho1 H2 Ho2.
  destruct (reachable_inv c g Hr) as (_ & _ & _ & Hopen).
  pose proof (Hopen k1 sf1 H1 Ho1) as E1. pose proof (Hopen k2 sf2 H2 Ho2) as E2.
  congruence.
Qed.

End Reachable.

Lemma cells_to_lookups sf sf' :
  rec_wf sf -> rec_wf sf' -> nlines sf <= nlines sf' ->
  (forall i, line_cell sf i <= line_cell sf' i) ->
  forall i x, default [] (lines sf) !! i = Some x ->
              exists x', default [] (lines sf') !! i = Some x' /\ x <= x'.
Proof.
  intros Hwf Hwf' Hn Hc i x Hx. specialize (Hc i). unfold line_cell in Hc.
  rewrite Hx in Hc. cbn in Hc.
  pose proof (lookup_lt_Some _ _ _ Hx) as Hi.
  unfold rec_wf in Hwf, Hwf'.
  destruct (lines sf) as [a|]; [|by cbn in Hx].
  destruct (lines sf') as [a'|]; cbn in *; [|lia].
  destruct (lookup_lt_is_Some_2 a' i) as [x' Hx']; [lia|].
  rewrite Hx' in Hc |- *. eauto.
Qed.

Lemma reachable_a_rb : reachable host_intern 0 profiling_a_rb.
Proof. by apply (reach_begin host_intern 0 Init_rblineprof (VString "a.rb")); [constructor| |]. Qed.

Lemma reachable_line_500 : reachable host_intern 1000 entered_line_500.
Proof.
  apply (reach_line host_intern 0 profiling_a_rb); [apply reachable_a_rb|done|].
  unfold uint64_max. lia.
Qed.

Lemma reachable_line_700 : reachable host_intern 1005 entered_line_700.
Proof.
  apply (reach_line host_intern 1000 entered_line_500); [apply reachable_line_500|done|].
  unfold uint64_max. lia.
Qed.

Lemma reachable_after_first_session : reachable host_intern 1000 (prof after_first_session).
Proof.
  apply (reach_ensure host_intern 1000
           (profiler_hook profiling_a_rb (mk_NODE (Some a_rb) 1) 1000).1).
  apply (reach_line host_intern 0 profiling_a_rb); [apply reachable_a_rb|done|].
  unfold uint64_max. lia.
Qed.


(** * Pattern mode with several files in scope *)

(** Under a pattern, the record an event belongs to is the table's record
    of its path when the event is in scope, and none otherwise. *)
Lemma pattern_resolve_scope re g log node :
  table_ok re g log -> resolve g node = ref_entry <$> in_scope re node.
Proof.
  intros (Hs & Hre & Hn & Hnd & Hc).
  unfold resolve, in_scope. destruct (nd_file node) as [f|]; [|done].
  destruct (Z.leb_spec (nd_line node) 0) as [Hl|Hl].
  - replace (0 <? nd_line node) with false by (symmetry; apply Z.ltb_ge; lia). done.
  - replace (0 <? nd_line node) with true by (symmetry; apply Z.ltb_lt; lia). cbn [andb].
    specialize (Hc (c_text f)). unfold classify in Hc.
    unfold hook_select. rewrite Hs.
    destruct (files g !! c_text f) as [[|sf]|] eqn:Hk; cbn in Hc.
    + destruct (decide _); [|done]. injection Hc as Hc. by rewrite <- Hc.
    + destruct (decide _); [|done]. injection Hc as Hc. by rewrite <- Hc.
    + unfold regex_matches. rewrite Hre. cbn [fst].
      by destruct (0 <=? rb_reg_search re (c_text f)).
Qed.

Lemma set_last_time_closed sf : last_time sf = 0 -> set_last_time 0 sf = sf.
Proof. destruct sf. cbn. by intros ->. Qed.

Lemma path_step_same path sf t l : path_step path sf (path, (t, l)) = hook_sample l t sf.
Proof. unfold path_step. cbn [fst snd]. by rewrite decide_True. Qed.

Lemma path_step_other path k sf t l :
  k ≠ path -> path_step path sf (k, (t, l)) = set_last_time 0 sf.
Proof. intros H. unfold path_step. cbn [fst snd]. by rewrite decide_False. Qed.

(** One event, seen from the record of one path. *)
Lemma hook_path_step re g log node now path :
  table_ok re g log -> open_records_ok g ->
  get_record (profiler_hook g node now).1 (ref_entry path) =
    match in_scope re node with
    | None => get_record g (ref_entry path)
    | Some k =>
        match get_record g (ref_entry path) with
        | Some sf => Some (path_step path sf (k, (now, nd_line node)))
        | None =>
            if decide (k = path)
            then Some (hook_sample (nd_line node) now
                         (set_filename (Some path) sourcefile_zero))
            else None
        end
    end.
Proof.
  intros Hok Hopen. pose proof (pattern_resolve_scope re g log node Hok) as Hres.
  destruct (in_scope re node) as [k|] eqn:Hin; cbn in Hres.
  - destruct (hook_resolved g node now _ Hres)
      as (f & fn & Hf & Hl & Hmode & Hfn & Hgp & _ & Hoth).
    destruct Hmode as [[? _]|[Hk _]]; [done|]. injection Hk as Hk.
    destruct (decide (k = path)) as [Heq|Hne].
    + subst path. rewrite Hgp.
      destruct (get_record g (ref_entry k)) as [sf|] eqn:Hg.
      * destruct Hok as (_ & _ & Hn & _). specialize (Hn _ _ Hg).
        change (default sourcefile_zero (Some sf)) with sf.
        assert (fn = filename sf) as ->.
        { destruct Hfn as [->|(sf' & Hsf' & ->)]; [by rewrite Hn, Hk|congruence]. }
        by rewrite set_filename_id, path_step_same.
      * change (default sourcefile_zero None) with sourcefile_zero.
        destruct Hfn as [->|(sf' & Hsf' & _)]; [by rewrite Hk|done].
    + rewrite Hoth by congruence.
      destruct (get_record g (ref_entry path)) as [sf|] eqn:Hg.
      * rewrite path_step_other by done.
        destruct (decide (last_file g = Some (ref_entry path))) as [Hlf|Hlf]; [done|].
        cbn. f_equal. symmetry. apply set_last_time_closed.
        destruct (decide (last_time sf = 0)) as [|Hnz]; [done|].
        exfalso. apply Hlf. by apply (Hopen path sf).
      * by destruct (decide (last_file g = Some (ref_entry path))).
  - destruct (hook_unresolved g node now Hres) as (Hsame & _). apply Hsame.
Qed.

Lemma scoped_cons re node now evs :
  scoped re ((node, now) :: evs) =
    match in_scope re node with
    | Some k => (k, (now, nd_line node)) :: scoped re evs
    | None => scoped re evs
    end.
Proof. unfold scoped. cbn. by destruct (in_scope re node). Qed.

(** A block, seen from the record of one path: the events in scope, each
    applied by [path_step]. *)
Lemma pattern_run_paths re path evs : forall g log,
  table_ok re g log -> open_records_ok g ->
  get_record (run_events g evs).1 (ref_entry path) =
    match get_record g (ref_entry path) with
    | Some sf => Some (fold_left (path_step path) (scoped re evs) sf)
    | None =>
        if decide (path ∈ (scoped re evs).*1)
        then Some (fold_left (path_step path) (scoped re evs)
                     (set_filename (Some path) sourcefile_zero))
        else None
    end.
Proof.
  induction evs as [|[node now] evs IH]; intros g log Hok Hopen.
  - cbn [run_events fst]. change (scoped re []) with (@nil (string * (Z * Z))).
    destruct (get_record g (ref_entry path)); [done|].
    rewrite decide_False; [done|]. by intros ?%elem_of_nil.
  - rewrite run_events_cons. cbn [fst]. rewrite scoped_cons.
    pose proof (table_ok_hook re g log node now Hok) as Hok1.
    pose proof (open_records_hook g node now Hopen) as Hopen1.
    rewrite (IH _ _ Hok1 Hopen1).
    rewrite (hook_path_step re g log node now path Hok Hopen).
    destruct (in_scope re node) as [k|]; [|done].
    destruct (get_record g (ref_entry path)) as [sf|]; [done|].
    destruct (decide (k = path)) as [->|Hne].
    + assert (path ∈ ((path, (now, nd_line node)) :: scoped re evs).*1) as Hin.
      { rewrite fmap_cons. apply elem_of_cons. by left. }
      rewrite decide_True by exact Hin. cbn [fold_left]. by rewrite path_step_same.
    + cbn [fold_left]. rewrite !path_step_other by done.
      change (set_last_time 0 (set_filename (Some path) sourcefile_zero))
        with (set_filename (Some path) sourcefile_zero).
      destruct (decide (path ∈ (scoped re evs).*1)) as [Hin|Hin].
      * rewrite decide_True; [done|]. rewrite fmap_cons. apply elem_of_cons. by right.
      * rewrite decide_False; [done|]. rewrite fmap_cons.
        intros [?|?]%elem_of_cons; [cbn in *; congruence|done].
Qed.

Lemma path_fold_set_filename path fn tl : forall sf,
  fold_left (path_step path) tl (set_filename fn sf) =
    set_filename fn (fold_left (path_step path) tl sf).
Proof.
  induction tl as [|[k [t l]] tl IH]; intros sf; [done|].
  cbn [fold_left]. rewrite <- IH. f_equal.
  destruct (decide (k = path)) as [->|Hne].
  - by rewrite !path_step_same, hook_sample_set_filename.
  - by rewrite !path_step_other.
Qed.

Lemma lines_ary_set_filename fn sf : lines_ary (set_filename fn sf) = lines_ary sf.
Proof. done. Qed.

Lemma report_set_enabled b g : lineprof_report (set_enabled b g) = lineprof_report g.
Proof. done. Qed.

Section PatternSessions.
Variable intern_addr : string -> Z.

(** A session with a pattern, as a whole: the table it leaves holds one
    record for every path in scope, the one [path_record] computes, and the
    mapping it returns holds the arrays of these records. *)
Lemma pattern_session_paths w re b :
  enabled (prof w) = false ->
  (forall path,
     get_record (prof (lineprof intern_addr w (Some b) (VRegexp re)).1.1) (ref_entry path) =
       if decide (path ∈ (scoped re (blk_events b)).*1)
       then Some (set_filename (Some path) (path_record path (scoped re (blk_events b))))
       else None) /\
  (forall path,
     lineprof_report (prof (lineprof intern_addr w (Some b) (VRegexp re)).1.1) !! path =
       if decide (path ∈ (scoped re (blk_events b)).*1)
       then Some (lines_ary (path_record path (scoped re (blk_events b))))
       else None) /\
  (lineprof intern_addr w (Some b) (VRegexp re)).1.2 =
    match blk_raises b with
    | Some e => Raise e
    | None =>
        Return (lineprof_report (prof (lineprof intern_addr w (Some b) (VRegexp re)).1.1))
    end.
Proof.
  intros Hen.
  rewrite (lineprof_runs intern_addr w b _ _ Hen (lineprof_begin_regexp intern_addr re _)).
  cbn [fst snd prof].
  set (g0 := set_enabled true (cleanup _)).
  pose proof (table_ok_begin intern_addr re (prof w) g0 eq_refl) as Hok0.
  pose proof (table_ok_run re (blk_events b) g0 [] Hok0) as (Hs & _ & Hnames & _ & _).
  destruct (begin_records intern_addr (VRegexp re) (prof w) g0 eq_refl) as (Hnone & _).
  assert (open_records_ok g0) as Hopen0.
  { intros k sf Hk. by rewrite Hnone in Hk. }
  assert (forall path,
    get_record (set_enabled false (run_events g0 (blk_events b)).1) (ref_entry path) =
      if decide (path ∈ (scoped re (blk_events b)).*1)
      then Some (set_filename (Some path) (path_record path (scoped re (blk_events b))))
      else None) as Hrec.
  { intros path. change (get_record (set_enabled false ?g) ?p) with (get_record g p).
    rewrite (pattern_run_paths re path (blk_events b) g0 [] Hok0 Hopen0), Hnone.
    by rewrite path_fold_set_filename. }
  split_and!; [done| |by destruct (blk_raises b)].
  intros path. rewrite report_set_enabled, report_regex; [|done|done].
  change (get_record (run_events g0 (blk_events b)).1 (ref_entry path))
    with (get_record (set_enabled false (run_events g0 (blk_events b)).1) (ref_entry path)).
  rewrite Hrec. by destruct (decide _).
Qed.

End PatternSessions.

(** * Credits under a pattern *)

Lemma hook_sample_cells l t sf :
  rec_wf sf -> last_time sf ≠ 0 -> 0 <= last_line sf ->
  (forall i, 0 <= line_cell sf i <= last_time sf) ->
  last_time sf < t < uint64_max ->
  rec_wf (hook_sample l t sf) /\
  last_time (hook_sample l t sf) = t /\ last_line (hook_sample l t sf) = l /\
  forall i, line_cell (hook_sample l t sf) i =
            line_cell sf i + (if last_line sf =? Z.of_nat i then t - last_time sf else 0).
Proof.
  intros Hwf Hopen Hll Hb Ht.
  assert (0 <= last_time sf) as H0 by (specialize (Hb 0%nat); lia).
  destruct (hook_sample_open l t sf) as (a & Ha & Hlen & _ & _ & Hlt' & Hl' & _ & Hcell);
    [done|done|done|].
  split_and!; [unfold rec_wf; by rewrite Ha|done|done|].
  intros i. unfold line_cell at 1. rewrite Ha.
  change (default 0 (default [] (Some a) !! i)) with (default 0 (a !! i)).
  rewrite Hcell. specialize (Hb i). case_decide as Hi.
  - subst i. rewrite Z2Nat.id by done. rewrite Z.eqb_refl.
    rewrite (uint64_small (t - _)) by (unfold is_uint64; lia).
    apply uint64_small. unfold is_uint64; lia.
  - destruct (Z.eqb_spec (last_line sf) (Z.of_nat i)); [|lia].
    exfalso. apply Hi. lia.
Qed.

Lemma credit_on_other path k s tl l :
  k ≠ path -> credit_on path ((k, s) :: tl) l = credit_on path tl l.
Proof.
  intros Hne. destruct s as [t0 l0]. destruct tl as [|[k1 [t1 l1]] tl]; [done|].
  cbn [credit_on]. rewrite decide_False by tauto. lia.
Qed.

Lemma credit_on_next path k0 t0 l0 k1 t1 l1 tl l :
  credit_on path ((k0, (t0, l0)) :: (k1, (t1, l1)) :: tl) l =
    (if decide (k0 = path /\ k1 = path /\ l0 = l) then t1 - t0 else 0)
    + credit_on path ((k1, (t1, l1)) :: tl) l.
Proof. done. Qed.

(** The record of a path over events in scope with a running clock: every
    cell gains the credit [credit_on] gives its line. *)
Lemma path_fold_credit path tl : forall sf c,
  rec_wf sf -> 0 <= c ->
  (last_time sf ≠ 0 -> last_time sf = c /\ 0 <= last_line sf) ->
  (forall i, 0 <= line_cell sf i <= c) ->
  increasing_from c (tl.*2.*1) ->
  Forall (fun s => s.2.1 < uint64_max /\ 0 < s.2.2) tl ->
  rec_wf (fold_left (path_step path) tl sf) /\
  forall i, line_cell (fold_left (path_step path) tl sf) i =
    line_cell sf i +
    (if decide (last_time sf = 0) then credit_on path tl (Z.of_nat i)
     else credit_on path ((path, (last_time sf, last_line sf)) :: tl) (Z.of_nat i)).
Proof.
  induction tl as [|[k [t l]] tl IH]; intros sf c Hwf Hc Hopen Hb Hinc Hmax.
  - split; [done|]. intros i. cbn. destruct (decide _); lia.
  - cbn in Hinc. destruct Hinc as [Hlt Hinc].
    apply Forall_cons in Hmax as [[Hnow Hline] Hmax]. cbn in Hnow, Hline.
    cbn [fold_left].
    destruct (decide (k = path)) as [->|Hne].
    + rewrite path_step_same.
      destruct (decide (last_time sf = 0)) as [Hz|Hnz].
      * rewrite hook_sample_closed by done.
        destruct (IH (set_last t l sf) t) as (Hw & Hcells);
          [by apply rec_wf_set_last|lia|cbn; intros _; lia| |done|done|].
        { intros i. specialize (Hb i).
          change (line_cell (set_last t l sf) i) with (line_cell sf i). lia. }
        split; [done|]. intros i. rewrite Hcells.
        change (line_cell (set_last t l sf) i) with (line_cell sf i).
        cbn [set_last last_time last_line].
        rewrite decide_False by lia. done.
      * destruct (Hopen Hnz) as [Hlast Hll].
        destruct (hook_sample_cells l t sf) as (Hw1 & Ht1 & Hl1 & Hcell1);
          [done|done|done| |lia|].
        { intros i. specialize (Hb i). lia. }
        destruct (IH (hook_sample l t sf) t) as (Hw & Hcells);
          [done|lia|rewrite Ht1, Hl1; intros _; lia| |done|done|].
        { intros i. rewrite Hcell1. specialize (Hb i).
          destruct (last_line sf =? Z.of_nat i); lia. }
        split; [done|]. intros i. rewrite Hcells, Hcell1, Ht1, Hl1.
        rewrite decide_False by lia. rewrite credit_on_next.
        destruct (Z.eqb_spec (last_line sf) (Z.of_nat i)) as [He|He].
        -- rewrite decide_True by done. lia.
        -- rewrite decide_False by tauto. lia.
    + rewrite path_step_other by done.
      destruct (IH (set_last_time 0 sf) t) as (Hw & Hcells);
        [by apply rec_wf_set_last_time|lia|done| |done|done|].
      { intros i. specialize (Hb i).
        change (line_cell (set_last_time 0 sf) i) with (line_cell sf i). lia. }
      split; [done|]. intros i. rewrite Hcells.
      change (line_cell (set_last_time 0 sf) i) with (line_cell sf i).
      cbn [set_last_time last_time]. rewrite decide_True by done.
      destruct (decide (last_time sf = 0)) as [Hz|Hnz].
      * by rewrite credit_on_other.
      * rewrite credit_on_next. rewrite decide_False by tauto.
        rewrite credit_on_other by done. lia.
Qed.

Lemma in_scope_line re node k : in_scope re node = Some k -> 0 < nd_line node.
Proof.
  unfold in_scope. destruct (nd_file node); [|done].
  destruct (Z.ltb_spec 0 (nd_line node)); [done|]. by cbn.
Qed.

Lemma scoped_lines re evs : Forall (fun s => 0 < s.2.2) (scoped re evs).
Proof.
  induction evs as [|[node now] evs IH]; [by apply Forall_nil|].
  rewrite scoped_cons. destruct (in_scope re node) as [k|] eqn:Hin; [|done].
  apply Forall_cons. split; [|done]. cbn. by apply (in_scope_line re node k).
Qed.

(** No interval is open across two events of different files: a block in
    which the files in scope take turns allocates nothing. *)
Lemma path_fold_alternating path tl : forall sf,
  alternating tl -> lines sf = None -> nlines sf = 0 ->
  (last_time sf ≠ 0 -> match tl with s :: _ => s.1 ≠ path | [] => True end) ->
  lines (fold_left (path_step path) tl sf) = None /\
  nlines (fold_left (path_step path) tl sf) = 0.
Proof.
  induction tl as [|[k [t l]] tl IH]; intros sf Halt Hl Hn Hopen; [done|].
  cbn [fold_left].
  assert (alternating tl /\ match tl with s :: _ => k ≠ s.1 | [] => True end) as [Halt' Hnext].
  { destruct tl as [|[k1 s1] tl]; [done|]. cbn in Halt. cbn. tauto. }
  destruct (decide (k = path)) as [->|Hne].
  - rewrite path_step_same.
    assert (last_time sf = 0) as Hz.
    { destruct (decide (last_time sf = 0)) as [|Hnz]; [done|]. by destruct (Hopen Hnz). }
    rewrite hook_sample_closed by done. apply IH; [done|done|done|].
    intros _. destruct tl as [|[k1 s1] tl]; [done|]. cbn in *. congruence.
  - rewrite path_step_other by done. apply IH; [done|done|done|]. by cbn.
Qed.

(** * A path with at most one event *)

Lemma in_scope_on_path re node path :
  in_scope re node = Some path <-> on_path path node = true /\ 0 <= rb_reg_search re path.
Proof.
  unfold in_scope, on_path. destruct (nd_file node) as [f|]; [|by split; [|intros [? _]]].
  destruct (Z.ltb_spec 0 (nd_line node)) as [Hl|Hl]; cbn [andb].
  - rewrite andb_true_r. destruct (Z.leb_spec 0 (rb_reg_search re (c_text f))) as [Hm|Hm].
    + split.
      * intros [= <-]. rewrite bool_decide_eq_true_2 by done. by split.
      * intros [Hp _]. apply bool_decide_eq_true in Hp. by subst.
    + split; [done|]. intros [Hp Hm']. apply bool_decide_eq_true in Hp. subst. lia.
  - rewrite andb_false_r. by split; [|intros [? _]].
Qed.

(** A path is in scope in a block when the pattern matches it and one of
    the events is an event of the path. *)
Lemma path_in_scoped re path evs :
  path ∈ (scoped re evs).*1 <->
    0 <= rb_reg_search re path /\
    (0 < length (filter (fun e => on_path path e.1) evs))%nat.
Proof.
  induction evs as [|[node now] evs IH].
  - cbn. split; [by intros ?%elem_of_nil|intros [_ ?]; lia].
  - rewrite scoped_cons. destruct (on_path path node) eqn:Hon.
    + rewrite filter_cons_True by (by apply Is_true_true). cbn [length].
      destruct (in_scope re node) as [k|] eqn:Hin.
      * rewrite fmap_cons, elem_of_cons, IH. cbn [fst]. split; [|intros [Hm _]].
        -- intros [->|[Hm _]]; [|split; [done|lia]].
           apply in_scope_on_path in Hin as [_ Hm]. split; [done|lia].
        -- left. assert (in_scope re node = Some path) as Hp
             by (by apply in_scope_on_path).
           congruence.
      * rewrite IH. split; [intros [Hm _]; split; [done|lia]|intros [Hm _]].
        assert (in_scope re node = Some path) as Hp by (by apply in_scope_on_path).
        congruence.
    + rewrite filter_cons_False by (by apply Is_true_false).
      destruct (in_scope re node) as [k|] eqn:Hin; [|done].
      rewrite fmap_cons, elem_of_cons, IH. cbn [fst]. split; [|tauto].
      intros [->|H]; [|done]. apply in_scope_on_path in Hin as [Hon' _]. congruence.
Qed.

Lemma path_events_bound re path evs :
  (length (filter (fun s => s.1 = path) (scoped re evs)) <=
   length (filter (fun e => on_path path e.1) evs))%nat.
Proof.
  induction evs as [|[node now] evs IH]; [done|].
  rewrite scoped_cons.
  assert (length (filter (fun e => on_path path e.1) evs) <=
          length (filter (fun e => on_path path e.1) ((node, now) :: evs)))%nat as Hmono.
  { destruct (on_path path node) eqn:Hon.
    - rewrite filter_cons_True by (by apply Is_true_true). cbn. lia.
    - by rewrite filter_cons_False by (by apply Is_true_false). }
  destruct (in_scope re node) as [k|] eqn:Hin; [|lia].
  destruct (decide (k = path)) as [->|Hne].
  - rewrite filter_cons_True by done.
    apply in_scope_on_path in Hin as [Hon _].
    rewrite (filter_cons_True (fun e => on_path path e.1)) by (by apply Is_true_true).
    cbn. lia.
  - rewrite filter_cons_False by done. lia.
Qed.

(** Events of other files leave the array of a record alone. *)
Lemma path_fold_idle path tl : forall sf,
  filter (fun s => s.1 = path) tl = [] ->
  lines (fold_left (path_step path) tl sf) = lines sf /\
  nlines (fold_left (path_step path) tl sf) = nlines sf.
Proof.
  induction tl as [|[k [t l]] tl IH]; intros sf Hnil; [done|].
  destruct (decide (k = path)) as [->|Hne].
  - by rewrite filter_cons_True in Hnil by done.
  - rewrite filter_cons_False in Hnil by done.
    cbn [fold_left]. rewrite path_step_other by done.
    destruct (IH (set_last_time 0 sf) Hnil) as [-> ->]. done.
Qed.

(** A record with at most one event of its own is never given an array. *)
Lemma path_fold_once path tl : forall sf,
  lines sf = None -> nlines sf = 0 -> last_time sf = 0 ->
  (length (filter (fun s => s.1 = path) tl) <= 1)%nat ->
  lines (fold_left (path_step path) tl sf) = None /\
  nlines (fold_left (path_step path) tl sf) = 0.
Proof.
  induction tl as [|[k [t l]] tl IH]; intros sf Hl Hn Hz Hlen; [done|].
  cbn [fold_left]. destruct (decide (k = path)) as [->|Hne].
  - rewrite filter_cons_True in Hlen by done. cbn [length] in Hlen.
    rewrite path_step_same, hook_sample_closed by done.
    destruct (path_fold_idle path tl (set_last t l sf)) as [-> ->]; [|done].
    apply length_zero_iff_nil. lia.
  - rewrite filter_cons_False in Hlen by done.
    rewrite path_step_other by done. by apply IH.
Qed.
(** * C1: intervals are credited to the line that is left *)

(** C1 as stated fails when the first sample is taken at clock reading
    zero: a zero [last_time] means that no interval is open, so the interval
    from 0 to 5 is not credited to line 1 and no array is allocated. *)
Lemma first_sample_at_zero_is_not_credited :
  clean (prof world0) /\
  samples_of a_rb epoch_scenario = [(0, 1); (5, 2)] /\
  strictly_increasing ((samples_of a_rb epoch_scenario).*1) /\
  (lineprof host_intern world0 (Some (mk_block epoch_scenario None)) (VString "a.rb")).1.2
    = Return (<["a.rb"%string := []]> ∅) /\
  ~ credits_every_interval (samples_of a_rb epoch_scenario) [].
Proof.
  split; [repeat split|]. split; [by vm_compute|]. split; [by vm_compute|].
  split; [by vm_compute|]. intros H. specialize (H 1%nat). vm_compute in H. done.
Qed.

(** C1 (amended).  A session started from a clean state, whose block gives
    the one file in scope samples at clock readings [0 < t0 < t1 < ... < tn]
    (all of them [uint64_t] values), reports for that file an array in
    which every line holds the sum of the intervals [t(i+1) - ti] that
    began on it: each interval goes to the line being left, and nothing is
    recorded after [tn].  Events of files out of scope, or with no file or
    line, may come in between.
    - Single-file mode: the mapping returned is the one entry from the
      target path to that array.
    - Pattern mode, with a pattern that matches one path and no other file
      of the block: the mapping has that array under the path once the
      path has a sample, and no other entry. *)
Theorem intervals_are_credited_to_the_line_left intern_addr w evs :
  clean (prof w) ->
  (forall p,
     increasing_from 0 ((samples_of (rb_source_filename intern_addr p) evs).*1) ->
     Forall (fun s => s.1 < uint64_max) (samples_of (rb_source_filename intern_addr p) evs) ->
     exists ary,
       (lineprof intern_addr w (Some (mk_block evs None)) (VString p)).1.2
         = Return (<[p := ary]> ∅) /\
       credits_every_interval (samples_of (rb_source_filename intern_addr p) evs) ary) /\
  (forall re path,
     only_path_in_scope re path evs ->
     increasing_from 0 ((path_samples path evs).*1) ->
     Forall (fun s => s.1 < uint64_max) (path_samples path evs) ->
     exists ret,
       (lineprof intern_addr w (Some (mk_block evs None)) (VRegexp re)).1.2 = Return ret /\
       (forall k, k ≠ path -> ret !! k = None) /\
       if decide (path_samples path evs = []) then ret !! path = None
       else exists ary,
              ret !! path = Some ary /\ credits_every_interval (path_samples path evs) ary).
Proof.
  intros (Hen & Hwf & Hclosed).
  assert (forall sf tl,
            lines sf = None -> nlines sf = 0 -> last_time sf = 0 ->
            increasing_from 0 (tl.*1) -> Forall (fun s => s.1 < uint64_max) tl ->
            Forall (fun s => 0 < s.2) tl ->
            credits_every_interval tl (lines_ary (sample_all sf tl))) as Hcredit.
  { intros sf tl Hl Hn H0 Hinc Hmax Hpos.
    destruct (sample_all_clean tl sf Hl Hn H0 Hinc) as (Hw & Hcell).
    - apply Forall_forall. intros s Hin.
      rewrite Forall_forall in Hmax. rewrite Forall_forall in Hpos. split; eauto.
    - rewrite lines_ary_wf by done. intros i. by rewrite <- Hcell. }
  split.
  - intros p Hinc Hmax.
    destruct (single_session intern_addr w p (mk_block evs None) Hen Hwf) as (fn & _ & ->).
    eexists. split; [done|]. apply Hcredit; try done. apply samples_of_lines.
  - intros re path Hscope Hinc Hmax.
    destruct (pattern_session intern_addr w re path (mk_block evs None) Hen Hscope)
      as (ret & -> & Hoth & Hpath).
    exists ret. split; [done|]. split; [done|]. cbn [blk_events] in Hpath.
    case_decide; [done|]. eexists. split; [done|].
    apply Hcredit; try done. apply path_samples_lines.
Qed.

(** The scenario of the specification, through the theorem, in both modes:
    lines 1, 2 and 3 hold 5, 15 and 0. *)
Lemma credited_scenario :
  (exists ary,
     (lineprof host_intern world0 (Some (mk_block scenario None)) (VString "a.rb")).1.2
       = Return (<["a.rb"%string := ary]> ∅) /\
     default 0 (ary !! 1%nat) = 5 /\ default 0 (ary !! 2%nat) = 15 /\
     default 0 (ary !! 3%nat) = 0) /\
  (exists ret ary,
     (lineprof host_intern world0 (Some (mk_block scenario_among_others None))
        (VRegexp only_a_rb)).1.2 = Return ret /\
     ret !! "a.rb"%string = Some ary /\ ret !! "b.rb"%string = None /\
     default 0 (ary !! 1%nat) = 5 /\ default 0 (ary !! 2%nat) = 15 /\
     default 0 (ary !! 3%nat) = 0).
Proof.
  assert (clean (prof world0)) as Hclean by (by repeat split).
  assert (forall tl : list (Z * Z), tl = [(1000, 1); (1005, 2); (1009, 2); (1020, 3)] ->
            increasing_from 0 (tl.*1) /\ Forall (fun s => s.1 < uint64_max) tl) as Hts.
  { intros tl ->. split; [by repeat split|].
    repeat (apply Forall_cons; split; [reflexivity|]). by apply Forall_nil. }
  split.
  - destruct (intervals_are_credited_to_the_line_left host_intern world0 scenario Hclean)
      as [Hsingle _].
    destruct (Hts (samples_of (rb_source_filename host_intern "a.rb") scenario))
      as [Hinc Hmax]; [by vm_compute|].
    destruct (Hsingle "a.rb"%string Hinc Hmax) as (ary & Hret & Hc).
    exists ary. split; [exact Hret|].
    rewrite (Hc 1%nat), (Hc 2%nat), (Hc 3%nat). vm_compute. repeat split.
  - destruct (intervals_are_credited_to_the_line_left host_intern world0
                scenario_among_others Hclean) as [_ Hpattern].
    destruct (Hts (path_samples "a.rb" scenario_among_others)) as [Hinc Hmax];
      [by vm_compute|].
    destruct (Hpattern only_a_rb "a.rb"%string) as (ret & Hret & Hoth & Hary);
      [|exact Hinc|exact Hmax|].
    + split; [by vm_compute|]. intros e f He Hf Hne. cbn.
      rewrite decide_False by done. lia.
    + rewrite decide_False in Hary by (by vm_compute).
      destruct Hary as (ary & Hary & Hc).
      exists ret, ary. split; [exact Hret|]. split; [exact Hary|].
      split; [apply Hoth; discriminate|].
      rewrite (Hc 1%nat), (Hc 2%nat), (Hc 3%nat). vm_compute. repeat split.
Defined.

(** The single-file scenario evaluated: the array has the 101 cells
    allocated when line 1 was first credited. *)
Example scenario_report :
  (lineprof host_intern world0 (Some (mk_block scenario None)) (VString "a.rb")).1.2
    = Return (<["a.rb"%string := [0; 5; 15] ++ replicate 98 0]> ∅).
Proof. vm_compute. reflexivity. Qed.

(** * C2: what the start of a session clears, and what it does not *)

(** C2 fails on the code.  A first session on [a.rb] sees one line, at
    clock reading 1000.  The second session on [a.rb] sees one line too, at
    5000: on its own it reports an empty array, but run after the first it
    reports 4000 microseconds on line 1, the interval the first session
    left open. *)
Theorem open_interval_survives_into_next_session :
  (lineprof host_intern world0 (Some second_block) (VString "a.rb")).1.2
    = Return (<["a.rb"%string := []]> ∅) /\
  last_time (file (prof after_first_session)) = 1000 /\
  last_line (file (prof after_first_session)) = 1 /\
  (lineprof host_intern after_first_session (Some second_block) (VString "a.rb")).1.2
    = Return (<["a.rb"%string := [0; 4000] ++ replicate 99 0]> ∅).
Proof. split_and!; by vm_compute. Qed.

(** * C3: cells and capacity only grow *)

(** C3 as stated fails: the capacity follows the lines that are credited,
    not the lines that are observed.  After a first event on line 500 the
    record has no array at all, and after a second event on line 700 it has
    600 cells. *)
Lemma capacity_lags_the_observed_line :
  reachable host_intern 1000 entered_line_500 /\
  last_line (file entered_line_500) = 500 /\ nlines (file entered_line_500) = 0 /\
  reachable host_intern 1005 entered_line_700 /\
  last_line (file entered_line_700) = 700 /\ nlines (file entered_line_700) = 600 /\
  ~ (700 <= nlines (file entered_line_700)).
Proof.
  split; [apply reachable_line_500|]. split; [by vm_compute|]. split; [by vm_compute|].
  split; [apply reachable_line_700|]. split; [by vm_compute|]. split; [by vm_compute|].
  by vm_compute.
Qed.

(** C3 (amended).  In every reachable state, a line event whose clock
    reading is not before the latest one leaves every record in place, with
    a capacity that is not smaller and with every cell of its array still
    there and not smaller.  When the event belongs to the record and the
    record has an open interval, so that line [last_line] is credited, the
    capacity after the event exceeds that line: the capacity of a record is
    above every line it has been credited for, not above the line it has
    just entered. *)
Theorem cells_and_capacity_only_grow intern_addr c g node now p sf :
  reachable intern_addr c g -> c <= now < uint64_max ->
  get_record g p = Some sf ->
  exists sf',
    get_record (profiler_hook g node now).1 p = Some sf' /\
    nlines sf <= nlines sf' /\
    (forall i x, default [] (lines sf) !! i = Some x ->
                 exists x', default [] (lines sf') !! i = Some x' /\ x <= x') /\
    (resolve g node = Some p -> last_time sf ≠ 0 ->
       last_line sf < nlines sf' /\
       is_Some (default [] (lines sf') !! Z.to_nat (last_line sf))).
Proof.
  intros Hr Hnow Hget.
  destruct (reachable_inv intern_addr c g Hr) as (Hc & Hinv & _ & _).
  pose proof (Hinv p sf Hget) as Hsf.
  destruct (resolve g node) as [p0|] eqn:Hres.
  - destruct (hook_resolved g node now p0 Hres)
      as (f & fn & _ & Hl & _ & _ & Hgp & _ & Hoth).
    destruct (decide (p = p0)) as [->|Hne].
    + rewrite Hget in Hgp. change (default sourcefile_zero (Some sf)) with sf in Hgp.
      destruct (hook_sample_inv c (set_filename fn sf) (nd_line node) now)
        as (Hinv' & Hn & Hcells & Hcov); [by apply rec_inv_set_filename|done|done|].
      eexists. split; [exact Hgp|]. split; [exact Hn|]. split.
      * apply cells_to_lookups; [apply Hsf|apply Hinv'|exact Hn|exact Hcells].
      * intros _ Hopen. specialize (Hcov Hopen). cbn [set_filename last_line] in Hcov.
        split; [exact Hcov|]. apply lookup_lt_is_Some_2.
        destruct Hinv' as (Hwf' & _). unfold rec_wf in Hwf'.
        destruct Hsf as (_ & _ & Hpos & _). specialize (Hpos Hopen).
        destruct (lines (hook_sample _ _ _)) as [a'|]; cbn; lia.
    + assert (forall sf0 : sourcefile_t, lines sf0 = lines sf ->
                forall i x, default [] (lines sf) !! i = Some x ->
                  exists x', default [] (lines sf0) !! i = Some x' /\ x <= x') as Hsame.
      { intros sf0 -> i x Hx. exists x. split; [done|lia]. }
      rewrite Hoth by done. case_decide.
      * rewrite Hget. eexists. split; [done|]. split; [cbn; lia|].
        split; [by apply Hsame|]. intros [= ?]. done.
      * exists sf. split; [done|]. split; [lia|]. split; [by apply Hsame|].
        intros [= ?]. done.
  - destruct (hook_unresolved g node now Hres) as (Hsame & _). rewrite Hsame.
    exists sf. split; [done|]. split; [lia|]. split; [|done].
    intros i x Hx. exists x. split; [done|lia].
Qed.

(** The second event of [entered_line_700]: line 500 is credited, and the
    capacity goes from 0 to 600. *)
Lemma cells_and_capacity_at_line_700 :
  exists sf',
    get_record entered_line_700 ref_file = Some sf' /\
    nlines (file entered_line_500) <= nlines sf' /\
    (forall i x, default [] (lines (file entered_line_500)) !! i = Some x ->
                 exists x', default [] (lines sf') !! i = Some x' /\ x <= x') /\
    (resolve entered_line_500 (mk_NODE (Some a_rb) 700) = Some ref_file ->
     last_time (file entered_line_500) ≠ 0 ->
       last_line (file entered_line_500) < nlines sf' /\
       is_Some (default [] (lines sf') !! Z.to_nat (last_line (file entered_line_500)))).
Proof.
  apply (cells_and_capacity_only_grow host_intern 1000 entered_line_500
           (mk_NODE (Some a_rb) 700) 1005 ref_file (file entered_line_500)).
  - apply reachable_line_500.
  - unfold uint64_max. lia.
  - reflexivity.
Defined.

(** * C4: allocation and growth of the array *)





(** * C5: the active record *)

(** C5 fails on the code, by the defect of C2.  After a single-file session
    that saw a line of [a.rb], a session with a pattern sees a line of
    [b.rb]: in that reachable state the fast-path record still has the open
    interval of the first session, and the record of [b.rb] has one too. *)
Theorem two_open_intervals_after_mode_change :
  reachable host_intern 2000 pattern_after_single /\
  last_file pattern_after_single = Some (ref_entry "b.rb") /\
  last_time <$> get_record pattern_after_single ref_file = Some 1000 /\
  last_time <$> get_record pattern_after_single (ref_entry "b.rb") = Some 2000.
Proof.
  split_and!; try (by vm_compute).
  apply (reach_line host_intern 1000
           (default Init_rblineprof
              (lineprof_begin host_intern (VRegexp any_path) (prof after_first_session))));
    [|done|unfold uint64_max; lia].
  by apply (reach_begin host_intern 1000 (prof after_first_session) (VRegexp any_path));
    [apply reachable_after_first_session| |].
Qed.

(** * C6: the guards of [lineprof] *)

(** C6.  A call of [lineprof] without a block, or while a session is
    running, or with an argument that is neither a String nor a Regexp,
    raises the ArgumentError of that case (in this order of precedence) and
    does nothing else: the global state and the subscription of the hook
    are those before the call, and neither the block nor
    [rb_add_event_hook] is called. *)
Theorem usage_errors_change_nothing intern_addr w blk filename :
  blk = None \/ enabled (prof w) = true \/ filename = VOther ->
  (exists msg, lineprof intern_addr w blk filename = (w, Raise (ArgError msg), [])) /\
  (blk = None ->
     lineprof intern_addr w blk filename = (w, Raise (ArgError "block required"), [])) /\
  (blk ≠ None -> enabled (prof w) = true ->
     lineprof intern_addr w blk filename =
       (w, Raise (ArgError "profiler is already enabled"), [])) /\
  (blk ≠ None -> enabled (prof w) = false -> filename = VOther ->
     lineprof intern_addr w blk filename =
       (w, Raise (ArgError "argument must be String or Regexp"), [])).
Proof.
  intros Hcase. unfold lineprof.
  destruct blk as [b|]; [|split_and!; eauto; done].
  destruct (enabled (prof w)) eqn:He; [split_and!; eauto; done|].
  destruct Hcase as [?|[?|Hv]]; try done. subst filename.
  cbn. split_and!; eauto; done.
Qed.

(** The three refusals: no block; a call inside a running session; a
    number as the argument. *)
Lemma usage_errors_three_cases :
  lineprof host_intern world0 None (VString "a.rb") =
    (world0, Raise (ArgError "block required"), []) /\
  lineprof host_intern world_running (Some (mk_block scenario None)) (VString "a.rb") =
    (world_running, Raise (ArgError "profiler is already enabled"), []) /\
  lineprof host_intern world0 (Some (mk_block scenario None)) VOther =
    (world0, Raise (ArgError "argument must be String or Regexp"), []).
Proof.
  split_and!.
  - apply (usage_errors_change_nothing host_intern world0 None (VString "a.rb")); [by left|done].
  - apply (usage_errors_change_nothing host_intern world_running
             (Some (mk_block scenario None)) (VString "a.rb")); [right; by left|done|done].
  - apply (usage_errors_change_nothing host_intern world0
             (Some (mk_block scenario None)) VOther); [right; by right|done|done|done].
Defined.

(** * C7: the teardown of [lineprof] *)

(** What the teardown does, for every call that passes the guards: however
    the block leaves, the call ends with [rb_remove_event_hook] as its last
    action, the hook unsubscribed and [enabled] false.  A block that
    returns normally makes [lineprof] return the report of the state the
    block left; a block that raises makes [lineprof] raise the same
    exception, with no report.  In both cases the next call with a block
    and a String or Regexp is not refused: it runs its block and ends the
    way that block does. *)
Lemma block_exit_always_tears_down intern_addr w b filename :
  enabled (prof w) = false -> filename ≠ VOther ->
  event_hook (lineprof intern_addr w (Some b) filename).1.1 = false /\
  enabled (prof (lineprof intern_addr w (Some b) filename).1.1) = false /\
  (exists log, (lineprof intern_addr w (Some b) filename).2 =
     call_add_event_hook :: call_yield :: log ++ [call_remove_event_hook] /\
     forall c, c ∈ log -> exists path, c = call_reg_search path) /\
  (lineprof intern_addr w (Some b) filename).1.2 =
    match blk_raises b with
    | Some e => Raise e
    | None => Return (lineprof_report (prof (lineprof intern_addr w (Some b) filename).1.1))
    end /\
  (forall b2 filename2, filename2 ≠ VOther ->
     call_yield ∈ (lineprof intern_addr (lineprof intern_addr w (Some b) filename).1.1
                     (Some b2) filename2).2 /\
     match blk_raises b2 with
     | Some e =>
         (lineprof intern_addr (lineprof intern_addr w (Some b) filename).1.1
            (Some b2) filename2).1.2 = Raise e
     | None =>
         exists ret,
           (lineprof intern_addr (lineprof intern_addr w (Some b) filename).1.1
              (Some b2) filename2).1.2 = Return ret
     end).
Proof.
  intros Hen Hsel. destruct (lineprof_begin_valid intern_addr filename (prof w) Hsel) as [g0 Hg0].
  rewrite (lineprof_runs intern_addr w b filename g0 Hen Hg0). cbn [fst snd prof event_hook].
  split_and!; [done|done| |by destruct (blk_raises b)|].
  - eexists; split; [done|]. apply run_events_calls.
  - intros b2 filename2 Hsel2.
    set (w' := mk_world _ false).
    destruct (lineprof_begin_valid intern_addr filename2 (prof w') Hsel2) as [g2 Hg2].
    rewrite (lineprof_runs intern_addr w' b2 filename2 g2 eq_refl Hg2). cbn [fst snd].
    split; [apply elem_of_cons; right; by left|].
    destruct (blk_raises b2); eauto.
Qed.

(** A block that raises after two lines: the exception comes out of
    [lineprof], the hook is gone, and the session after it runs. *)
Lemma failing_block_is_torn_down :
  event_hook (lineprof host_intern world0 (Some failing_block) (VString "a.rb")).1.1 = false /\
  enabled (prof (lineprof host_intern world0 (Some failing_block) (VString "a.rb")).1.1)
    = false /\
  (lineprof host_intern world0 (Some failing_block) (VString "a.rb")).1.2 =
    Raise (mk_exception "RuntimeError" "boom") /\
  exists ret,
    (lineprof host_intern
       (lineprof host_intern world0 (Some failing_block) (VString "a.rb")).1.1
       (Some (mk_block scenario None)) (VString "a.rb")).1.2 = Return ret.
Proof.
  assert (VString "a.rb" ≠ VOther) as Hsel by done.
  pose proof (block_exit_always_tears_down host_intern world0 failing_block (VString "a.rb")
                eq_refl Hsel) as (Hhook & Hen & _ & Hout & Hnext).
  split; [exact Hhook|]. split; [exact Hen|]. split; [exact Hout|].
  exact (proj2 (Hnext (mk_block scenario None) (VString "a.rb") Hsel)).
Defined.

(** C7 fails on the code in its last part, by the defect of C2.  The block
    [failing_block] runs lines 1 and 2 of [a.rb] at clock readings 1000 and
    1005 and raises.  The teardown is as the claim says: the hook is
    unsubscribed, [enabled] is false and the exception of the block comes
    out of [lineprof].  But the state is not left clean: the fast-path
    record keeps the interval that was open when the block raised
    ([last_time] 1005 on line 2), nothing resets it, and the next session
    on [a.rb] credits it.  For the block [scenario] a new process reports
    [[0; 5; 15; 0; ...]] (101 cells); after the failed session the same call
    reports [[0; 5; 10; 0; ...]] (102 cells). *)
Theorem failed_session_leaves_its_interval_open :
  event_hook after_failing = false /\
  enabled (prof after_failing) = false /\
  (lineprof host_intern world0 (Some failing_block) (VString "a.rb")).1.2 =
    Raise (mk_exception "RuntimeError" "boom") /\
  last_time (file (prof after_failing)) = 1005 /\
  last_line (file (prof after_failing)) = 2 /\
  ~ clean (prof after_failing) /\
  (lineprof host_intern world0 (Some (mk_block scenario None)) (VString "a.rb")).1.2 =
    Return (<["a.rb"%string := [0; 5; 15] ++ replicate 98 0]> ∅) /\
  (lineprof host_intern after_failing (Some (mk_block scenario None)) (VString "a.rb")).1.2 =
    Return (<["a.rb"%string := [0; 5; 10] ++ replicate 99 0]> ∅).
Proof.
  split_and!; try (by vm_compute).
  intros (_ & _ & Hclosed). vm_compute in Hclosed. discriminate.
Qed.

(** * C8: pattern mode classifies every path once *)

(** C8.  In a session whose selector is a pattern, whatever the state
    before it and the events of its block:
    - no path is searched against the pattern twice (nothing is called
      twice in the whole session);
    - at the end a path is classified exactly when it was searched, and by
      the result of that one search;
    - a path the pattern does not match owns no record in the table and has
      no entry in the returned mapping.
    Every prefix of a block is a block, so this holds at every point of a
    session. *)
Theorem pattern_paths_are_classified_once intern_addr w re b :
  enabled (prof w) = false ->
  NoDup (lineprof intern_addr w (Some b) (VRegexp re)).2 /\
  (forall path,
     classify (prof (lineprof intern_addr w (Some b) (VRegexp re)).1.1) path =
       if decide (call_reg_search path ∈ (lineprof intern_addr w (Some b) (VRegexp re)).2)
       then Some (0 <=? rb_reg_search re path) else None) /\
  (forall path, rb_reg_search re path < 0 ->
     get_record (prof (lineprof intern_addr w (Some b) (VRegexp re)).1.1) (ref_entry path)
       = None /\
     forall ret, (lineprof intern_addr w (Some b) (VRegexp re)).1.2 = Return ret ->
                 ret !! path = None).
Proof.
  intros Hen.
  rewrite (lineprof_runs intern_addr w b _ _ Hen (lineprof_begin_regexp intern_addr re _)).
  set (g0 := set_enabled true (cleanup _)).
  pose proof (table_ok_begin intern_addr re (prof w) g0 eq_refl) as Hok0.
  pose proof (table_ok_run re (blk_events b) g0 [] Hok0) as (Hs & Hr & Hn & Hd & Hc).
  rewrite app_nil_l in Hd, Hc.
  pose proof (run_events_calls (blk_events b) g0) as Hcalls.
  set (g' := (run_events g0 (blk_events b)).1) in *.
  set (log := (run_events g0 (blk_events b)).2) in *.
  cbn [fst snd prof].
  assert (forall path, call_reg_search path ∈
            call_add_event_hook :: call_yield :: log ++ [call_remove_event_hook]
          <-> call_reg_search path ∈ log) as Hmem.
  { intros path. rewrite !elem_of_cons, elem_of_app, list_elem_of_singleton.
    split; [intros [?|[?|[?|?]]]; done|intros ?; right; right; by left]. }
  assert (forall path, rb_reg_search re path < 0 ->
            get_record (set_enabled false g') (ref_entry path) = None) as Hnone.
  { intros path Hneg. apply classify_get.
    change (classify (set_enabled false g') path) with (classify g' path).
    rewrite Hc. case_decide; [|done]. destruct (Z.leb_spec 0 (rb_reg_search re path)); [lia|done]. }
  split_and!.
  - apply NoDup_cons. split.
    + rewrite elem_of_cons, elem_of_app, list_elem_of_singleton.
      intros [?|[Hin|?]]; try done. by destruct (Hcalls _ Hin).
    + apply NoDup_cons. split.
      * rewrite elem_of_app, list_elem_of_singleton.
        intros [Hin|?]; try done. by destruct (Hcalls _ Hin).
      * apply NoDup_app. split_and!; [done| |apply NoDup_singleton].
        intros c Hin ->%list_elem_of_singleton. by destruct (Hcalls _ Hin).
  - intros path. change (classify (set_enabled false g') path) with (classify g' path).
    rewrite Hc. destruct (decide (call_reg_search path ∈ log)) as [Hin|Hin].
    + by rewrite decide_True by (by apply Hmem).
    + by rewrite decide_False by (by rewrite Hmem).
  - intros path Hneg. split; [by apply Hnone|].
    destruct (blk_raises b); [done|]. intros ret [= <-].
    rewrite report_regex; [by rewrite Hnone|done|].
    intros k sf. apply Hn.
Qed.

(** A block over [a.rb] and [b.rb] under a pattern that matches [b.rb]
    alone. *)
Lemma pattern_paths_two_files :
  NoDup (lineprof host_intern world0 (Some (mk_block two_files None)) (VRegexp only_b_rb)).2 /\
  (forall path,
     classify (prof (lineprof host_intern world0 (Some (mk_block two_files None))
                       (VRegexp only_b_rb)).1.1) path =
       if decide (call_reg_search path ∈
                    (lineprof host_intern world0 (Some (mk_block two_files None))
                       (VRegexp only_b_rb)).2)
       then Some (0 <=? rb_reg_search only_b_rb path) else None) /\
  (forall path, rb_reg_search only_b_rb path < 0 ->
     get_record (prof (lineprof host_intern world0 (Some (mk_block two_files None))
                         (VRegexp only_b_rb)).1.1) (ref_entry path) = None /\
     forall ret, (lineprof host_intern world0 (Some (mk_block two_files None))
                    (VRegexp only_b_rb)).1.2 = Return ret ->
                 ret !! path = None).
Proof.
  apply (pattern_paths_are_classified_once host_intern world0 only_b_rb
           (mk_block two_files None)).
  reflexivity.
Defined.

(** What that session calls, and what it returns. *)
Example two_files_session :
  (lineprof host_intern world0 (Some (mk_block two_files None)) (VRegexp only_b_rb)).2 =
    [call_add_event_hook; call_yield; call_reg_search "b.rb"; call_reg_search "a.rb";
     call_remove_event_hook] /\
  (lineprof host_intern world0 (Some (mk_block two_files None)) (VRegexp only_b_rb)).1.2 =
    Return (<["b.rb"%string := [0; 5] ++ replicate 99 0]> ∅).
Proof. split; by vm_compute. Qed.

(** * C9: attribution in single-file mode *)

(** Line 64 compares the two [char *], not the texts: a file name that
    equals the target path as a string but is held at another address than
    the interned one would not be attributed to the session's record. *)
Lemma equal_text_at_other_address_is_ignored :
  source_filename profiling_a_rb = Some a_rb /\
  c_text copy_of_a_rb = c_text a_rb /\
  resolve profiling_a_rb (mk_NODE (Some copy_of_a_rb) 1) = None /\
  profiler_hook profiling_a_rb (mk_NODE (Some copy_of_a_rb) 1) 1000 = (profiling_a_rb, []).
Proof. by vm_compute. Qed.

(** Attribution by address.  In single-file mode an event with a file name
    and a positive line is attributed to the session's record exactly when
    its file name pointer is the address of the target path that
    [lineprof] resolved: then the fast-path record is sampled and becomes
    the active record, and otherwise nothing changes at all.  When the
    target is the interned copy of a path [p], the file name of the event
    is an interned copy too and different texts are interned at different
    addresses, this is equality of the file name and [p] as strings. *)
Lemma single_file_attribution g target node now f :
  source_filename g = Some target -> nd_file node = Some f -> 0 < nd_line node ->
  (resolve g node = Some ref_file <-> c_addr f = c_addr target) /\
  (c_addr f = c_addr target ->
     file (profiler_hook g node now).1 =
       hook_sample (nd_line node) now (set_filename (Some (c_text f)) (file g)) /\
     last_file (profiler_hook g node now).1 = Some ref_file) /\
  (c_addr f ≠ c_addr target -> profiler_hook g node now = (g, [])) /\
  (forall intern_addr p,
     target = rb_source_filename intern_addr p ->
     c_addr f = intern_addr (c_text f) ->
     (forall s1 s2, intern_addr s1 = intern_addr s2 -> s1 = s2) ->
     (resolve g node = Some ref_file <-> c_text f = p) /\
     (c_text f ≠ p -> profiler_hook g node now = (g, []))).
Proof.
  intros Ht Hf Hl.
  assert (resolve g node = Some ref_file <-> c_addr f = c_addr target) as Hiff.
  { unfold resolve, hook_select. rewrite Hf, Ht.
    destruct (Z.leb_spec (nd_line node) 0); [lia|].
    destruct (Z.eqb_spec (c_addr target) (c_addr f)); cbn; split; intros; congruence. }
  assert (c_addr f ≠ c_addr target -> profiler_hook g node now = (g, [])) as Hmiss.
  { intros Hne. apply (hook_single_miss g target node now Ht).
    unfold hits. rewrite Hf. destruct (Z.eqb_spec (c_addr target) (c_addr f)); [congruence|done]. }
  split_and!; [done| |done|].
  - intros Ha. destruct (hook_single_hit g target node now Ht) as (f' & Hf' & ->).
    { unfold hits. rewrite Hf, Ha, Z.eqb_refl. cbn. by apply Z.ltb_lt. }
    rewrite Hf in Hf'. injection Hf' as <-. cbn [fst]. split.
    + by rewrite hook_switch_file.
    + by destruct (hook_switch_fields ref_file
        (set_file (hook_sample (nd_line node) now (set_filename (Some (c_text f)) (file g))) g))
        as (_ & _ & _ & ->).
  - intros intern_addr p -> Hin Hinj. cbn [rb_source_filename c_addr] in *.
    assert (c_addr f = intern_addr p <-> c_text f = p) as Hstr.
    { rewrite Hin. split; [apply Hinj|by intros ->]. }
    split; [by rewrite Hiff|]. intros Hne. apply Hmiss. by rewrite Hstr.
Qed.

Lemma host_intern_inj s1 s2 : host_intern s1 = host_intern s2 -> s1 = s2.
Proof. unfold host_intern. intros [= H]. by apply (inj encode). Qed.

(** C9.  The runtime interns file names: [lineprof] resolves its target
    with [rb_source_filename] (line 176), the file name of every node is
    an interned copy as well, and different texts are interned at different
    addresses.  Under that guarantee, in single-file mode a line event (a
    file name, a positive line) is attributed to the session's record if
    and only if its file name equals the target path as a string: then the
    fast-path record is sampled and becomes the active record.  An event
    whose file name differs from the target path changes nothing at all,
    and makes no call of the runtime. *)
Theorem single_file_attribution_by_path intern_addr g p node now f :
  source_filename g = Some (rb_source_filename intern_addr p) ->
  (forall s1 s2, intern_addr s1 = intern_addr s2 -> s1 = s2) ->
  nd_file node = Some f -> c_addr f = intern_addr (c_text f) -> 0 < nd_line node ->
  (resolve g node = Some ref_file <-> c_text f = p) /\
  (c_text f = p ->
     file (profiler_hook g node now).1 =
       hook_sample (nd_line node) now (set_filename (Some p) (file g)) /\
     last_file (profiler_hook g node now).1 = Some ref_file) /\
  (c_text f ≠ p -> profiler_hook g node now = (g, [])).
Proof.
  intros Ht Hinj Hf Hin Hl.
  destruct (single_file_attribution g (rb_source_filename intern_addr p) node now f Ht Hf Hl)
    as (_ & Hhit & _ & Hstr).
  destruct (Hstr intern_addr p eq_refl Hin Hinj) as [Hiff Hmiss].
  split; [done|]. split; [|done].
  intros Hp. rewrite <- Hp at 1. apply Hhit. rewrite Hin, Hp. done.
Qed.

(** Events of [a.rb] and of [b.rb] during the first session on [a.rb],
    with file names interned by the host: the first is attributed, the
    second changes nothing. *)
Lemma attribution_by_path_a_rb :
  resolve profiling_a_rb (mk_NODE (Some a_rb) 3) = Some ref_file /\
  last_file (profiler_hook profiling_a_rb (mk_NODE (Some a_rb) 3) 1000).1 = Some ref_file /\
  resolve profiling_a_rb (mk_NODE (Some b_rb) 3) ≠ Some ref_file /\
  profiler_hook profiling_a_rb (mk_NODE (Some b_rb) 3) 1000 = (profiling_a_rb, []).
Proof.
  assert (0 < 3) as Hline by lia.
  pose proof (single_file_attribution_by_path host_intern profiling_a_rb "a.rb"
                (mk_NODE (Some a_rb) 3) 1000 a_rb eq_refl host_intern_inj eq_refl eq_refl
                Hline) as (Hres & Hhit & _).
  pose proof (single_file_attribution_by_path host_intern profiling_a_rb "a.rb"
                (mk_NODE (Some b_rb) 3) 1000 b_rb eq_refl host_intern_inj eq_refl eq_refl
                Hline) as (Hres' & _ & Hmiss).
  split; [by apply Hres|]. split; [by apply Hhit|].
  split; [intros H; by apply Hres' in H|]. by apply Hmiss.
Defined.

(** * C10: a record with one event has no array *)

(** C10.  From a clean state, a record that gets at most one event in a
    session never has its array allocated and is reported as an empty
    sequence:
    - in single-file mode, a block in which at most one event reaches the
      target file leaves [rblineprof.file.lines] NULL and, when it returns,
      [lineprof] returns the mapping from the target path to [[]];
    - with a pattern, a path that at most one event of the block carries
      has a record exactly when the pattern matches it and one event
      carries it; that record has no array, and the returned mapping has
      the entry [[]] for the path; a path without a record has no entry. *)
Theorem one_event_leaves_no_array intern_addr w b :
  clean (prof w) ->
  (forall p,
     (length (samples_of (rb_source_filename intern_addr p) (blk_events b)) <= 1)%nat ->
     lines (file (prof (lineprof intern_addr w (Some b) (VString p)).1.1)) = None /\
     (blk_raises b = None ->
      (lineprof intern_addr w (Some b) (VString p)).1.2 = Return (<[p := []]> ∅))) /\
  (forall re path,
     (length (filter (fun e => on_path path e.1) (blk_events b)) <= 1)%nat ->
     (forall sf,
        get_record (prof (lineprof intern_addr w (Some b) (VRegexp re)).1.1) (ref_entry path)
          = Some sf -> lines sf = None) /\
     (forall ret ary,
        (lineprof intern_addr w (Some b) (VRegexp re)).1.2 = Return ret ->
        ret !! path = Some ary -> ary = []) /\
     lines <$> get_record (prof (lineprof intern_addr w (Some b) (VRegexp re)).1.1)
                 (ref_entry path) =
       (if decide (0 <= rb_reg_search re path /\
                   length (filter (fun e => on_path path e.1) (blk_events b)) = 1%nat)
        then Some None else None) /\
     exists ret,
       (lineprof intern_addr w (Some b) (VRegexp re)).1.2 =
         match blk_raises b with Some e => Raise e | None => Return ret end /\
       ret !! path =
         if decide (0 <= rb_reg_search re path /\
                    length (filter (fun e => on_path path e.1) (blk_events b)) = 1%nat)
         then Some [] else None).
Proof.
  intros (Hen & Hwf & Hclosed). split.
  - intros p Hlen.
    destruct (single_session intern_addr w p b Hen Hwf) as (fn & -> & ->).
    destruct (sample_all_once (set_lines None 0 (file (prof w)))
                (samples_of (rb_source_filename intern_addr p) (blk_events b)))
      as [Hl Hn]; [done|done|done|done|].
    split; [exact Hl|]. intros ->. unfold lines_ary. by rewrite Hn.
  - intros re path Hlen.
    destruct (pattern_session_paths intern_addr w re b Hen) as (Hrec & Hrep & Hout).
    destruct (path_fold_once path (scoped re (blk_events b)) sourcefile_zero)
      as [Hl Hn]; [done|done|done| |].
    { pose proof (path_events_bound re path (blk_events b)). lia. }
    fold (path_record path (scoped re (blk_events b))) in Hl, Hn.
    assert (lines_ary (path_record path (scoped re (blk_events b))) = []) as Hary
      by (unfold lines_ary; by rewrite Hn).
    assert (path ∈ (scoped re (blk_events b)).*1 <->
            0 <= rb_reg_search re path /\
            length (filter (fun e => on_path path e.1) (blk_events b)) = 1%nat) as Hin.
    { rewrite path_in_scoped. split; intros [Hm Hone]; (split; [done|lia]). }
    split_and!.
    + intros sf. rewrite Hrec. case_decide; [|done]. by intros [= <-].
    + intros ret ary Hret. rewrite Hout in Hret. destruct (blk_raises b); [done|].
      injection Hret as <-. rewrite Hrep. case_decide; [|done]. intros [= <-]. done.
    + rewrite Hrec.
      destruct (decide (path ∈ (scoped re (blk_events b)).*1)) as [Hp|Hp].
      * rewrite decide_True by (by apply Hin). cbn. by rewrite Hl.
      * rewrite decide_False; [done|]. by rewrite <- Hin.
    + eexists. split; [exact Hout|]. rewrite Hrep, Hary.
      destruct (decide (path ∈ (scoped re (blk_events b)).*1)) as [Hp|Hp].
      * by rewrite decide_True by (by apply Hin).
      * rewrite decide_False; [done|]. by rewrite <- Hin.
Qed.

(** One line of [a.rb] among lines of [b.rb], in both modes: [a.rb] is
    reported with an empty sequence. *)
Lemma one_line_of_a_is_reported_empty :
  (lineprof host_intern world0 (Some (mk_block one_line_of_a None)) (VString "a.rb")).1.2
    = Return (<["a.rb"%string := []]> ∅) /\
  (forall ret ary,
     (lineprof host_intern world0 (Some (mk_block one_line_of_a None)) (VRegexp any_path)).1.2
       = Return ret ->
     ret !! "a.rb"%string = Some ary -> ary = []) /\
  exists ret,
    (lineprof host_intern world0 (Some (mk_block one_line_of_a None)) (VRegexp any_path)).1.2
      = Return ret /\
    ret !! "a.rb"%string = Some [].
Proof.
  assert (clean (prof world0)) as Hclean by (by repeat split).
  pose proof (one_event_leaves_no_array host_intern world0 (mk_block one_line_of_a None) Hclean)
    as [Hsingle Hpattern].
  split.
  - apply (Hsingle "a.rb"%string); [by vm_compute|done].
  - destruct (Hpattern any_path "a.rb"%string) as (_ & Hary & _ & ret & Hret & Hentry).
    { by vm_compute. }
    split; [exact Hary|]. exists ret. split; [exact Hret|]. rewrite Hentry.
    apply decide_True. split; [done|by vm_compute].
Defined.

(** The same two sessions evaluated.  With the pattern, [a.rb] is in the
    mapping, and empty; so is [b.rb], whose interval the line of [a.rb]
    closed. *)
Example one_line_of_a_sessions :
  (lineprof host_intern world0 (Some (mk_block one_line_of_a None)) (VString "a.rb")).1.2
    = Return (<["a.rb"%string := []]> ∅) /\
  (lineprof host_intern world0 (Some (mk_block one_line_of_a None)) (VRegexp any_path)).1.2
    = Return (<["a.rb"%string := []]> (<["b.rb"%string := []]> ∅)).
Proof. split; by vm_compute. Qed.

(** * The report of a session with a pattern *)

(** X1.  A session with a pattern returns one entry for every path that has
    an event in scope (a file name, a positive line, a path the pattern
    matches) and no other entry.  The array of a path is the array of a
    zeroed record to which the events in scope are applied in order: an
    event of the path samples the record, an event of any other file in
    scope closes its open interval.  This holds whatever state earlier
    sessions left, and whatever other events the block fires. *)
Theorem pattern_report_by_path intern_addr w re b :
  enabled (prof w) = false ->
  exists ret,
    (lineprof intern_addr w (Some b) (VRegexp re)).1.2 =
      match blk_raises b with Some e => Raise e | None => Return ret end /\
    forall path,
      ret !! path =
        if decide (path ∈ (scoped re (blk_events b)).*1)
        then Some (lines_ary (path_record path (scoped re (blk_events b))))
        else None.
Proof.
  intros Hen. destruct (pattern_session_paths intern_addr w re b Hen) as (_ & Hrep & Hout).
  eexists. split; [exact Hout|]. exact Hrep.
Qed.

Lemma pattern_report_two_files :
  exists ret,
    (lineprof host_intern world0 (Some (mk_block two_files None)) (VRegexp any_path)).1.2
      = Return ret /\
    ret !! "a.rb"%string = Some ([0; 2] ++ replicate 99 0) /\
    ret !! "b.rb"%string = Some [] /\
    ret !! "c.rb"%string = None.
Proof.
  destruct (pattern_report_by_path host_intern world0 any_path (mk_block two_files None)
              eq_refl) as (ret & Hret & Hp).
  exists ret. split; [exact Hret|].
  rewrite (Hp "a.rb"%string), (Hp "b.rb"%string), (Hp "c.rb"%string).
  vm_compute. repeat split.
Defined.

(** X2.  In a session with a pattern whose events in scope carry strictly
    increasing clock readings [0 < t0 < t1 < ...] below [2^64], line [i] of
    a path is reported with the sum of the intervals [t(j+1) - tj] whose two
    ends are consecutive events in scope, both of that path, the first on
    line [i].  An interval that begins in one file and ends in another is
    credited to no line of either. *)
Theorem pattern_credits_intervals_within_a_file intern_addr w re b :
  enabled (prof w) = false ->
  increasing_from 0 ((scoped re (blk_events b)).*2.*1) ->
  Forall (fun s => s.2.1 < uint64_max) (scoped re (blk_events b)) ->
  exists ret,
    (lineprof intern_addr w (Some b) (VRegexp re)).1.2 =
      match blk_raises b with Some e => Raise e | None => Return ret end /\
    forall path,
      if decide (path ∈ (scoped re (blk_events b)).*1)
      then exists ary,
             ret !! path = Some ary /\
             forall i : nat,
               default 0 (ary !! i) = credit_on path (scoped re (blk_events b)) (Z.of_nat i)
      else ret !! path = None.
Proof.
  intros Hen Hinc Hmax.
  destruct (pattern_session_paths intern_addr w re b Hen) as (_ & Hrep & Hout).
  eexists. split; [exact Hout|]. intros path. rewrite Hrep.
  destruct (decide (path ∈ (scoped re (blk_events b)).*1)) as [Hin|Hin]; [|done].
  eexists. split; [done|]. intros i.
  destruct (path_fold_credit path (scoped re (blk_events b)) sourcefile_zero 0)
    as (Hwf & Hcells); [done|done|done|by intros i'|done| |].
  { apply Forall_and. split; [done|]. apply scoped_lines. }
  fold (path_record path (scoped re (blk_events b))) in Hwf, Hcells.
  rewrite lines_ary_wf by done.
  change (default 0 (default [] (lines ?sf) !! i)) with (line_cell sf i).
  rewrite Hcells. by rewrite decide_True.
Qed.

Lemma pattern_credits_two_files :
  exists ret ary,
    (lineprof host_intern world0 (Some (mk_block two_files None)) (VRegexp any_path)).1.2
      = Return ret /\
    ret !! "a.rb"%string = Some ary /\
    default 0 (ary !! 1%nat) = 2 /\ default 0 (ary !! 2%nat) = 0 /\
    default 0 (ary !! 7%nat) = 0.
Proof.
  destruct (pattern_credits_intervals_within_a_file host_intern world0 any_path
              (mk_block two_files None) eq_refl) as (ret & Hret & Hp).
  - vm_compute. repeat split.
  - replace (scoped any_path (blk_events (mk_block two_files None)))
      with [("b.rb"%string, (2000, 1)); ("a.rb"%string, (2001, 1)); ("a.rb"%string, (2003, 2));
            ("b.rb"%string, (2005, 7)); ("a.rb"%string, (2006, 3))] by (by vm_compute).
    repeat (apply Forall_cons; split; [reflexivity|]). by apply Forall_nil.
  - exists ret. specialize (Hp "a.rb"%string).
    rewrite decide_True in Hp by (vm_compute; apply elem_of_cons; right; apply elem_of_cons; by left).
    destruct Hp as (ary & Hary & Hc). exists ary.
    split; [exact Hret|]. split; [exact Hary|].
    rewrite (Hc 1%nat), (Hc 2%nat), (Hc 7%nat). vm_compute. repeat split.
Defined.

(** X3.  When no two consecutive events in scope belong to the same file, a
    session with a pattern reports an empty array for every path in scope:
    every event finds its record without an open interval, so nothing is
    ever allocated or credited. *)
Theorem alternating_files_report_nothing intern_addr w re b :
  enabled (prof w) = false -> alternating (scoped re (blk_events b)) ->
  exists ret,
    (lineprof intern_addr w (Some b) (VRegexp re)).1.2 =
      match blk_raises b with Some e => Raise e | None => Return ret end /\
    forall path,
      ret !! path = if decide (path ∈ (scoped re (blk_events b)).*1) then Some [] else None.
Proof.
  intros Hen Halt.
  destruct (pattern_session_paths intern_addr w re b Hen) as (_ & Hrep & Hout).
  eexists. split; [exact Hout|]. intros path. rewrite Hrep.
  destruct (decide (path ∈ (scoped re (blk_events b)).*1)) as [Hin|Hin]; [|done].
  destruct (path_fold_alternating path (scoped re (blk_events b)) sourcefile_zero)
    as (_ & Hn); [done|done|done|done|].
  fold (path_record path (scoped re (blk_events b))) in Hn.
  unfold lines_ary. by rewrite Hn.
Qed.

Lemma alternating_one_line_of_a :
  exists ret,
    (lineprof host_intern world0 (Some (mk_block one_line_of_a None)) (VRegexp any_path)).1.2
      = Return ret /\
    ret !! "a.rb"%string = Some [] /\ ret !! "b.rb"%string = Some [].
Proof.
  destruct (alternating_files_report_nothing host_intern world0 any_path
              (mk_block one_line_of_a None) eq_refl) as (ret & Hret & Hp).
  - vm_compute. repeat split; discriminate.
  - exists ret. split; [exact Hret|].
    rewrite (Hp "a.rb"%string), (Hp "b.rb"%string). vm_compute. repeat split.
Defined.

(** * Sessions with a pattern and the fast-path record *)

Lemma put_entry_set_file F k sf g :
  put_record (ref_entry k) sf (set_file F g) = set_file F (put_record (ref_entry k) sf g).
Proof. unfold put_record. cbn [set_file files]. by destruct (files g !! k) as [[]|]. Qed.

Lemma hook_switch_set_file F k g :
  last_file g ≠ Some ref_file ->
  hook_switch (ref_entry k) (set_file F g) = set_file F (hook_switch (ref_entry k) g).
Proof.
  intros Hlf. unfold hook_switch. cbn [set_file last_file].
  destruct (last_file g) as [[|q]|]; [done| |done].
  destruct (decide (ref_entry q = ref_entry k)); [done|].
  change (get_record (set_file F g) (ref_entry q)) with (get_record g (ref_entry q)).
  destruct (get_record g (ref_entry q)); [|done].
  by rewrite put_entry_set_file.
Qed.

Lemma get_entry_set_file F g k :
  get_record (set_file F g) (ref_entry k) = get_record g (ref_entry k).
Proof. done. Qed.

Lemma hook_select_set_file F g f :
  source_filename g = None ->
  (hook_select g f).1.1 ≠ Some ref_file /\
  hook_select (set_file F g) f =
    ((hook_select g f).1.1, set_file F (hook_select g f).1.2, (hook_select g f).2).
Proof.
  intros Hs. unfold hook_select. cbn [set_file source_filename files]. rewrite Hs.
  change (regex_matches (set_file F g)) with (regex_matches g).
  destruct (files g !! c_text f) as [[|sf]|]; [| |destruct (regex_matches g (c_text f))];
    (split; [cbn; congruence|done]).
Qed.

(** In pattern mode the hook neither reads nor writes [rblineprof.file]. *)
Lemma hook_pattern_ignores_file F g node now :
  source_filename g = None -> last_file g ≠ Some ref_file ->
  profiler_hook (set_file F g) node now =
    (set_file F (profiler_hook g node now).1, (profiler_hook g node now).2) /\
  last_file (profiler_hook g node now).1 ≠ Some ref_file /\
  file (profiler_hook g node now).1 = file g.
Proof.
  intros Hs Hlf.
  assert (last_file (profiler_hook g node now).1 ≠ Some ref_file /\
          file (profiler_hook g node now).1 = file g) as Hrest.
  { destruct (resolve g node) as [p|] eqn:Hres.
    - destruct (hook_resolved g node now p Hres)
        as (f & fn & Hf & Hl & Hmode & _ & _ & Hlast & Hoth).
      destruct Hmode as [[_ ?]|[-> _]]; [done|]. split; [by rewrite Hlast|].
      specialize (Hoth ref_file). cbn [get_record] in Hoth.
      rewrite decide_False in Hoth by done. injection Hoth; [done|done].
    - destruct (hook_unresolved g node now Hres) as (_ & Hlast & Hfile).
      split; [by rewrite Hlast|done]. }
  split; [|exact Hrest]. clear Hrest.
  destruct (nd_file node) as [f|] eqn:Hf; [|by rewrite !profiler_hook_no_file].
  destruct (Z.leb_spec (nd_line node) 0) as [Hl|Hl]; [by rewrite !profiler_hook_no_line|].
  rewrite !(profiler_hook_eq _ node now f Hf Hl).
  destruct (hook_select_set_file F g f Hs) as [Hp ->].
  destruct (hook_select_fields g f) as (_ & _ & _ & Hlf1).
  destruct (hook_select g f) as [[p g1] log]. cbn [fst snd] in *.
  destruct p as [[|k]|]; [done| |done].
  rewrite get_entry_set_file. destruct (get_record g1 (ref_entry k)) as [sf|]; [|done].
  rewrite put_entry_set_file, hook_switch_set_file; [done|].
  destruct (put_record_fields (ref_entry k) (hook_sample (nd_line node) now sf) g1)
    as (_ & _ & _ & ->). by rewrite Hlf1.
Qed.

Lemma run_pattern_ignores_file F evs : forall g,
  source_filename g = None -> last_file g ≠ Some ref_file ->
  run_events (set_file F g) evs = (set_file F (run_events g evs).1, (run_events g evs).2) /\
  file (run_events g evs).1 = file g.
Proof.
  induction evs as [|[node now] evs IH]; intros g Hs Hlf; [done|].
  rewrite !run_events_cons.
  destruct (hook_pattern_ignores_file F g node now Hs Hlf) as (-> & Hlf1 & Hfile).
  cbn [fst snd].
  destruct (IH (profiler_hook g node now).1) as (-> & Hfile1);
    [by destruct (hook_fields g node now) as (_ & -> & _)|done|].
  split; [done|]. by rewrite Hfile1.
Qed.

Lemma cleanup_eq g :
  cleanup g =
    mk_rblineprof (enabled g) (source_filename g) (file (cleanup g)) (source_regex g) ∅ None.
Proof.
  unfold cleanup. cbn [set_last_file set_files files file].
  rewrite st_foreach_cleanup. by destruct (lines (file g)).
Qed.

(** X4.  A session with a pattern is independent of everything earlier
    sessions left behind: from any idle state it returns the same outcome,
    makes the same calls of the runtime and leaves the same table and the
    same active record as the same call made right after
    [Init_rblineprof].  It never touches the open interval of the
    fast-path record [rblineprof.file]: [last_time] and [last_line] of that
    record are after the session what they were before it. *)
Theorem pattern_session_ignores_history intern_addr w re b :
  enabled (prof w) = false ->
  (lineprof intern_addr w (Some b) (VRegexp re)).1.2 =
    (lineprof intern_addr world0 (Some b) (VRegexp re)).1.2 /\
  (lineprof intern_addr w (Some b) (VRegexp re)).2 =
    (lineprof intern_addr world0 (Some b) (VRegexp re)).2 /\
  files (prof (lineprof intern_addr w (Some b) (VRegexp re)).1.1) =
    files (prof (lineprof intern_addr world0 (Some b) (VRegexp re)).1.1) /\
  last_file (prof (lineprof intern_addr w (Some b) (VRegexp re)).1.1) =
    last_file (prof (lineprof intern_addr world0 (Some b) (VRegexp re)).1.1) /\
  last_time (file (prof (lineprof intern_addr w (Some b) (VRegexp re)).1.1)) =
    last_time (file (prof w)) /\
  last_line (file (prof (lineprof intern_addr w (Some b) (VRegexp re)).1.1)) =
    last_line (file (prof w)).
Proof.
  intros Hen.
  rewrite (lineprof_runs intern_addr w b _ _ Hen (lineprof_begin_regexp intern_addr re _)).
  rewrite (lineprof_runs intern_addr world0 b _ _ eq_refl
             (lineprof_begin_regexp intern_addr re _)).
  cbn [fst snd prof].
  destruct (begin_keeps_interval intern_addr (VRegexp re) (prof w) _
              (lineprof_begin_regexp intern_addr re _)) as (_ & _ & _ & Hlt & Hll).
  set (gw := set_enabled true (cleanup _)) in *.
  set (g0 := set_enabled true (cleanup _)).
  assert (gw = set_file (file gw) g0) as Hgw.
  { subst gw g0. rewrite (cleanup_eq (mk_rblineprof _ _ _ _ _ _)), Hen. done. }
  assert (source_filename g0 = None) as Hs by done.
  assert (last_file g0 ≠ Some ref_file) as Hlf by done.
  destruct (run_pattern_ignores_file (file gw) (blk_events b) g0 Hs Hlf) as [Hrun Hfile].
  remember (file gw) as F eqn:HF. rewrite Hgw, Hrun. cbn [fst snd].
  assert (source_filename (run_events g0 (blk_events b)).1 = None) as Hs1
    by (by rewrite run_fields).
  split_and!; [|done|done|done|done|done].
  destruct (blk_raises b); [done|]. f_equal.
  unfold lineprof_report. cbn [set_enabled set_file source_filename files]. by rewrite Hs1.
Qed.

Lemma pattern_session_after_single_session :
  (lineprof host_intern after_first_session (Some (mk_block two_files None))
     (VRegexp any_path)).1.2 =
    (lineprof host_intern world0 (Some (mk_block two_files None)) (VRegexp any_path)).1.2 /\
  last_time (file (prof (lineprof host_intern after_first_session
                           (Some (mk_block two_files None)) (VRegexp any_path)).1.1)) = 1000.
Proof.
  destruct (pattern_session_ignores_history host_intern after_first_session any_path
              (mk_block two_files None) eq_refl) as (Hout & _ & _ & _ & Hlt & _).
  split; [exact Hout|]. rewrite Hlt. reflexivity.
Defined.

(** * Single-file sessions *)

(** Two records that differ at most in their file name and, while no
    interval is open, in their last line. *)
Lemma hook_sample_agree l t sf sf' :
  lines sf = lines sf' -> nlines sf = nlines sf' -> last_time sf = last_time sf' ->
  (last_time sf ≠ 0 -> last_line sf = last_line sf') ->
  lines (hook_sample l t sf) = lines (hook_sample l t sf') /\
  nlines (hook_sample l t sf) = nlines (hook_sample l t sf') /\
  last_time (hook_sample l t sf) = last_time (hook_sample l t sf') /\
  last_line (hook_sample l t sf) = last_line (hook_sample l t sf').
Proof.
  intros Hl Hn Ht Hll. destruct (decide (last_time sf = 0)) as [Hz|Hnz].
  - assert (last_time sf' = 0) as Hz' by congruence.
    rewrite (hook_sample_closed l t sf Hz), (hook_sample_closed l t sf' Hz'). done.
  - assert (sf' = set_filename (filename sf') sf) as ->.
    { specialize (Hll Hnz). destruct sf, sf'. unfold set_filename. cbn in *. congruence. }
    by rewrite hook_sample_set_filename.
Qed.

Lemma sample_all_agree tl : forall sf sf',
  lines sf = lines sf' -> nlines sf = nlines sf' -> last_time sf = last_time sf' ->
  (last_time sf ≠ 0 -> last_line sf = last_line sf') ->
  lines (sample_all sf tl) = lines (sample_all sf' tl) /\
  nlines (sample_all sf tl) = nlines (sample_all sf' tl).
Proof.
  induction tl as [|[t l] tl IH]; intros sf sf' Hl Hn Ht Hll; [done|].
  rewrite !sample_all_cons. cbn [fst snd].
  destruct (hook_sample_agree l t sf sf' Hl Hn Ht Hll) as (H1 & H2 & H3 & H4).
  by apply IH.
Qed.

Lemma lines_ary_agree sf sf' :
  lines sf = lines sf' -> nlines sf = nlines sf' -> lines_ary sf = lines_ary sf'.
Proof. unfold lines_ary, line_cell. by intros -> ->. Qed.

(** In single-file mode an event for another record is no event at all. *)
Lemma run_single_filter target evs : forall g,
  source_filename g = Some target ->
  run_events g evs = run_events g (filter (fun e => hits target e.1) evs).
Proof.
  induction evs as [|[node now] evs IH]; intros g Ht; [done|].
  destruct (hits target node) eqn:Hh.
  - rewrite filter_cons_True by (by apply Is_true_true).
    rewrite !run_events_cons. rewrite <- IH; [done|].
    by destruct (hook_single_file g target node now Ht) as (-> & _).
  - rewrite filter_cons_False by (by apply Is_true_false).
    rewrite run_events_cons, (hook_single_miss g target node now Ht Hh). cbn [fst snd].
    rewrite <- IH by done. by destruct (run_events g evs).
Qed.

(** In single-file mode the hook leaves the table and the pattern alone. *)
Lemma hook_single_table g target node now :
  source_filename g = Some target -> (forall k, last_file g ≠ Some (ref_entry k)) ->
  files (profiler_hook g node now).1 = files g /\
  source_regex (profiler_hook g node now).1 = source_regex g /\
  (forall k, last_file (profiler_hook g node now).1 ≠ Some (ref_entry k)).
Proof.
  intros Ht Hlf. destruct (hits target node) eqn:Hh.
  - destruct (hook_single_hit g target node now Ht Hh) as (f & _ & ->). cbn [fst].
    unfold hook_switch. cbn [set_file last_file].
    destruct (last_file g) as [[|q]|] eqn:Hq; [done|by destruct (Hlf q)|done].
  - by rewrite (hook_single_miss g target node now Ht Hh).
Qed.

Lemma run_single_table target evs : forall g,
  source_filename g = Some target -> (forall k, last_file g ≠ Some (ref_entry k)) ->
  files (run_events g evs).1 = files g /\
  source_regex (run_events g evs).1 = source_regex g.
Proof.
  induction evs as [|[node now] evs IH]; intros g Ht Hlf; [done|].
  rewrite run_events_cons. cbn [fst].
  destruct (hook_single_table g target node now Ht Hlf) as (Hf & Hr & Hlf1).
  destruct (IH (profiler_hook g node now).1) as (-> & ->);
    [by destruct (hook_single_file g target node now Ht) as (-> & _)|done|done].
Qed.

Lemma scoped_filter re evs :
  scoped re (filter (fun e => is_Some (in_scope re e.1)) evs) = scoped re evs.
Proof.
  induction evs as [|[node now] evs IH]; [done|].
  destruct (in_scope re node) as [k|] eqn:Hin.
  - rewrite filter_cons_True by (cbn; rewrite Hin; eauto).
    by rewrite !scoped_cons, Hin, IH.
  - rewrite filter_cons_False by (cbn; rewrite Hin; by intros [? ?]).
    by rewrite scoped_cons, Hin.
Qed.

(** X5.  A single-file session started from an idle state whose fast-path
    record has no open interval ([last_time] zero) returns what the same
    call returns right after [Init_rblineprof]: nothing else of the
    earlier state is read. *)
Theorem single_session_from_closed_record intern_addr w p b :
  clean (prof w) ->
  (lineprof intern_addr w (Some b) (VString p)).1.2 =
    (lineprof intern_addr world0 (Some b) (VString p)).1.2.
Proof.
  intros (Hen & Hwf & Hz).
  destruct (single_session intern_addr w p b Hen Hwf) as (_ & _ & ->).
  destruct (single_session intern_addr world0 p b eq_refl rec_wf_zero) as (_ & _ & ->).
  destruct (blk_raises b); [done|]. do 2 f_equal.
  destruct (sample_all_agree
              (samples_of (rb_source_filename intern_addr p) (blk_events b))
              (set_lines None 0 (file (prof w)))
              (set_lines None 0 (file (prof world0)))) as [Hl Hn];
    [done|done|by cbn|by cbn|].
  by apply lines_ary_agree.
Qed.

Lemma single_session_after_pattern_session :
  files (prof after_pattern_session) ≠ ∅ /\
  (lineprof host_intern after_pattern_session (Some (mk_block scenario None))
     (VString "a.rb")).1.2 = Return (<["a.rb"%string := [0; 5; 15] ++ replicate 98 0]> ∅).
Proof.
  split; [by vm_compute|].
  rewrite (single_session_from_closed_record host_intern after_pattern_session "a.rb"
             (mk_block scenario None)).
  - by vm_compute.
  - vm_compute. repeat split.
Defined.

(** X6.  Events that belong to no record can be taken out of a block
    without changing what the session does.  In single-file mode these are
    the events without a file name, with a line that is not positive, or
    with a file name at another address than the target: the whole result
    of [lineprof] (state, outcome and calls of the runtime) is the same
    without them.  Under a pattern these are the events without a file
    name, with a line that is not positive, or of a path the pattern does
    not match: the outcome is the same without them. *)
Theorem events_out_of_scope_can_be_dropped intern_addr w evs r :
  (forall p,
     lineprof intern_addr w (Some (mk_block evs r)) (VString p) =
       lineprof intern_addr w
         (Some (mk_block
                  (filter (fun e => hits (rb_source_filename intern_addr p) e.1) evs) r))
         (VString p)) /\
  (forall re,
     (lineprof intern_addr w (Some (mk_block evs r)) (VRegexp re)).1.2 =
       (lineprof intern_addr w
          (Some (mk_block (filter (fun e => is_Some (in_scope re e.1)) evs) r))
          (VRegexp re)).1.2).
Proof.
  destruct (enabled (prof w)) eqn:Hen.
  { split; intros; unfold lineprof; by rewrite Hen. }
  split.
  - intros p.
    rewrite !(lineprof_runs intern_addr w _ _ _ Hen (lineprof_begin_string intern_addr p _)).
    cbn [blk_events blk_raises]. set (g0 := set_enabled true (cleanup _)).
    assert (source_filename g0 = Some (rb_source_filename intern_addr p)) as Hsrc.
    { subst g0. cbn [set_enabled source_filename]. by rewrite (proj1 (cleanup_source _)). }
    by rewrite <- (run_single_filter _ evs g0 Hsrc).
  - intros re.
    destruct (pattern_session_paths intern_addr w re (mk_block evs r) Hen) as (_ & H1 & ->).
    destruct (pattern_session_paths intern_addr w re
                (mk_block (filter (fun e => is_Some (in_scope re e.1)) evs) r) Hen)
      as (_ & H2 & ->).
    cbn [blk_events blk_raises] in *. destruct r; [done|]. f_equal.
    apply map_eq. intros path. by rewrite H1, H2, scoped_filter.
Qed.

(** X7.  A single-file session never searches the pattern and never
    touches the table: from any idle state it calls the runtime three
    times, for the hook, the block and the removal of the hook; it leaves
    the table empty, and leaves [source_regex] as it found it. *)
Theorem single_session_leaves_the_table_alone intern_addr w p b :
  enabled (prof w) = false ->
  (lineprof intern_addr w (Some b) (VString p)).2 =
    [call_add_event_hook; call_yield; call_remove_event_hook] /\
  files (prof (lineprof intern_addr w (Some b) (VString p)).1.1) = ∅ /\
  source_regex (prof (lineprof intern_addr w (Some b) (VString p)).1.1) =
    source_regex (prof w).
Proof.
  intros Hen.
  rewrite (lineprof_runs intern_addr w b _ _ Hen (lineprof_begin_string intern_addr p _)).
  cbn [fst snd prof]. set (g0 := set_enabled true (cleanup _)).
  assert (source_filename g0 = Some (rb_source_filename intern_addr p)) as Hsrc.
  { subst g0. cbn [set_enabled source_filename]. by rewrite (proj1 (cleanup_source _)). }
  assert (forall k, last_file g0 ≠ Some (ref_entry k)) as Hlf.
  { intros k. subst g0. cbn [set_enabled last_file]. by rewrite cleanup_last_file. }
  destruct (single_run_fold _ (blk_events b) g0 Hsrc) as (_ & -> & _).
  destruct (run_single_table _ (blk_events b) g0 Hsrc Hlf) as [Hf Hr].
  split_and!; [done| |].
  - cbn [set_enabled files]. rewrite Hf. subst g0. cbn [set_enabled files].
    apply cleanup_files_empty.
  - cbn [set_enabled source_regex]. rewrite Hr. subst g0. cbn [set_enabled source_regex].
    by rewrite (proj1 (proj2 (cleanup_source _))).
Qed.

Lemma single_session_after_pattern_table :
  files (prof after_pattern_session) ≠ ∅ /\
  (lineprof host_intern after_pattern_session (Some (mk_block scenario None))
     (VString "a.rb")).2 = [call_add_event_hook; call_yield; call_remove_event_hook] /\
  files (prof (lineprof host_intern after_pattern_session (Some (mk_block scenario None))
                 (VString "a.rb")).1.1) = ∅.
Proof.
  split; [by vm_compute|].
  destruct (single_session_leaves_the_table_alone host_intern after_pattern_session "a.rb"
              (mk_block scenario None) eq_refl) as (Hlog & Hfiles & _).
  split; [exact Hlog|exact Hfiles].
Defined.

(** * The time a report accounts for *)

Lemma total_app a b : total (a ++ b) = total a + total b.
Proof. unfold total. induction a as [|x a IH]; cbn; [done|]. rewrite IH. lia. Qed.

Lemma total_plus {A} (f g : A -> Z) l :
  total ((fun i => f i + g i) <$> l) = total (f <$> l) + total (g <$> l).
Proof. unfold total. induction l as [|x l IH]; cbn; [done|]. rewrite IH. lia. Qed.

Lemma total_zero {A} (l : list A) : total ((fun _ => 0) <$> l) = 0.
Proof. unfold total. induction l as [|x l IH]; cbn; [done|]. by rewrite IH. Qed.

Lemma total_cells a : forall N : nat,
  (length a <= N)%nat -> total a = total ((fun i => default 0 (a !! i)) <$> seq 0 N).
Proof.
  induction a as [|x a IH]; intros N Hlen.
  - rewrite (list_fmap_ext _ (fun _ => 0) (seq 0 N)); [by rewrite total_zero|].
    by intros i y _.
  - destruct N as [|N]; [cbn in Hlen; lia|].
    cbn [seq fmap list_fmap]. rewrite <- fmap_S_seq, <- list_fmap_compose.
    change (total (x :: a)) with (x + total a).
    change (total (?y :: ?l)) with (y + total l). cbn [lookup list_lookup default].
    rewrite (IH N) by (cbn in Hlen; lia). done.
Qed.

Lemma total_indicator (l x : Z) (N : nat) :
  0 <= l ->
  total ((fun i => if l =? Z.of_nat i then x else 0) <$> seq 0 N) =
    if l <? Z.of_nat N then x else 0.
Proof.
  intros Hl. induction N as [|N IH].
  { change (Z.of_nat 0) with 0. destruct (Z.ltb_spec l 0); [lia|done]. }
  rewrite seq_S, fmap_app, total_app, IH. cbn [fmap list_fmap total foldr plus].
  destruct (Z.ltb_spec l (Z.of_nat N)), (Z.eqb_spec l (Z.of_nat N)),
    (Z.ltb_spec l (Z.of_nat (S N))); lia.
Qed.

Lemma span_next t0 l0 t1 l1 tl :
  span ((t0, l0) :: (t1, l1) :: tl) = (t1 - t0) + span ((t1, l1) :: tl).
Proof.
  unfold span. change (last ((t0, l0) :: (t1, l1) :: tl)) with (last ((t1, l1) :: tl)).
  destruct (last ((t1, l1) :: tl)) as [s|] eqn:Hlast; [cbn; lia|].
  by apply last_None in Hlast.
Qed.

(** Summed over the lines, the credits of a run of samples are the time
    from its first to its last sample. *)
Lemma total_credit (N : nat) tl :
  Forall (fun s => 0 <= s.2 < Z.of_nat N) tl ->
  total ((fun i => credit_of tl (Z.of_nat i)) <$> seq 0 N) = span tl.
Proof.
  induction tl as [|[t0 l0] tl IH]; intros Hl.
  - cbn [credit_of]. by rewrite total_zero.
  - apply Forall_cons in Hl as [Hl0 Hl]. cbn in Hl0. specialize (IH Hl).
    destruct tl as [|[t1 l1] tl].
    + cbn [credit_of]. rewrite total_zero. cbn. lia.
    + rewrite (list_fmap_ext _
                 (fun i => (if l0 =? Z.of_nat i then t1 - t0 else 0)
                           + credit_of ((t1, l1) :: tl) (Z.of_nat i)) (seq 0 N))
        by (by intros i y _).
      rewrite (total_plus (fun i => if l0 =? Z.of_nat i then t1 - t0 else 0)
                 (fun i => credit_of ((t1, l1) :: tl) (Z.of_nat i))).
      rewrite total_indicator by lia. rewrite IH, span_next.
      destruct (Z.ltb_spec l0 (Z.of_nat N)); [done|lia].
Qed.

Lemma lines_bounded (tl : list (Z * Z)) : exists M, Forall (fun s => s.2 < M) tl.
Proof.
  induction tl as [|[t l] tl [M IH]]; [exists 0; by apply Forall_nil|].
  exists (Z.max M (l + 1)). apply Forall_cons. split; [cbn; lia|].
  eapply Forall_impl; [exact IH|]. cbn. intros s Hs. lia.
Qed.

(** An array that gives every line its credit sums up to the span of the
    samples. *)
Lemma total_of_credits tl ary :
  Forall (fun s => 0 < s.2) tl -> credits_every_interval tl ary -> total ary = span tl.
Proof.
  intros Hpos Hc. destruct (lines_bounded tl) as [M HM].
  set (N := Nat.max (length ary) (Z.to_nat M)).
  rewrite (total_cells ary N) by lia.
  rewrite <- (total_credit N tl).
  - f_equal. apply list_fmap_ext. intros _ i _. apply Hc.
  - apply Forall_forall. intros s Hs.
    rewrite Forall_forall in Hpos, HM. specialize (Hpos s Hs). specialize (HM s Hs).
    cbn in *. lia.
Qed.

Lemma sample_all_credits sf tl :
  lines sf = None -> nlines sf = 0 -> last_time sf = 0 ->
  increasing_from 0 (tl.*1) -> Forall (fun s => s.1 < uint64_max) tl ->
  Forall (fun s => 0 < s.2) tl ->
  credits_every_interval tl (lines_ary (sample_all sf tl)).
Proof.
  intros Hl Hn H0 Hinc Hmax Hpos.
  destruct (sample_all_clean tl sf Hl Hn H0 Hinc) as (Hw & Hcell).
  - apply Forall_and. by split.
  - rewrite lines_ary_wf by done. intros i. by rewrite <- Hcell.
Qed.

(** X8.  A session started from a clean state that profiles one file in
    scope, with samples at strictly increasing clock readings
    [0 < t0 < ... < tn] below [2^64], reports an array whose cells add up to
    [tn - t0], the time from the first to the last sample of the file: every
    microsecond between two samples is credited to exactly one line, and
    nothing else is.  This holds in single-file mode, where events of other
    files do not interrupt the intervals, and under a pattern that matches
    no other file of the block. *)
Theorem report_adds_up_to_first_to_last_sample intern_addr w evs :
  clean (prof w) ->
  (forall p,
     increasing_from 0 ((samples_of (rb_source_filename intern_addr p) evs).*1) ->
     Forall (fun s => s.1 < uint64_max) (samples_of (rb_source_filename intern_addr p) evs) ->
     exists ary,
       (lineprof intern_addr w (Some (mk_block evs None)) (VString p)).1.2
         = Return (<[p := ary]> ∅) /\
       total ary = span (samples_of (rb_source_filename intern_addr p) evs)) /\
  (forall re path,
     only_path_in_scope re path evs ->
     increasing_from 0 ((path_samples path evs).*1) ->
     Forall (fun s => s.1 < uint64_max) (path_samples path evs) ->
     exists ret,
       (lineprof intern_addr w (Some (mk_block evs None)) (VRegexp re)).1.2 = Return ret /\
       total (default [] (ret !! path)) = span (path_samples path evs)).
Proof.
  intros (Hen & Hwf & Hclosed). split.
  - intros p Hinc Hmax.
    destruct (single_session intern_addr w p (mk_block evs None) Hen Hwf) as (fn & _ & ->).
    eexists. split; [done|]. apply total_of_credits; [apply samples_of_lines|].
    apply sample_all_credits; try done. apply samples_of_lines.
  - intros re path Hscope Hinc Hmax.
    destruct (pattern_session intern_addr w re path (mk_block evs None) Hen Hscope)
      as (ret & -> & Hoth & Hpath).
    exists ret. split; [done|]. cbn [blk_events] in Hpath. rewrite Hpath.
    case_decide as Hnil; [by rewrite Hnil|]. cbn [default].
    apply total_of_credits; [apply path_samples_lines|].
    apply sample_all_credits; try done. apply path_samples_lines.
Qed.

Lemma scenario_adds_up :
  (exists ary,
     (lineprof host_intern world0 (Some (mk_block scenario None)) (VString "a.rb")).1.2
       = Return (<["a.rb"%string := ary]> ∅) /\ total ary = 20) /\
  (exists ret,
     (lineprof host_intern world0 (Some (mk_block scenario_among_others None))
        (VRegexp only_a_rb)).1.2 = Return ret /\
     total (default [] (ret !! "a.rb"%string)) = 20).
Proof.
  assert (clean (prof world0)) as Hclean by (vm_compute; repeat split).
  destruct (report_adds_up_to_first_to_last_sample host_intern world0 scenario Hclean)
    as [Hsingle _].
  destruct (report_adds_up_to_first_to_last_sample host_intern world0 scenario_among_others
              Hclean) as [_ Hpattern].
  split.
  - destruct (Hsingle "a.rb"%string) as (ary & Hret & Htot).
    + vm_compute. repeat split.
    + replace (samples_of (rb_source_filename host_intern "a.rb") scenario)
        with [(1000, 1); (1005, 2); (1009, 2); (1020, 3)] by (by vm_compute).
      repeat (apply Forall_cons; split; [reflexivity|]). by apply Forall_nil.
    + exists ary. split; [exact Hret|]. rewrite Htot. reflexivity.
  - destruct (Hpattern only_a_rb "a.rb"%string) as (ret & Hret & Htot).
    + split; [by vm_compute|]. intros e f He Hf Hne. cbn.
      rewrite decide_False by done. lia.
    + vm_compute. repeat split.
    + replace (path_samples "a.rb" scenario_among_others)
        with [(1000, 1); (1005, 2); (1009, 2); (1020, 3)] by (by vm_compute).
      repeat (apply Forall_cons; split; [reflexivity|]). by apply Forall_nil.
    + exists ret. split; [exact Hret|]. rewrite Htot. reflexivity.
Defined.

(** * Invariants of the records, whatever the clock does *)

Section RecordInvariant.
Variable P : sourcefile_t -> Prop.
Hypothesis P_zero : P sourcefile_zero.
Hypothesis P_filename : forall fn sf, P sf -> P (set_filename fn sf).
Hypothesis P_close : forall sf, P sf -> P (set_last_time 0 sf).
Hypothesis P_sample : forall l t sf, 0 < l -> P sf -> P (hook_sample l t sf).
Hypothesis P_clear : forall sf, P sf -> P (set_lines None 0 sf).

(** A property of records that the operations of the hook and of the
    cleanup keep holds of every record after an event. *)
Lemma hook_records_keep g node now :
  (forall p sf, get_record g p = Some sf -> P sf) ->
  forall p sf, get_record (profiler_hook g node now).1 p = Some sf -> P sf.
Proof.
  intros Hall p sf Hget. destruct (resolve g node) as [p0|] eqn:Hres.
  - destruct (hook_resolved g node now p0 Hres)
      as (f & fn & _ & Hl & _ & _ & Hgp & _ & Hoth).
    destruct (decide (p = p0)) as [->|Hne].
    + rewrite Hgp in Hget. injection Hget as <-.
      apply P_sample; [done|]. apply P_filename.
      destruct (get_record g p0) as [sf0|] eqn:Hg0; [by apply (Hall p0)|done].
    + rewrite Hoth in Hget by done.
      destruct (decide (last_file g = Some p)).
      * destruct (get_record g p) as [sf0|] eqn:Hg0; [|done].
        injection Hget as <-. apply P_close. by apply (Hall p).
      * by apply (Hall p).
  - destruct (hook_unresolved g node now Hres) as (Hsame & _).
    rewrite Hsame in Hget. by apply (Hall p).
Qed.

Lemma run_records_keep evs : forall g,
  (forall p sf, get_record g p = Some sf -> P sf) ->
  forall p sf, get_record (run_events g evs).1 p = Some sf -> P sf.
Proof.
  induction evs as [|[node now] evs IH]; intros g Hall; [done|].
  rewrite run_events_cons. cbn [fst]. apply IH. by apply hook_records_keep.
Qed.

Lemma lineprof_records_keep intern_addr w blk filename :
  (forall p sf, get_record (prof w) p = Some sf -> P sf) ->
  forall p sf,
    get_record (prof (lineprof intern_addr w blk filename).1.1) p = Some sf -> P sf.
Proof.
  intros Hall. destruct blk as [b|]; [|done].
  destruct (enabled (prof w)) eqn:Hen; [unfold lineprof; by rewrite Hen|].
  destruct (lineprof_begin intern_addr filename (prof w)) as [g0|] eqn:Hb;
    [|unfold lineprof; by rewrite Hen, Hb].
  rewrite (lineprof_runs intern_addr w b filename g0 Hen Hb). cbn [fst prof].
  intros p sf. change (get_record (set_enabled false ?g) p) with (get_record g p).
  apply run_records_keep. intros q sf0 Hq.
  destruct (begin_records intern_addr filename (prof w) g0 Hb) as (Hnone & _ & _ & Hfile).
  destruct q as [|k]; [|by rewrite Hnone in Hq].
  cbn [get_record] in Hq. injection Hq as <-.
  destruct Hfile as [->| ->]; [by apply (Hall ref_file)|].
  apply P_clear. by apply (Hall ref_file).
Qed.

End RecordInvariant.

Lemma rec_shape_zero : rec_shape sourcefile_zero.
Proof.
  split_and!; [done|by left|done| |done].
  intros i. unfold is_uint64, uint64_max. by destruct i.
Qed.

Lemma rec_shape_set_filename fn sf : rec_shape sf -> rec_shape (set_filename fn sf).
Proof. by destruct sf. Qed.

Lemma rec_shape_close sf : rec_shape sf -> rec_shape (set_last_time 0 sf).
Proof. destruct sf. intros (? & ? & ? & ? & ?). by split_and!. Qed.

Lemma rec_shape_clear sf : rec_shape sf -> rec_shape (set_lines None 0 sf).
Proof.
  intros (_ & _ & _ & _ & Hl). split_and!; [done|by left|done| |done].
  intros i. unfold is_uint64, uint64_max. by destruct i.
Qed.

Lemma rec_shape_sample l t sf : 0 < l -> rec_shape sf -> rec_shape (hook_sample l t sf).
Proof.
  intros Hl (Hwf & Hn & H0 & Hu & Hll).
  destruct (decide (last_time sf = 0)) as [Hz|Hnz].
  - rewrite hook_sample_closed by done. split_and!; try done; by apply rec_wf_set_last.
  - specialize (Hll Hnz).
    destruct (hook_sample_open l t sf) as (a & Ha & Hlen & Hlt & Hnl & Ht' & Hl' & _ & Hcell);
      [done|done|lia|].
    assert (forall i, line_cell (hook_sample l t sf) i = default 0 (a !! i)) as Hc.
    { intros i. unfold line_cell. by rewrite Ha. }
    split_and!.
    + unfold rec_wf. by rewrite Ha.
    + right. rewrite Hnl. case_bool_decide; [lia|].
      destruct (Z.leb_spec (nlines sf) (last_line sf)); lia.
    + rewrite Hc, Hcell. rewrite decide_False by lia. done.
    + intros i. rewrite Hc, Hcell. case_decide; [apply uint64_range|apply Hu].
    + rewrite Hl'. done.
Qed.

Lemma lines_ary_shape sf : rec_shape sf -> ary_shape (lines_ary sf).
Proof.
  intros (Hwf & Hn & H0 & Hu & _). rewrite lines_ary_wf by done.
  unfold rec_wf in Hwf. unfold line_cell in H0, Hu.
  destruct (lines sf) as [a|]; cbn [default from_option] in *; unfold id in *.
  - split_and!; [|done|].
    + destruct Hn as [Hn|Hn]; [left; apply length_zero_iff_nil; lia|right; lia].
    + apply Forall_lookup. intros i x Hx. specialize (Hu i). by rewrite Hx in Hu.
  - split_and!; [by left|done|by apply Forall_nil].
Qed.

(** Every array of a report is the array of a record of the state. *)
Lemma report_arrays g k ary :
  lineprof_report g !! k = Some ary ->
  exists p sf, get_record g p = Some sf /\ ary = lines_ary sf.
Proof.
  unfold lineprof_report. destruct (source_filename g) as [target|].
  - intros [[_ <-]|[_ Hemp]]%lookup_insert_Some; [|by rewrite lookup_empty in Hemp].
    by exists ref_file, (file g).
  - assert (forall ary,
      map_fold summarize_files ∅ (files g) !! k = Some ary ->
      exists k' sf, files g !! k' = Some (entry_record sf) /\ ary = lines_ary sf) as H.
    { clear ary. generalize (files g).
      apply (map_fold_weak_ind
        (fun ret m => forall ary, ret !! k = Some ary ->
           exists k' sf, m !! k' = Some (entry_record sf) /\ ary = lines_ary sf)).
      - intros ary. by rewrite lookup_empty.
      - intros i x m r Hi IH ary Hary.
        assert (forall ary, r !! k = Some ary ->
                  exists k' sf, <[i:=x]> m !! k' = Some (entry_record sf) /\
                                ary = lines_ary sf) as IH'.
        { intros ary' Hr. destruct (IH ary' Hr) as (k' & sf & Hk' & ->).
          exists k', sf. split; [|done]. rewrite lookup_insert_ne; [done|]. congruence. }
        destruct x as [|sf]; cbn in Hary; [by apply IH'|].
        destruct (filename sf) as [name|]; [|by apply IH'].
        destruct (decide (name = k)) as [->|Hne].
        + rewrite lookup_insert_eq in Hary. injection Hary as <-.
          exists i, sf. by rewrite lookup_insert_eq.
        + rewrite lookup_insert_ne in Hary by done. by apply IH'. }
    intros Hary. destruct (H ary Hary) as (k' & sf & Hk' & ->).
    exists (ref_entry k'), sf. cbn. by rewrite Hk'.
Qed.

Lemma lineprof_returns intern_addr w blk filename ret :
  (lineprof intern_addr w blk filename).1.2 = Return ret ->
  ret = lineprof_report (prof (lineprof intern_addr w blk filename).1.1).
Proof.
  destruct blk as [b|]; [|done].
  destruct (enabled (prof w)) eqn:Hen; [unfold lineprof; by rewrite Hen|].
  destruct (lineprof_begin intern_addr filename (prof w)) as [g0|] eqn:Hb;
    [|unfold lineprof; by rewrite Hen, Hb].
  rewrite (lineprof_runs intern_addr w b filename g0 Hen Hb). cbn [fst snd prof].
  destruct (blk_raises b); [done|]. by intros [= <-].
Qed.

(** X9.  Between sessions, whatever blocks ran and whatever the clock did,
    every record of the profiler has as many cells as [nlines] says, none
    or at least 101 of them, a zero in cell 0 and [uint64_t] values in all
    cells; and every array a call of [lineprof] returns is empty or has at
    least 101 cells, has a zero at index 0 (Ruby lines count from 1) and
    holds values below [2^64] only. *)
Theorem records_and_arrays_keep_their_shape intern_addr w :
  after_sessions intern_addr w ->
  (forall p sf, get_record (prof w) p = Some sf -> rec_shape sf) /\
  (forall blk filename ret k ary,
     (lineprof intern_addr w blk filename).1.2 = Return ret ->
     ret !! k = Some ary -> ary_shape ary).
Proof.
  intros Hw.
  assert (forall p sf, get_record (prof w) p = Some sf -> rec_shape sf) as Hall.
  { induction Hw as [|w blk filename Hw IH].
    - intros [|k] sf; [|done]. intros [= <-]. apply rec_shape_zero.
    - exact (lineprof_records_keep rec_shape rec_shape_zero rec_shape_set_filename
               rec_shape_close rec_shape_sample rec_shape_clear intern_addr w blk filename
               IH). }
  split; [done|]. intros blk filename ret k ary Hret Hk.
  rewrite (lineprof_returns intern_addr w blk filename ret Hret) in Hk.
  destruct (report_arrays _ k ary Hk) as (p & sf & Hp & ->).
  apply lines_ary_shape.
  apply (lineprof_records_keep rec_shape rec_shape_zero rec_shape_set_filename
           rec_shape_close rec_shape_sample rec_shape_clear intern_addr w blk filename
           Hall p sf Hp).
Qed.

Lemma shape_after_first_session :
  after_sessions host_intern after_first_session /\
  (lineprof host_intern after_first_session (Some second_block) (VString "a.rb")).1.2 =
    Return (<["a.rb"%string := [0; 4000] ++ replicate 99 0]> ∅) /\
  ary_shape ([0; 4000] ++ replicate 99 0).
Proof.
  assert (after_sessions host_intern after_first_session) as Hw.
  { apply (sessions_next host_intern world0 (Some one_line_block) (VString "a.rb")).
    apply sessions_none. }
  assert ((lineprof host_intern after_first_session (Some second_block)
             (VString "a.rb")).1.2 =
            Return (<["a.rb"%string := [0; 4000] ++ replicate 99 0]> ∅)) as Hret
    by (by vm_compute).
  split; [exact Hw|]. split; [exact Hret|].
  destruct (records_and_arrays_keep_their_shape host_intern after_first_session Hw)
    as [_ Hshape].
  apply (Hshape (Some second_block) (VString "a.rb") _ "a.rb"%string _ Hret).
  by vm_compute.
Defined.

(** * A clock that steps back *)

Lemma uint64_negative z : - uint64_max < z < 0 -> uint64 z = uint64_max + z.
Proof.
  intros Hz. unfold uint64. symmetry. apply (Z.mod_unique _ _ (-1)); lia.
Qed.

(** X10.  The clock is the wall clock and may step back.  In a single-file
    session from a clean state whose target file has two samples, the
    second at an earlier clock reading than the first ([0 < t1 < t0]), the
    line of the first sample is credited [2^64 - (t0 - t1)]: the difference
    wraps around in [uint64_t].  The array has [l0 + 100] cells and all its
    other cells are zero. *)
Theorem clock_stepping_back_wraps_around intern_addr w p evs t0 l0 t1 l1 :
  clean (prof w) ->
  samples_of (rb_source_filename intern_addr p) evs = [(t0, l0); (t1, l1)] ->
  0 < t1 < t0 -> t0 < uint64_max ->
  exists ary,
    (lineprof intern_addr w (Some (mk_block evs None)) (VString p)).1.2
      = Return (<[p := ary]> ∅) /\
    length ary = Z.to_nat (l0 + 100) /\
    ary !! Z.to_nat l0 = Some (uint64_max - (t0 - t1)) /\
    forall i, i ≠ Z.to_nat l0 -> default 0 (ary !! i) = 0.
Proof.
  intros (Hen & Hwf & Hz) Hs Ht Hmax.
  destruct (single_session intern_addr w p (mk_block evs None) Hen Hwf) as (fn & _ & ->).
  cbn [blk_events blk_raises]. rewrite Hs.
  assert (0 < l0) as Hl0.
  { pose proof (samples_of_lines (rb_source_filename intern_addr p) evs) as Hpos.
    rewrite Hs in Hpos. by apply Forall_cons in Hpos as [Hpos _]. }
  set (sf0 := set_lines None 0 (file (prof w))).
  rewrite !sample_all_cons. cbn [fst snd].
  rewrite (hook_sample_closed l0 t0 sf0) by done.
  destruct (hook_sample_alloc l1 t1 (set_last t0 l0 sf0)) as [Hn Hl];
    [done|cbn; lia|cbn; lia|].
  cbn [set_last last_time last_line] in Hn, Hl.
  eexists. split; [done|]. change (sample_all ?sf []) with sf.
  assert (rec_wf (hook_sample l1 t1 (set_last t0 l0 sf0))) as Hwf1.
  { apply hook_sample_wf; [done|]. cbn. lia. }
  rewrite lines_ary_wf by done. rewrite Hl. cbn [default from_option]. unfold id.
  assert (uint64 (0 + uint64 (t1 - t0)) = uint64_max - (t0 - t1)) as Hval.
  { rewrite (uint64_negative (t1 - t0)) by lia. rewrite Z.add_0_l.
    rewrite uint64_small by (unfold is_uint64; lia). lia. }
  split_and!.
  - rewrite length_alter, length_replicate. done.
  - rewrite list_lookup_alter, lookup_replicate_2 by lia.
    rewrite decide_True by done. cbn [fmap option_fmap option_map]. by rewrite Hval.
  - intros i Hi. rewrite list_lookup_alter_ne by done.
    destruct (replicate (Z.to_nat (l0 + 100)) 0 !! i) as [x|] eqn:Hx; [|done].
    by apply lookup_replicate in Hx as [-> _].
Qed.

Lemma clock_stepping_back_example :
  exists ary,
    (lineprof host_intern world0
       (Some (mk_block [line_event a_rb 2000 1; line_event a_rb 1500 2] None))
       (VString "a.rb")).1.2 = Return (<["a.rb"%string := ary]> ∅) /\
    length ary = 101%nat /\
    ary !! 1%nat = Some 18446744073709551116.
Proof.
  destruct (clock_stepping_back_wraps_around host_intern world0 "a.rb"
              [line_event a_rb 2000 1; line_event a_rb 1500 2] 2000 1 1500 2)
    as (ary & Hret & Hlen & Hcell & _).
  - vm_compute. repeat split.
  - by vm_compute.
  - lia.
  - reflexivity.
  - exists ary. split; [exact Hret|]. split; [exact Hlen|exact Hcell].
Defined.

(** * The pattern and the garbage collector *)

Lemma reachable_regex intern_addr c g :
  reachable intern_addr c g -> enabled g = true -> source_filename g = None ->
  exists re, source_regex g = Some re.
Proof.
  induction 1 as [|c g filename g0 Hr IH Hen Hb|c g node now Hr IH Hen Hnow|c g Hr IH];
    intros He Hs.
  - done.
  - destruct filename as [s|re|]; [| |done].
    + rewrite lineprof_begin_string in Hb. injection Hb as <-.
      cbn [set_enabled source_filename] in Hs.
      by rewrite (proj1 (cleanup_source _)) in Hs.
    + rewrite lineprof_begin_regexp in Hb. injection Hb as <-.
      exists re. cbn [set_enabled source_regex].
      by rewrite (proj1 (proj2 (cleanup_source _))).
  - destruct (hook_fields g node now) as (He' & Hs' & ->).
    apply IH; congruence.
  - done.
Qed.

(** X11.  Whenever the hook of an enabled session searches the pattern
    (line 78), [source_regex] holds a Regexp and [rblineprof_gc_mark] hands
    that Regexp to the collector: the pattern in use is marked.  Outside a
    session the mark function marks nothing. *)
Theorem searched_pattern_is_marked intern_addr c g node now path :
  reachable intern_addr c g -> enabled g = true ->
  call_reg_search path ∈ (profiler_hook g node now).2 ->
  exists re,
    source_regex g = Some re /\
    rblineprof_gc_mark g = [Some re] /\
    rblineprof_gc_mark (set_enabled false g) = [] /\
    classify (profiler_hook g node now).1 path = Some (0 <=? rb_reg_search re path).
Proof.
  intros Hr Hen Hin.
  destruct (hook_log g node now) as [Hnil|(f & Hf & Hl & Hs & Hc & Hlog)].
  { rewrite Hnil in Hin. by apply elem_of_nil in Hin. }
  rewrite Hlog in Hin. apply list_elem_of_singleton in Hin. injection Hin as ->.
  destruct (reachable_regex intern_addr c g Hr Hen Hs) as [re Hre].
  exists re. split; [done|]. unfold rblineprof_gc_mark. rewrite Hen, Hre.
  split; [done|]. split; [done|].
  rewrite hook_classify, Hc, Hlog. rewrite decide_True by done.
  unfold regex_matches. by rewrite Hre.
Qed.

Lemma searched_pattern_is_marked_b_rb :
  exists re,
    rblineprof_gc_mark
      (default Init_rblineprof
         (lineprof_begin host_intern (VRegexp only_b_rb) Init_rblineprof)) = [Some re] /\
    rb_reg_search re "b.rb" = 0.
Proof.
  set (g := default Init_rblineprof
              (lineprof_begin host_intern (VRegexp only_b_rb) Init_rblineprof)).
  assert (reachable host_intern 0 g) as Hr.
  { by apply (reach_begin host_intern 0 Init_rblineprof (VRegexp only_b_rb));
      [constructor| |]. }
  destruct (searched_pattern_is_marked host_intern 0 g (mk_NODE (Some b_rb) 1) 1000 "b.rb"
              Hr eq_refl) as (re & Hre & Hmark & _).
  - vm_compute. apply elem_of_cons. by left.
  - exists re. split; [exact Hmark|].
    assert (source_regex g = Some only_b_rb) as Hg by reflexivity.
    rewrite Hg in Hre. injection Hre as <-. reflexivity.
Defined.

(** * The clock *)

Lemma digits2_pos_bits p : Z.pos (digits2_pos p) = bits (Z.pos p).
Proof.
  unfold bits. induction p as [p IH|p IH|]; cbn [digits2_pos].
  - rewrite Pos2Z.inj_succ, IH. change (Z.pos p~1) with (2 * Z.pos p + 1).
    rewrite Z.log2_succ_double by lia. lia.
  - rewrite Pos2Z.inj_succ, IH. change (Z.pos p~0) with (2 * Z.pos p).
    rewrite Z.log2_double by lia. lia.
  - reflexivity.
Qed.

Lemma bits_pos v : 0 < v -> 1 <= bits v.
Proof. intros Hv. unfold bits. pose proof (Z.log2_nonneg v). lia. Qed.

Lemma bits_small v : 0 < v < 2 ^ 53 -> bits v <= 53.
Proof.
  intros Hv. unfold bits. assert (Z.log2 v < 53); [|lia].
  apply Z.log2_lt_pow2; lia.
Qed.

Lemma bits_shift v s : 0 < v -> 0 <= s -> bits (v * 2 ^ s) = bits v + s.
Proof. intros Hv Hs. unfold bits. rewrite Z.log2_mul_pow2 by lia. lia. Qed.

Lemma bits_le a b : 0 < a <= b -> bits a <= bits b.
Proof. intros H. unfold bits. pose proof (Z.log2_le_mono a b). lia. Qed.

Lemma bits_mul a b : 0 < a -> 0 < b -> bits a + bits b - 1 <= bits (a * b).
Proof. intros Ha Hb. unfold bits. pose proof (Z.log2_mul_below a b Ha Hb). lia. Qed.

Lemma shr_1_double m :
  shr_1 (Build_shr_record (2 * m) false false) = Build_shr_record m false false.
Proof. by destruct m. Qed.

(** Shifting out zeros loses nothing. *)
Lemma iter_shr_exact p : forall m,
  SpecFloat.iter_pos shr_1 p (Build_shr_record (m * 2 ^ Z.pos p) false false) =
    Build_shr_record m false false.
Proof.
  induction p as [p IH|p IH|]; intros m; cbn [SpecFloat.iter_pos].
  - replace (m * 2 ^ Z.pos p~1) with (2 * ((m * 2 ^ Z.pos p) * 2 ^ Z.pos p)).
    + by rewrite shr_1_double, !IH.
    + replace (Z.pos p~1) with (Z.pos p + Z.pos p + 1) by lia.
      rewrite !Z.pow_add_r by lia. ring.
  - replace (m * 2 ^ Z.pos p~0) with ((m * 2 ^ Z.pos p) * 2 ^ Z.pos p).
    + by rewrite !IH.
    + replace (Z.pos p~0) with (Z.pos p + Z.pos p) by lia.
      rewrite !Z.pow_add_r by lia. ring.
  - rewrite Z.pow_1_r, Z.mul_comm. apply shr_1_double.
Qed.

Lemma fexp_bits d : -1021 <= d -> fexp 53 1024 d = d - 53.
Proof. unfold fexp, emin. lia. Qed.

Lemma Zdigits2_bits v : 0 < v -> Zdigits2 v = bits v.
Proof. destruct v as [|p|p]; [lia| |lia]. intros _. apply digits2_pos_bits. Qed.

Lemma shifted_pos v s : 0 < v -> 0 <= s -> 0 < v * 2 ^ s.
Proof. intros Hv Hs. apply Z.mul_pos_pos; [done|]. by apply Z.pow_pos_nonneg. Qed.

(** A mantissa that is an integer below [2^53] times a power of two is
    rounded to that integer: nothing but zeros is shifted out. *)
Lemma shr_fexp_exact v s :
  0 < v < 2 ^ 53 -> 53 - bits v <= s ->
  shr_fexp 53 1024 (v * 2 ^ s) (- s) loc_Exact =
    (Build_shr_record (v * 2 ^ (53 - bits v)) false false, bits v - 53).
Proof.
  intros Hv Hs. pose proof (bits_pos v (proj1 Hv)) as Hb1. pose proof (bits_small v Hv) as Hb2.
  assert (0 <= s) as Hs0 by lia.
  unfold shr_fexp. rewrite Zdigits2_bits by (apply shifted_pos; lia).
  rewrite bits_shift by lia.
  replace (bits v + s + - s) with (bits v) by lia. rewrite fexp_bits by lia.
  cbn [shr_record_of_loc]. unfold shr.
  destruct (bits v - 53 - - s) as [|n|n] eqn:En; [| |lia].
  - replace s with (53 - bits v) by lia. f_equal. lia.
  - replace (v * 2 ^ s) with ((v * 2 ^ (53 - bits v)) * 2 ^ Z.pos n).
    + rewrite iter_shr_exact. f_equal. lia.
    + rewrite <- Z.mul_assoc, <- Z.pow_add_r by lia. f_equal. f_equal. lia.
Qed.

Lemma round_aux_exact v s :
  0 < v < 2 ^ 53 -> 53 - bits v <= s ->
  binary_round_aux 53 1024 false (v * 2 ^ s) (- s) loc_Exact = double_of_small v.
Proof.
  intros Hv Hs. pose proof (bits_pos v (proj1 Hv)) as Hb1. pose proof (bits_small v Hv) as Hb2.
  unfold binary_round_aux. rewrite shr_fexp_exact by done.
  cbn [shr_m loc_of_shr_record round_nearest_even].
  replace (bits v - 53) with (- (53 - bits v)) at 1 by lia.
  rewrite shr_fexp_exact by (done || lia). cbn [shr_m].
  pose proof (shifted_pos v (53 - bits v) (proj1 Hv)) as Hpos.
  unfold double_of_small.
  destruct (v * 2 ^ (53 - bits v)) as [|m|m]; [lia| |lia].
  destruct (Z.leb_spec (bits v - 53) (1024 - 53)); [done|lia].
Qed.

Lemma round_aux_exact_at v s e :
  0 < v < 2 ^ 53 -> 53 - bits v <= s -> e = - s ->
  binary_round_aux 53 1024 false (v * 2 ^ s) e loc_Exact = double_of_small v.
Proof. intros Hv Hs ->. by apply round_aux_exact. Qed.

Lemma iter_xO m q : Z.pos (Pos.iter xO m q) = Z.pos m * 2 ^ Z.pos q.
Proof.
  induction q as [|q IH] using Pos.peano_ind.
  - cbn [Pos.iter]. rewrite Z.pow_1_r. lia.
  - rewrite Pos.iter_succ, Pos2Z.inj_succ, Z.pow_succ_r by lia.
    change (Z.pos (Pos.iter xO m q)~0) with (2 * Z.pos (Pos.iter xO m q)). rewrite IH. lia.
Qed.

Lemma shl_align_down m e e' :
  e' <= e ->
  Z.pos (shl_align m e e').1 = Z.pos m * 2 ^ (e - e') /\ (shl_align m e e').2 = e'.
Proof.
  intros He. unfold shl_align. destruct (e' - e) as [|d|d] eqn:Hd; [|lia|].
  - replace (e - e') with 0 by lia. cbn [fst snd]. rewrite Z.pow_0_r. lia.
  - cbn [fst snd]. rewrite iter_xO. replace (e - e') with (Z.pos d) by lia. done.
Qed.

Lemma shl_align_up m e e' : e <= e' -> shl_align m e e' = (m, e).
Proof. intros He. unfold shl_align. destruct (e' - e) as [|d|d] eqn:Hd; [done|done|lia]. Qed.

Lemma double_of_small_mantissa v :
  0 < v -> bits v <= 53 -> Z.pos (Z.to_pos (v * 2 ^ (53 - bits v))) = v * 2 ^ (53 - bits v).
Proof. intros Hv Hb. apply Z2Pos.id. apply shifted_pos; lia. Qed.

(** An integer below [2^53] is converted to [double] without rounding. *)
Lemma double_of_uint64_exact v :
  0 < v < 2 ^ 53 -> double_of_uint64 v = double_of_small v.
Proof.
  intros Hv. pose proof (bits_pos v (proj1 Hv)) as Hb1. pose proof (bits_small v Hv) as Hb2.
  unfold double_of_uint64, binary_normalize. destruct v as [|m|m]; [lia| |lia].
  unfold binary_round. rewrite digits2_pos_bits, Z.add_0_r, fexp_bits by lia.
  destruct (shl_align_down m 0 (bits (Z.pos m) - 53)) as [Hm He]; [lia|].
  destruct (shl_align m 0 (bits (Z.pos m) - 53)) as [mz ez]. cbn [fst snd] in Hm, He.
  rewrite Hm, He.
  apply round_aux_exact_at; [done|lia|lia].
Qed.

(** A product below [2^53] is computed without rounding. *)
Lemma double_mul_exact a b :
  0 < a -> 0 < b -> a * b < 2 ^ 53 ->
  double_mul (double_of_small a) (double_of_small b) = double_of_small (a * b).
Proof.
  intros Ha Hb Hab.
  assert (a < 2 ^ 53 /\ b < 2 ^ 53) as [Ha' Hb'] by nia.
  pose proof (bits_small a (conj Ha Ha')). pose proof (bits_small b (conj Hb Hb')).
  pose proof (bits_mul a b Ha Hb). assert (0 < a * b) as Hpos by nia.
  pose proof (bits_small (a * b) (conj Hpos Hab)).
  unfold double_mul, double_of_small at 1 2, SFmul. cbn [xorb].
  rewrite Pos2Z.inj_mul, !double_of_small_mantissa by done.
  replace (a * 2 ^ (53 - bits a) * (b * 2 ^ (53 - bits b)))
    with (a * b * 2 ^ (106 - bits a - bits b)).
  - apply round_aux_exact_at; [done|lia|lia].
  - replace (106 - bits a - bits b) with ((53 - bits a) + (53 - bits b)) by lia.
    rewrite Z.pow_add_r by lia. ring.
Qed.

(** A sum below [2^53] is computed without rounding. *)
Lemma double_add_exact a b :
  0 < a -> 0 < b -> a + b < 2 ^ 53 ->
  double_add (double_of_small a) (double_of_small b) = double_of_small (a + b).
Proof.
  intros Ha Hb Hab.
  pose proof (bits_pos a Ha). pose proof (bits_pos b Hb).
  assert (bits a <= 53) by (apply bits_small; lia).
  assert (bits b <= 53) by (apply bits_small; lia).
  assert (bits a <= bits (a + b)) by (apply bits_le; lia).
  assert (bits b <= bits (a + b)) by (apply bits_le; lia).
  assert (bits (a + b) <= 53) by (apply bits_small; lia).
  unfold double_add, double_of_small at 1 2, SFadd. cbn [cond_Zopp].
  set (ez := Z.min (bits a - 53) (bits b - 53)).
  destruct (shl_align_down (Z.to_pos (a * 2 ^ (53 - bits a))) (bits a - 53) ez) as [Hma _];
    [lia|].
  destruct (shl_align_down (Z.to_pos (b * 2 ^ (53 - bits b))) (bits b - 53) ez) as [Hmb _];
    [lia|].
  rewrite Hma, Hmb, !double_of_small_mantissa by done.
  replace (a * 2 ^ (53 - bits a) * 2 ^ (bits a - 53 - ez) +
           b * 2 ^ (53 - bits b) * 2 ^ (bits b - 53 - ez))
    with ((a + b) * 2 ^ (- ez)).
  2:{ rewrite <- !Z.mul_assoc, <- !Z.pow_add_r by lia.
      replace (53 - bits a + (bits a - 53 - ez)) with (- ez) by lia.
      replace (53 - bits b + (bits b - 53 - ez)) with (- ez) by lia. ring. }
  pose proof (shifted_pos (a + b) (- ez)) as Hpos.
  pose proof (bits_shift (a + b) (- ez)) as Hbits.
  unfold binary_normalize.
  destruct ((a + b) * 2 ^ (- ez)) as [|m|m] eqn:Hm; [lia| |lia].
  unfold binary_round. rewrite digits2_pos_bits, Hbits by lia.
  replace (bits (a + b) + - ez + ez) with (bits (a + b)) by lia.
  rewrite fexp_bits by lia. rewrite shl_align_up by lia.
  rewrite <- Hm. apply round_aux_exact_at; lia.
Qed.

(** The way back to [uint64_t] is exact as well. *)
Lemma uint64_of_double_small v :
  0 < v < 2 ^ 53 -> uint64_of_double (double_of_small v) = Some v.
Proof.
  intros Hv. pose proof (bits_pos v (proj1 Hv)). pose proof (bits_small v Hv).
  unfold uint64_of_double, double_of_small.
  rewrite double_of_small_mantissa by lia.
  assert ((if 0 <=? bits v - 53 then v * 2 ^ (53 - bits v) * 2 ^ (bits v - 53)
           else v * 2 ^ (53 - bits v) / 2 ^ (- (bits v - 53))) = v) as ->.
  { destruct (Z.leb_spec 0 (bits v - 53)).
    - replace (bits v) with 53 by lia. cbn. lia.
    - replace (- (bits v - 53)) with (53 - bits v) by lia.
      apply Z.div_mul. apply Z.pow_nonzero; lia. }
  destruct (Z.ltb_spec v uint64_max) as [|Hge]; [done|].
  unfold uint64_max in Hge. lia.
Qed.

Lemma double_1e6_small : double_1e6 = double_of_small 1000000.
Proof. reflexivity. Qed.

(** X12.  [timeofday_usec] computes [tv_sec * 10^6 + tv_usec] in [double].
    For a [struct timeval] with [tv_sec] and [tv_usec] not negative and
    [tv_sec * 10^6 + tv_usec < 2^53] (any time of day before the year 2255)
    no step rounds: the function returns exactly that number of
    microseconds, which is a [uint64_t] value. *)
Theorem timeofday_usec_is_exact tv_sec tv_usec :
  0 <= tv_sec -> 0 <= tv_usec -> tv_sec * 1000000 + tv_usec < 2 ^ 53 ->
  timeofday_usec tv_sec tv_usec = Some (tv_sec * 1000000 + tv_usec) /\
  is_uint64 (tv_sec * 1000000 + tv_usec).
Proof.
  intros Hs Hu Hlt. split; [|unfold is_uint64, uint64_max; lia].
  unfold timeofday_usec.
  rewrite (uint64_small tv_sec), (uint64_small tv_usec)
    by (unfold is_uint64, uint64_max; lia).
  rewrite double_1e6_small.
  destruct (decide (tv_sec = 0)) as [->|Hs0], (decide (tv_usec = 0)) as [->|Hu0].
  - reflexivity.
  - rewrite (double_of_uint64_exact tv_usec) by lia.
    change (double_add (double_mul (double_of_uint64 0) (double_of_small 1000000))
              (double_of_small tv_usec)) with (double_of_small tv_usec).
    rewrite uint64_of_double_small by lia. f_equal; lia.
  - rewrite (double_of_uint64_exact tv_sec) by lia.
    rewrite double_mul_exact by lia.
    change (double_add (double_of_small (tv_sec * 1000000)) (double_of_uint64 0))
      with (double_of_small (tv_sec * 1000000)).
    rewrite uint64_of_double_small by lia. f_equal; lia.
  - rewrite (double_of_uint64_exact tv_sec), (double_of_uint64_exact tv_usec) by lia.
    rewrite double_mul_exact, double_add_exact by lia.
    by rewrite uint64_of_double_small by lia.
Qed.

Lemma timeofday_usec_example :
  timeofday_usec 1700000000 123456 = Some 1700000000123456 /\
  is_uint64 1700000000123456.
Proof.
  replace 1700000000123456 with (1700000000 * 1000000 + 123456) by reflexivity.
  apply timeofday_usec_is_exact; [lia|lia|reflexivity].
Defined.

(** Past [2^53] the sum is rounded to the nearest [double], and a
    [timeval] that is negative in either field leaves the range of
    [uint64_t]. *)
Example timeofday_usec_rounds_past_2_53 :
  timeofday_usec 9007199254 740993 = Some 9007199254740992 /\
  timeofday_usec (-1) 0 = None /\
  timeofday_usec 0 (-1) = None.
Proof. split_and!; by vm_compute. Qed.

(** * The interval a single-file session inherits *)

(** X13.  What a single-file session makes of an interval that an earlier
    session left open in the fast-path record ([last_time] not zero, on the
    line [last_line]): it returns what the same call returns right after
    [Init_rblineprof] for the same block with one more event in front, an
    event of the target file on line [last_line] at clock reading
    [last_time].  The last sample of the earlier session acts as the first
    sample of this one. *)
Theorem open_interval_acts_as_first_sample intern_addr w p evs r :
  enabled (prof w) = false -> rec_wf (file (prof w)) ->
  last_time (file (prof w)) ≠ 0 -> 0 < last_line (file (prof w)) ->
  (lineprof intern_addr w (Some (mk_block evs r)) (VString p)).1.2 =
    (lineprof intern_addr world0
       (Some (mk_block
                (line_event (rb_source_filename intern_addr p)
                   (last_time (file (prof w))) (last_line (file (prof w))) :: evs) r))
       (VString p)).1.2.
Proof.
  intros Hen Hwf Hopen Hline.
  destruct (single_session intern_addr w p (mk_block evs r) Hen Hwf) as (_ & _ & ->).
  destruct (single_session intern_addr world0 p
              (mk_block (line_event (rb_source_filename intern_addr p)
                           (last_time (file (prof w))) (last_line (file (prof w))) :: evs) r)
              eq_refl rec_wf_zero) as (_ & _ & ->).
  cbn [blk_events blk_raises]. destruct r; [done|]. do 2 f_equal.
  unfold line_event. rewrite samples_of_cons.
  assert (hits (rb_source_filename intern_addr p)
            (mk_NODE (Some (rb_source_filename intern_addr p)) (last_line (file (prof w))))
          = true) as ->.
  { unfold hits. cbn [nd_file nd_line]. rewrite Z.eqb_refl. cbn [andb]. by apply Z.ltb_lt. }
  rewrite sample_all_cons. cbn [fst snd nd_line].
  rewrite hook_sample_closed by done.
  destruct (sample_all_agree (samples_of (rb_source_filename intern_addr p) evs)
              (set_lines None 0 (file (prof w)))
              (set_last (last_time (file (prof w))) (last_line (file (prof w)))
                 (set_lines None 0 (file (prof world0))))) as [Hl Hn];
    [done|done|done|done|].
  by apply lines_ary_agree.
Qed.

Lemma open_interval_of_first_session :
  (lineprof host_intern after_first_session (Some second_block) (VString "a.rb")).1.2 =
    (lineprof host_intern world0
       (Some (mk_block [line_event a_rb 1000 1; line_event a_rb 5000 2] None))
       (VString "a.rb")).1.2.
Proof.
  apply (open_interval_acts_as_first_sample host_intern after_first_session "a.rb"
           (blk_events second_block) None).
  - reflexivity.
  - by vm_compute.
  - by vm_compute.
  - by vm_compute.
Defined.
